(** * test-webhook-receiver.py: the Edge-Link webhook test receiver

    A shallow embedding of [WebhookHandler.do_POST], [run_server] and the
    script's entry point, together with the part of the Python runtime they
    call ([int], [bytes.decode], [json.loads], [dict.get], truth values,
    [str]/[repr], [print], the [BaseHTTPRequestHandler] response calls).

    Conventions of the model:
    - a Python [str] is represented by its UTF-8 encoding, as a Rocq
      [string] (what [print] writes on a UTF-8 console); a lone surrogate,
      which only a JSON escape can produce, is stored as its three-byte
      generalised encoding;
    - [bytes] is [list byte];
    - Python [int] is [Z];
    - the console is the list of the texts handed to [print], oldest first;
    - what the handler sends back is the list of the calls it makes on the
      request handler object ([send_response], [send_header], [end_headers],
      [wfile.write]), oldest first;
    - an exception is a class and the text [str(e)] gives.

    The limits that a request or the command line can reach are part of
    the model: the digit limit of [int] and of [json.loads], the recursion
    limit under which [json.loads] runs, the index range and the memory that
    bound the size [rfile.read] accepts, and the refusal of the console to
    encode a lone surrogate. The interpreter is CPython 3.11 on a 64-bit
    platform; what depends on how it was started is a parameter (see
    [Tables]).

    What is left out of the model:
    - memory other than for the block [rfile.read] is asked for: the
      program's other objects are of the size of data it already holds, and
      are taken to fit;
    - failures of the devices: the console is a UTF-8 stream that takes
      every text it can encode, and [wfile.write] is taken to succeed, so a
      console of another encoding, a closed console, or a client that has
      gone away, are outside the model;
    - binary floating point and the Unicode character database, which are
      parameters (see [Tables]). *)

From Stdlib Require Import ZArith NArith List Bool Lia.
From Stdlib Require Import Strings.String Strings.Ascii Strings.Byte.
From Stdlib Require Import DecimalString DecimalPos.
Import ListNotations.
Open Scope list_scope.
Open Scope string_scope.

(** ** Text helpers *)

Definition str := string.
Definition bytes := list byte.

Definition chr (n : N) : str := String (ascii_of_N n) "".

(** The line feed, which a Rocq literal cannot escape. *)
Definition nl : str := chr 10.

(** [q s] is [s] with every apostrophe turned into a double quote, so that
    JSON texts can be written as plain literals. *)
Fixpoint q (s : str) : str :=
  match s with
  | "" => ""
  | String c r => String (if Ascii.eqb c "'"%char then ascii_of_N 34 else c) (q r)
  end.

Fixpoint repeat_str (s : str) (n : nat) : str :=
  match n with
  | O => ""
  | S k => s ++ repeat_str s k
  end.

Definition str_of_nat (n : nat) : str := NilZero.string_of_uint (Nat.to_uint n).
Definition str_of_N (n : N) : str := NilZero.string_of_uint (N.to_uint n).

(** Python's [str(i)] for an [int]. *)
Definition str_of_Z (z : Z) : str := NilZero.string_of_int (Z.to_int z).

Definition hex_digit (n : N) : str :=
  chr (if (n <? 10)%N then 48 + n else 87 + n)%N.

(** [hex_pad w n]: the last [w] lower-case hexadecimal digits of [n]. *)
Fixpoint hex_pad (w : nat) (n : N) : str :=
  match w with
  | O => ""
  | S k => hex_pad k (n / 16) ++ hex_digit (n mod 16)
  end.

Definition codes_of_str (s : str) : list N := map N_of_ascii (list_ascii_of_string s).
Definition codes_of_bytes (b : bytes) : list N := map Byte.to_N b.
Definition bytes_of_str (s : str) : bytes := list_byte_of_string s.
Definition str_of_bytes (b : bytes) : str := string_of_list_byte b.

(** ** Exceptions *)

Inductive exn_class :=
  | TypeError | ValueError | OverflowError | MemoryError | RecursionError | OSError
  | UnicodeDecodeError | UnicodeEncodeError | JSONDecodeError | AttributeError | KeyError
  | KeyboardInterrupt.

Record exn := mk_exn { exn_cls : exn_class; exn_str : str }.

(** [except Exception] catches every class but those that derive from
    [BaseException] directly. *)
Definition is_Exception (c : exn_class) : bool :=
  match c with
  | KeyboardInterrupt => false
  | _ => true
  end.

Definition is_KeyboardInterrupt (c : exn_class) : bool :=
  match c with
  | KeyboardInterrupt => true
  | _ => false
  end.

(** How a call ends: with a value, with an exception, or never. *)
Inductive outcome (A : Type) :=
  | Return (a : A)
  | Raise (e : exn)
  | Forever.
Arguments Return {A} a.
Arguments Raise {A} e.
Arguments Forever {A}.

(** ** [bytes.decode('utf-8')] *)

Definition is_cont (b : N) : bool := ((128 <=? b) && (b <=? 191))%N.
Definition within (lo hi b : N) : bool := ((lo <=? b) && (b <=? hi))%N.

Inductive utf8_reason := invalid_start | invalid_continuation | unexpected_end.

Definition utf8_reason_str (r : utf8_reason) : str :=
  match r with
  | invalid_start => "invalid start byte"
  | invalid_continuation => "invalid continuation byte"
  | unexpected_end => "unexpected end of data"
  end.

(** The first ill-formed sequence of [bs], as the strict decoder reports it:
    first position, position after the last byte, reason. [pos] is the
    position of the head of [bs] in the whole input. *)
Fixpoint utf8_first_error (pos : nat) (bs : list N) : option (nat * nat * utf8_reason) :=
  match bs with
  | [] => None
  | b0 :: t0 =>
    if (b0 <? 128)%N then utf8_first_error (S pos) t0
    else if (b0 <? 194)%N then Some (pos, pos + 1, invalid_start)
    else if (b0 <? 224)%N then
      match t0 with
      | [] => Some (pos, pos + 1, unexpected_end)
      | b1 :: t1 =>
        if is_cont b1 then utf8_first_error (pos + 2) t1
        else Some (pos, pos + 1, invalid_continuation)
      end
    else if (b0 <? 240)%N then
      let lo := if (b0 =? 224)%N then 160%N else 128%N in
      let hi := if (b0 =? 237)%N then 159%N else 191%N in
      match t0 with
      | [] => Some (pos, pos + 1, unexpected_end)
      | b1 :: t1 =>
        if negb (within lo hi b1) then Some (pos, pos + 1, invalid_continuation)
        else match t1 with
             | [] => Some (pos, pos + 2, unexpected_end)
             | b2 :: t2 =>
               if is_cont b2 then utf8_first_error (pos + 3) t2
               else Some (pos, pos + 2, invalid_continuation)
             end
      end
    else if (b0 <? 245)%N then
      let lo := if (b0 =? 240)%N then 144%N else 128%N in
      let hi := if (b0 =? 244)%N then 143%N else 191%N in
      match t0 with
      | [] => Some (pos, pos + 1, unexpected_end)
      | b1 :: t1 =>
        if negb (within lo hi b1) then Some (pos, pos + 1, invalid_continuation)
        else match t1 with
             | [] => Some (pos, pos + 2, unexpected_end)
             | b2 :: t2 =>
               if negb (is_cont b2) then Some (pos, pos + 2, invalid_continuation)
               else match t2 with
                    | [] => Some (pos, pos + 3, unexpected_end)
                    | b3 :: t3 =>
                      if is_cont b3 then utf8_first_error (pos + 4) t3
                      else Some (pos, pos + 3, invalid_continuation)
                    end
             end
      end
    else Some (pos, pos + 1, invalid_start)
  end.

Definition unicode_decode_error (data : list N) (start stop : nat) (r : utf8_reason) : exn :=
  mk_exn UnicodeDecodeError
    (if Nat.eqb stop (start + 1)
     then "'utf-8' codec can't decode byte 0x" ++ hex_pad 2 (nth start data 0%N)
          ++ " in position " ++ str_of_nat start ++ ": " ++ utf8_reason_str r
     else "'utf-8' codec can't decode bytes in position " ++ str_of_nat start
          ++ "-" ++ str_of_nat (stop - 1) ++ ": " ++ utf8_reason_str r).

(** [data.decode('utf-8')]: the text itself when [data] is well-formed UTF-8,
    [UnicodeDecodeError] otherwise. *)
Definition decode_utf8 (data : bytes) : outcome str :=
  match utf8_first_error 0 (codes_of_bytes data) with
  | None => Return (str_of_bytes data)
  | Some (start, stop, r) => Raise (unicode_decode_error (codes_of_bytes data) start stop r)
  end.

(** ** Code points *)

(** The code points of a text held in its (generalised) UTF-8 encoding. *)
Fixpoint codepoints_of (bs : list N) : list N :=
  match bs with
  | [] => []
  | b0 :: t0 =>
    if (b0 <? 192)%N then b0 :: codepoints_of t0
    else if (b0 <? 224)%N then
      match t0 with
      | b1 :: t1 => ((b0 mod 32) * 64 + b1 mod 64)%N :: codepoints_of t1
      | _ => [b0]
      end
    else if (b0 <? 240)%N then
      match t0 with
      | b1 :: b2 :: t2 =>
        ((b0 mod 16) * 4096 + (b1 mod 64) * 64 + b2 mod 64)%N :: codepoints_of t2
      | _ => [b0]
      end
    else
      match t0 with
      | b1 :: b2 :: b3 :: t3 =>
        ((b0 mod 8) * 262144 + (b1 mod 64) * 4096 + (b2 mod 64) * 64 + b3 mod 64)%N
          :: codepoints_of t3
      | _ => [b0]
      end
  end.

Definition codepoints (s : str) : list N := codepoints_of (codes_of_str s).

(** Python's [chr(c)], in the representation of [str]. *)
Definition encode_codepoint (c : N) : str :=
  if (c <? 128)%N then chr c
  else if (c <? 2048)%N then chr (192 + c / 64) ++ chr (128 + c mod 64)
  else if (c <? 65536)%N then
    chr (224 + c / 4096) ++ chr (128 + (c / 64) mod 64) ++ chr (128 + c mod 64)
  else
    chr (240 + c / 262144) ++ chr (128 + (c / 4096) mod 64)
      ++ chr (128 + (c / 64) mod 64) ++ chr (128 + c mod 64).

(** The text of the first [n] characters of [s]. *)
Definition first_chars (n : nat) (s : str) : str :=
  fold_right (fun c r => encode_codepoint c ++ r) "" (firstn n (codepoints s)).

(** ** [str.encode('utf-8')], as the console does it

    The console is a UTF-8 stream with the [strict] error handler, which is
    what [sys.stdout] is under a UTF-8 locale. Its encoder refuses the
    surrogate code points, which a [str] may hold (the JSON escape [\ud800]
    gives one): it reports the first run of them. *)

Definition is_surrogate (c : N) : bool := ((55296 <=? c) && (c <=? 57343))%N.

(** The length of the run of surrogates at the head of [cs]. *)
Fixpoint surrogate_run (cs : list N) : nat :=
  match cs with
  | c :: r => if is_surrogate c then S (surrogate_run r) else 0
  | [] => 0
  end.

(** The first run of surrogates of [cs]: the position of its first
    character, the position after its last, and its first character. [pos]
    is the position of the head of [cs] in the whole text. *)
Fixpoint first_surrogates (pos : nat) (cs : list N) : option (nat * nat * N) :=
  match cs with
  | [] => None
  | c :: r =>
    if is_surrogate c then Some (pos, pos + surrogate_run cs, c)
    else first_surrogates (S pos) r
  end.

Definition unicode_encode_error (start stop : nat) (c : N) : exn :=
  mk_exn UnicodeEncodeError
    (if Nat.eqb stop (start + 1)
     then "'utf-8' codec can't encode character '\u" ++ hex_pad 4 c
          ++ "' in position " ++ str_of_nat start ++ ": surrogates not allowed"
     else "'utf-8' codec can't encode characters in position " ++ str_of_nat start
          ++ "-" ++ str_of_nat (stop - 1) ++ ": surrogates not allowed").

(** What encoding [text] for the console raises, if anything. *)
Definition utf8_encode_error (text : str) : option exn :=
  match first_surrogates 0 (codepoints text) with
  | Some (start, stop, c) => Some (unicode_encode_error start stop c)
  | None => None
  end.

(** ** What the model takes from the interpreter as given

    Binary floating point and the Unicode character database are not
    modelled. The four functions of the runtime that depend on them are
    taken as a parameter of every definition that needs them. A float is
    kept as the text it was read from. So are the three limits that depend
    on how the interpreter was started and on the machine. *)

Record Tables := {
  (** [repr(float(lit))] for the JSON number or constant [lit] *)
  float_repr : str -> str;
  (** [bool(float(lit))] *)
  float_truth : str -> bool;
  (** [str.isprintable] on a character beyond ASCII *)
  isprintable : N -> bool;
  (** the value of a decimal digit beyond ASCII, if the character is one *)
  decimal_digit : N -> option N;
  (** [sys.get_int_max_str_digits()]: the most digits [int] and [json.loads]
      convert, 0 for no limit; 4300 unless the interpreter is told
      otherwise *)
  int_max_str_digits : N;
  (** how many calls can still be nested when [json.loads], called by
      [do_POST], starts its scanner, before the recursion limit of the
      interpreter is reached: the depth to which arrays and objects can be
      nested in a body; 985 when the interpreter runs the script under its
      default limit of 1000 *)
  json_depth : nat;
  (** the size of the largest [bytes] object the allocator grants *)
  memory : N
}.

(** Tables that know no character beyond ASCII and print a float as it was
    written, with the limits of an interpreter started as the script starts
    it, on a machine that grants blocks of up to 4 GiB; used only to run the
    model on concrete texts. *)
Definition ascii_tables : Tables :=
  {| float_repr := fun lit => lit;
     float_truth := fun _ => true;
     isprintable := fun _ => false;
     decimal_digit := fun _ => None;
     int_max_str_digits := 4300;
     json_depth := 985;
     memory := 4294967296 |}.

(** [sys.maxsize], the largest index. *)
Definition maxsize : Z := 9223372036854775807.

Fixpoint join (sep : str) (l : list str) : str :=
  match l with
  | [] => ""
  | [x] => x
  | x :: r => x ++ sep ++ join sep r
  end.

Section Runtime.

Variable T : Tables.

(** *** [repr] of a [str] *)

Definition repr_char (quote : N) (c : N) : str :=
  if ((c =? quote) || (c =? 92))%N then chr 92 ++ chr c
  else if (c =? 9)%N then "\t"
  else if (c =? 10)%N then "\n"
  else if (c =? 13)%N then "\r"
  else if ((c <? 32) || (c =? 127))%N then "\x" ++ hex_pad 2 c
  else if (c <? 127)%N then chr c
  else if isprintable T c then encode_codepoint c
  else if (c <? 256)%N then "\x" ++ hex_pad 2 c
  else if (c <? 65536)%N then "\u" ++ hex_pad 4 c
  else "\U" ++ hex_pad 8 c.

Definition str_repr (s : str) : str :=
  let cs := codepoints s in
  let quote := if existsb (N.eqb 39) cs && negb (existsb (N.eqb 34) cs)
               then 34%N else 39%N in
  chr quote ++ fold_right (fun c r => repr_char quote c ++ r) "" cs ++ chr quote.

(** *** [int(x)] for the value of a header or a command-line argument *)

(** Whitespace beyond ASCII. *)
Definition unicode_isspace (c : N) : bool :=
  ((c =? 133) || (c =? 160) || (c =? 5760) || within 8192 8202 c
   || (c =? 8232) || (c =? 8233) || (c =? 8239) || (c =? 8287) || (c =? 12288))%N.

(** Every space becomes [' '], every decimal digit its ASCII digit, any other
    character beyond ASCII ['?']. *)
Definition to_ascii_decimal (c : N) : N :=
  if (c <? 127)%N then c
  else if unicode_isspace c then 32%N
  else match decimal_digit T c with
       | Some d => (48 + d)%N
       | None => 63%N
       end.

Definition ascii_isspace (c : N) : bool := (within 9 13 c || (c =? 32))%N.
Definition ascii_isdigit (c : N) : bool := within 48 57 c.

Fixpoint skip_spaces (l : list N) : list N :=
  match l with
  | c :: r => if ascii_isspace c then skip_spaces r else l
  | [] => []
  end.

(** The digits of a literal, where single underscores may separate digits:
    the value read, the number of digits and what follows them. [prev_us]
    tells that the previous character was an underscore, [count] how many
    digits were read. *)
Fixpoint int_digits (acc : Z) (count : nat) (prev_us : bool) (l : list N)
    : option (Z * nat * list N) :=
  match l with
  | c :: r =>
    if ascii_isdigit c then int_digits (acc * 10 + Z.of_N (c - 48)) (S count) false r
    else if (c =? 95)%N then
      if prev_us || Nat.eqb count 0 then None else int_digits acc count true r
    else if prev_us || Nat.eqb count 0 then None else Some (acc, count, l)
  | [] => if prev_us || Nat.eqb count 0 then None else Some (acc, count, [])
  end.

(** The conversion of a decimal literal of [digits] digits is refused when
    there is a limit and the literal is longer; literals of up to 640 digits
    are never looked at. *)
Definition exceeds_int_limit (digits : nat) : bool :=
  ((640 <? N.of_nat digits) && (0 <? int_max_str_digits T)
   && (int_max_str_digits T <? N.of_nat digits))%N.

Definition int_limit_error (digits : nat) : exn :=
  mk_exn ValueError
    ("Exceeds the limit (" ++ str_of_N (int_max_str_digits T)
     ++ " digits) for integer string conversion: value has " ++ str_of_nat digits
     ++ " digits; use sys.set_int_max_str_digits() to increase the limit").

Inductive int_result :=
  | IntOk (z : Z)
  | IntInvalid
  | IntTooLong (digits : nat).

(** The digits are counted, and the limit applied, before what follows them
    is looked at. *)
Definition int_of_ascii (l : list N) : int_result :=
  let l1 := skip_spaces l in
  let '(sign, l2) :=
    match l1 with
    | 43%N :: r => (1%Z, r)
    | 45%N :: r => ((-1)%Z, r)
    | _ => (1%Z, l1)
    end in
  match int_digits 0 0 false l2 with
  | Some (v, digits, rest) =>
    if exceeds_int_limit digits then IntTooLong digits
    else match skip_spaces rest with
         | [] => IntOk (sign * v)%Z
         | _ => IntInvalid
         end
  | None => IntInvalid
  end.

(** [int(s)] for a [str]. The message for a literal that is not one shows
    the first 200 characters of [repr(s)]. *)
Definition int_of_str (s : str) : outcome Z :=
  match int_of_ascii (map to_ascii_decimal (codepoints s)) with
  | IntOk z => Return z
  | IntInvalid =>
    Raise (mk_exn ValueError
             ("invalid literal for int() with base 10: " ++ first_chars 200 (str_repr s)))
  | IntTooLong digits => Raise (int_limit_error digits)
  end.

(** [int(x)] where [x] is a [str] or [None]. *)
Definition py_int (x : option str) : outcome Z :=
  match x with
  | Some s => int_of_str s
  | None => Raise (mk_exn TypeError
      "int() argument must be a string, a bytes-like object or a real number, not 'NoneType'")
  end.

End Runtime.

(** ** Python values, as [json.loads] builds them *)

#[local] Set Warnings "-register-all".

Inductive pyvalue :=
  | PNone
  | PBool (b : bool)
  | PInt (z : Z)
  | PFloat (lit : str)
  | PStr (s : str)
  | PList (l : list pyvalue)
  | PDict (d : list (str * pyvalue)).

(** A [dict] is the list of its items in insertion order; a key occurs once. *)
Definition pydict := list (str * pyvalue).

(** [d.get(k)], [None] of Rocq standing for a missing key. *)
Fixpoint dict_lookup (d : pydict) (k : str) : option pyvalue :=
  match d with
  | [] => None
  | (k', v) :: r => if String.eqb k' k then Some v else dict_lookup r k
  end.

(** [d[k] = v]: a key already present keeps its place. *)
Fixpoint dict_set (d : pydict) (k : str) (v : pyvalue) : pydict :=
  match d with
  | [] => [(k, v)]
  | (k', v') :: r => if String.eqb k' k then (k', v) :: r else (k', v') :: dict_set r k v
  end.

(** ** [json.loads]

    The scanner follows CPython's, value by value and with its error
    messages and positions (those of CPython 3.11); positions count bytes of
    the representation here and are turned into character positions when an
    error is built. *)

(** The scanner ends with a value, what follows it and where; with a syntax
    error, which becomes a [JSONDecodeError]; with another exception; or
    (in the model only) out of fuel. *)
Inductive jres (A : Type) :=
  | JOk (a : A) (rest : str) (pos : nat)
  | JFail (msg : str) (pos : nat)
  | JRaise (e : exn)
  | JDepth.
Arguments JOk {A} a rest pos.
Arguments JFail {A} msg pos.
Arguments JRaise {A} e.
Arguments JDepth {A}.

Definition is_json_ws (c : ascii) : bool :=
  match c with
  | " "%char | "009"%char | "010"%char | "013"%char => true
  | _ => false
  end.

Fixpoint skip_ws (s : str) (pos : nat) : str * nat :=
  match s with
  | String c r => if is_json_ws c then skip_ws r (S pos) else (s, pos)
  | "" => (s, pos)
  end.

Definition is_digit (c : ascii) : bool := within 48 57 (N_of_ascii c).

Definition hex_value (c : ascii) : option N :=
  let n := N_of_ascii c in
  if within 48 57 n then Some (n - 48)%N
  else if within 97 102 n then Some (n - 87)%N
  else if within 65 70 n then Some (n - 55)%N
  else None.

Definition hex4 (a b c d : ascii) : option N :=
  match hex_value a, hex_value b, hex_value c, hex_value d with
  | Some x, Some y, Some z, Some w => Some (x * 4096 + y * 256 + z * 16 + w)%N
  | _, _, _, _ => None
  end.

(** The character a backslash escape other than [\u] stands for. *)
Definition simple_escape (c : ascii) : option ascii :=
  if Ascii.eqb c (ascii_of_N 34) then Some c else
  match c with
  | "\"%char => Some c
  | "/"%char => Some c
  | "b"%char => Some "008"%char
  | "f"%char => Some "012"%char
  | "n"%char => Some "010"%char
  | "r"%char => Some "013"%char
  | "t"%char => Some "009"%char
  | _ => None
  end.

Definition is_quote (c : ascii) : bool := (N_of_ascii c =? 34)%N.
Definition is_high_surrogate (u : N) : bool := within 55296 56319 u.
Definition is_low_surrogate (u : N) : bool := within 56320 57343 u.
Definition join_surrogates (hi lo : N) : N :=
  (65536 + (hi - 55296) * 1024 + (lo - 56320))%N.

(** [acc] with the encoding of the character [u] pushed on it ([acc] is the
    text read so far, last character first). *)
Definition push_char (u : N) (acc : list ascii) : list ascii :=
  rev (list_ascii_of_string (encode_codepoint u)) ++ acc.

(** The body of a JSON string: [s] starts after the opening quote, which is
    at [begin]; the text it denotes and what follows the closing quote. An
    escape [\uXXXX] must be followed by one character at least; a high
    surrogate is joined with the low surrogate that a second escape gives
    right after it. *)
Fixpoint scanstring (begin : nat) (acc : list ascii) (s : str) (pos : nat) : jres str :=
  match s with
  | "" => JFail "Unterminated string starting at" begin
  | String c r =>
    if is_quote c then JOk (string_of_list_ascii (rev acc)) r (S pos)
    else if Ascii.eqb c "\" then
      match r with
      | "" => JFail "Unterminated string starting at" begin
      | String e r1 =>
        if Ascii.eqb e "u" then
          match r1 with
          | String h1 (String h2 (String h3 (String h4 (String _ _ as r2)))) =>
            match hex4 h1 h2 h3 h4 with
            | None => JFail "Invalid \uXXXX escape" (pos + 1)
            | Some u =>
              match r2 with
              | String b1 (String b2 (String g1 (String g2 (String g3 (String g4
                  (String _ _ as r3)))))) =>
                if is_high_surrogate u && Ascii.eqb b1 "\" && Ascii.eqb b2 "u" then
                  match hex4 g1 g2 g3 g4 with
                  | None => JFail "Invalid \uXXXX escape" (pos + 7)
                  | Some u2 =>
                    if is_low_surrogate u2
                    then scanstring begin (push_char (join_surrogates u u2) acc) r3 (pos + 12)
                    else scanstring begin (push_char u acc) r2 (pos + 6)
                  end
                else scanstring begin (push_char u acc) r2 (pos + 6)
              | _ => scanstring begin (push_char u acc) r2 (pos + 6)
              end
            end
          | _ => JFail "Invalid \uXXXX escape" (pos + 1)
          end
        else
          match simple_escape e with
          | Some x => scanstring begin (x :: acc) r1 (pos + 2)
          | None => JFail "Invalid \escape" pos
          end
      end
    else if (N_of_ascii c <=? 31)%N then JFail "Invalid control character at" pos
    else scanstring begin (c :: acc) r (S pos)
  end.

Fixpoint take_digits (s : str) : str * str :=
  match s with
  | String c r =>
    if is_digit c then let '(ds, rest) := take_digits r in (String c ds, rest)
    else ("", s)
  | "" => ("", "")
  end.

Definition is_empty (s : str) : bool :=
  match s with "" => true | _ => false end.

(** [s] without its first character when that is [c]. *)
Definition after_char (c : ascii) (s : str) : option str :=
  match s with
  | String c' r => if Ascii.eqb c' c then Some r else None
  | "" => None
  end.

(** The integer part of a JSON number: a single [0], or a digit from 1 to 9
    and the digits after it. *)
Definition match_int_part (s : str) : option (str * str) :=
  match s with
  | String c r =>
    if Ascii.eqb c "0" then Some ("0", r)
    else if is_digit c then let '(ds, r') := take_digits r in Some (String c ds, r')
    else None
  | "" => None
  end.

(** The fraction of a JSON number, if there is one: a dot and one digit at
    least. *)
Definition match_frac (s : str) : str * str :=
  match after_char "." s with
  | Some r =>
    let '(ds, r') := take_digits r in
    if is_empty ds then ("", s) else (String "." ds, r')
  | None => ("", s)
  end.

(** The exponent of a JSON number, if there is one: [e] or [E], a sign or
    none, and one digit at least. *)
Definition match_exp (s : str) : str * str :=
  match s with
  | String e r =>
    if Ascii.eqb e "e" || Ascii.eqb e "E" then
      let '(sg, r1) :=
        match after_char "+" r, after_char "-" r with
        | Some r', _ => ("+", r')
        | None, Some r' => ("-", r')
        | None, None => ("", r)
        end in
      let '(ds, r') := take_digits r1 in
      if is_empty ds then ("", s) else (String e (sg ++ ds), r')
    else ("", s)
  | "" => ("", s)
  end.

(** The longest JSON number at the head of [s]: its text, whether it has a
    fraction or an exponent, and what follows. *)
Definition match_number (s : str) : option (str * bool * str) :=
  let '(sign, s1) :=
    match after_char "-" s with
    | Some r => ("-", r)
    | None => ("", s)
    end in
  match match_int_part s1 with
  | None => None
  | Some (ip, s2) =>
    let '(frac, s3) := match_frac s2 in
    let '(ex, s4) := match_exp s3 in
    Some (sign ++ ip ++ frac ++ ex, negb (is_empty frac && is_empty ex), s4)
  end.

(** The number of digits of the text of a JSON integer. *)
Definition digits_of_literal (lit : str) : nat :=
  match lit with
  | String "-" ds => String.length ds
  | _ => String.length lit
  end.

(** [int(lit)] for the text of a JSON integer. *)
Definition int_of_literal (lit : str) : Z :=
  match lit with
  | String "-" ds => - Z.of_N (fold_left (fun a c => a * 10 + (N_of_ascii c - 48))%N
                                 (list_ascii_of_string ds) 0%N)
  | _ => Z.of_N (fold_left (fun a c => a * 10 + (N_of_ascii c - 48))%N
                   (list_ascii_of_string lit) 0%N)
  end.

(** [s] without the prefix [p], when it has it. *)
Fixpoint strip_prefix (p s : str) : option str :=
  match p, s with
  | "", _ => Some s
  | String a p', String b s' => if Ascii.eqb a b then strip_prefix p' s' else None
  | _, "" => None
  end.

(** The named constants of the scanner. Those that are floats are made by a
    call of the decoder's [parse_constant]. *)
Definition json_constants : list (str * pyvalue) :=
  [ ("null", PNone); ("true", PBool true); ("false", PBool false);
    ("NaN", PFloat "NaN"); ("Infinity", PFloat "Infinity");
    ("-Infinity", PFloat "-Infinity") ].

Fixpoint match_constant (cs : list (str * pyvalue)) (s : str) : option (pyvalue * str * nat) :=
  match cs with
  | [] => None
  | (name, v) :: r =>
    match strip_prefix name s with
    | Some rest => Some (v, rest, String.length name)
    | None => match_constant r s
    end
  end.

(** [RecursionError], [while] telling what was under way. *)
Definition recursion_error (while : str) : exn :=
  mk_exn RecursionError ("maximum recursion depth exceeded" ++ while).

(** Entering an array or an object beyond the depth the interpreter
    allows. *)
Definition too_deep (what : str) : exn :=
  recursion_error (" while decoding a JSON " ++ what ++ " from a unicode string").

(** A [JSONDecodeError] is built by a call of its class, which runs its
    [__init__], which calls methods of the document: three calls, one inside
    the other. Where [room] calls only can still be nested, the first that
    cannot be made raises [RecursionError] instead. *)
Definition no_room_error (room : nat) : option exn :=
  match room with
  | 0 | 2 => Some (recursion_error " while calling a Python object")
  | 1 => Some (recursion_error "")
  | _ => None
  end.

(** The syntax error [msg] at [pos], reported where [room] calls can still
    be nested. *)
Definition syntax_error {A} (room : nat) (msg : str) (pos : nat) : jres A :=
  match no_room_error room with
  | Some e => JRaise e
  | None => JFail msg pos
  end.

Section Scanner.

Variable T : Tables.

(** One JSON value at the head of [s]. [room] is how many calls can still
    be nested; entering an array or an object is one. The scanner reports a
    syntax error where it finds it, but for a missing value, which it leaves
    to its caller to report. [fuel] bounds the calls of the model;
    [json_loads] gives enough of it (lemma [scan_fuel]). *)
Fixpoint scan_once (fuel room : nat) (s : str) (pos : nat) {struct fuel} : jres pyvalue :=
  match fuel with
  | O => JDepth
  | S fuel' =>
    match s with
    | "" => JFail "Expecting value" pos
    | String c r =>
      if is_quote c then
        match scanstring pos [] r (S pos) with
        | JOk t rest p => JOk (PStr t) rest p
        | JFail m p => syntax_error room m p
        | JRaise e => JRaise e
        | JDepth => JDepth
        end
      else if Ascii.eqb c "{" then
        match room with
        | O => JRaise (too_deep "object")
        | S room' =>
          let '(r1, p1) := skip_ws r (S pos) in
          match after_char "}" r1 with
          | Some r2 => JOk (PDict []) r2 (S p1)
          | None => object_items fuel' room' [] r1 p1
          end
        end
      else if Ascii.eqb c "[" then
        match room with
        | O => JRaise (too_deep "array")
        | S room' =>
          let '(r1, p1) := skip_ws r (S pos) in
          match after_char "]" r1 with
          | Some r2 => JOk (PList []) r2 (S p1)
          | None => array_items fuel' room' [] r1 p1
          end
        end
      else
        match match_constant json_constants s with
        | Some (v, rest, n) =>
          match v, room with
          | PFloat _, O => JRaise (recursion_error " while calling a Python object")
          | _, _ => JOk v rest (pos + n)
          end
        | None =>
          match match_number s with
          | Some (lit, is_float, rest) =>
            if is_float then JOk (PFloat lit) rest (pos + String.length lit)
            else if exceeds_int_limit T (digits_of_literal lit)
            then JRaise (int_limit_error T (digits_of_literal lit))
            else JOk (PInt (int_of_literal lit)) rest (pos + String.length lit)
          | None => JFail "Expecting value" pos
          end
        end
    end
  end

(** The items of an array from the start of one of them; [acc] holds the
    items read so far, last first. *)
with array_items (fuel room : nat) (acc : list pyvalue) (s : str) (pos : nat)
       {struct fuel} : jres pyvalue :=
  match fuel with
  | O => JDepth
  | S fuel' =>
    match scan_once fuel' room s pos with
    | JOk v r p =>
      let '(r1, p1) := skip_ws r p in
      match after_char "]" r1, after_char "," r1 with
      | Some r2, _ => JOk (PList (rev (v :: acc))) r2 (S p1)
      | None, Some r2 =>
        let '(r3, p3) := skip_ws r2 (S p1) in
        array_items fuel' room (v :: acc) r3 p3
      | None, None => syntax_error room "Expecting ',' delimiter" p1
      end
    | JFail m p => JFail m p
    | JRaise e => JRaise e
    | JDepth => JDepth
    end
  end

(** The members of an object from the start of a key; [acc] is the [dict]
    built so far. *)
with object_items (fuel room : nat) (acc : pydict) (s : str) (pos : nat)
       {struct fuel} : jres pyvalue :=
  match fuel with
  | O => JDepth
  | S fuel' =>
    match after_char (ascii_of_N 34) s with
    | Some r =>
      match scanstring pos [] r (S pos) with
      | JOk key r0 p0 =>
        let '(r1, p1) := skip_ws r0 p0 in
        match after_char ":" r1 with
        | Some r2 =>
          let '(r3, p3) := skip_ws r2 (S p1) in
          match scan_once fuel' room r3 p3 with
          | JOk v r4 p4 =>
            let '(r5, p5) := skip_ws r4 p4 in
            match after_char "}" r5, after_char "," r5 with
            | Some r6, _ => JOk (PDict (dict_set acc key v)) r6 (S p5)
            | None, Some r6 =>
              let '(r7, p7) := skip_ws r6 (S p5) in
              object_items fuel' room (dict_set acc key v) r7 p7
            | None, None => syntax_error room "Expecting ',' delimiter" p5
            end
          | JFail m p => JFail m p
          | JRaise e => JRaise e
          | JDepth => JDepth
          end
        | None => syntax_error room "Expecting ':' delimiter" p1
        end
      | JFail m p => syntax_error room m p
      | JRaise e => JRaise e
      | JDepth => JDepth
      end
    | None => syntax_error room "Expecting property name enclosed in double quotes" pos
    end
  end.

End Scanner.

(** The index of the character that starts at byte [pos] of [doc]. *)
Definition char_index (doc : str) (pos : nat) : nat :=
  List.length (filter (fun b => negb (is_cont b)) (firstn pos (codes_of_str doc))).

(** [JSONDecodeError(msg, doc, pos)], [pos] counting bytes of [doc]. *)
Definition json_decode_error (msg doc : str) (pos : nat) : exn :=
  let before := firstn pos (codes_of_str doc) in
  let lineno := S (List.length (filter (N.eqb 10) before)) in
  let last_line :=
    fold_left (fun l b => if (b =? 10)%N then [] else b :: l) before [] in
  let colno := S (List.length (filter (fun b => negb (is_cont b)) last_line)) in
  mk_exn JSONDecodeError
    (msg ++ ": line " ++ str_of_nat lineno ++ " column " ++ str_of_nat colno
         ++ " (char " ++ str_of_nat (char_index doc pos) ++ ")").

(** [raise JSONDecodeError(msg, doc, pos)] where [room] calls can still be
    nested. *)
Definition raise_syntax_error {A} (room : nat) (msg doc : str) (pos : nat) : outcome A :=
  match no_room_error room with
  | Some e => Raise e
  | None => Raise (json_decode_error msg doc pos)
  end.

(** [json.loads(doc)] for a [str]. The scanner is called by [raw_decode],
    which reports a missing value, and that by [decode], which reports what
    follows the value: one and two calls above the scanner. *)
Definition json_loads (T : Tables) (doc : str) : outcome pyvalue :=
  match strip_prefix (encode_codepoint 65279) doc with
  | Some _ =>
    Raise (json_decode_error "Unexpected UTF-8 BOM (decode using utf-8-sig)" doc 0)
  | None =>
    let '(s0, p0) := skip_ws doc 0 in
    match scan_once T (2 * String.length doc + 1) (json_depth T) s0 p0 with
    | JOk v rest p =>
      let '(rest', p') := skip_ws rest p in
      if is_empty rest' then Return v
      else raise_syntax_error (json_depth T + 2) "Extra data" doc p'
    | JFail m p => raise_syntax_error (json_depth T + 1) m doc p
    | JRaise e => Raise e
    | JDepth => Raise (mk_exn ValueError "out of fuel")  (* never taken *)
    end
  end.

(** ** [repr], [str], truth values and attribute access *)

Section Values.

Variable T : Tables.

(** [repr(v)]. The values the program renders come out of [json.loads],
    which ran three calls deeper than the place where they are rendered:
    their nesting is within the recursion limit and their integers within
    the digit limit, so that [repr] meets neither. *)
Fixpoint py_repr (v : pyvalue) : str :=
  match v with
  | PNone => "None"
  | PBool true => "True"
  | PBool false => "False"
  | PInt z => str_of_Z z
  | PFloat lit => float_repr T lit
  | PStr s => str_repr T s
  | PList l => "[" ++ join ", " (map py_repr l) ++ "]"
  | PDict d =>
    "{" ++ join ", " (map (fun kv => let '(k, x) := kv in
                                     str_repr T k ++ ": " ++ py_repr x) d) ++ "}"
  end.

(** [str(v)], which is what [{v}] in an f-string renders. *)
Definition py_str (v : pyvalue) : str :=
  match v with
  | PStr s => s
  | _ => py_repr v
  end.

(** [bool(v)] *)
Definition truthy (v : pyvalue) : bool :=
  match v with
  | PNone => false
  | PBool b => b
  | PInt z => negb (z =? 0)%Z
  | PFloat lit => float_truth T lit
  | PStr s => negb (is_empty s)
  | PList l => match l with [] => false | _ => true end
  | PDict d => match d with [] => false | _ => true end
  end.

End Values.

(** [type(v).__name__] *)
Definition type_name (v : pyvalue) : str :=
  match v with
  | PNone => "NoneType"
  | PBool _ => "bool"
  | PInt _ => "int"
  | PFloat _ => "float"
  | PStr _ => "str"
  | PList _ => "list"
  | PDict _ => "dict"
  end.

Definition attribute_error (v : pyvalue) (attr : str) : exn :=
  mk_exn AttributeError
    ("'" ++ type_name v ++ "' object has no attribute '" ++ attr ++ "'").

(** [v.get]: of the values [json.loads] builds, only a [dict] has it. *)
Definition attr_get (v : pyvalue) : outcome pydict :=
  match v with
  | PDict d => Return d
  | _ => Raise (attribute_error v "get")
  end.

(** [v.items()] *)
Definition attr_items (v : pyvalue) : outcome (list (str * pyvalue)) :=
  match v with
  | PDict d => Return d
  | _ => Raise (attribute_error v "items")
  end.

(** [d.get(k, default)]; [d.get(k)] is [dict_get d k PNone]. *)
Definition dict_get (d : pydict) (k : str) (default : pyvalue) : pyvalue :=
  match dict_lookup d k with
  | Some v => v
  | None => default
  end.

(** [d[k]] *)
Definition dict_getitem (T : Tables) (d : pydict) (k : str) : outcome pyvalue :=
  match dict_lookup d k with
  | Some v => Return v
  | None => Raise (mk_exn KeyError (str_repr T k))
  end.

(** [v[k]] for a text key [k]. *)
Definition py_getitem (T : Tables) (v : pyvalue) (k : str) : outcome pyvalue :=
  match v with
  | PDict d => dict_getitem T d k
  | PList _ => Raise (mk_exn TypeError "list indices must be integers or slices, not str")
  | PStr _ => Raise (mk_exn TypeError "string indices must be integers, not 'str'")
  | _ => Raise (mk_exn TypeError ("'" ++ type_name v ++ "' object is not subscriptable"))
  end.

(** [v.get(k, default)] *)
Definition py_get (v : pyvalue) (k : str) (default : pyvalue) : outcome pyvalue :=
  match attr_get v with
  | Return d => Return (dict_get d k default)
  | Raise e => Raise e
  | Forever => Forever
  end.

(** ** The world of the program and its monad *)

(** A call of the handler on its own response methods. [send_response] also
    makes the library add its [Server] and [Date] headers, which are not
    part of the program. *)
Inductive http_call :=
  | SendResponse (code : Z)
  | SendHeader (keyword value : str)
  | EndHeaders
  | WfileWrite (data : bytes).

Record world := mk_world {
  stdout : list str;               (** what [print] has written, oldest first *)
  rfile : bytes;                   (** what is left to read on the connection,
                                       up to where the client ends the stream *)
  sent : list http_call;           (** what the handler has sent on the connection *)
  listening : option (str * Z)     (** the address the server socket is bound to *)
}.

Definition M (A : Type) : Type := world -> outcome A * world.

Definition ret {A} (a : A) : M A := fun w => (Return a, w).

Definition bind {A B} (m : M A) (f : A -> M B) : M B :=
  fun w =>
    match m w with
    | (Return a, w') => f a w'
    | (Raise e, w') => (Raise e, w')
    | (Forever, w') => (Forever, w')
    end.

(** A call of a pure function of the runtime that may raise. *)
Definition lift {A} (o : outcome A) : M A := fun w => (o, w).

Declare Scope py_scope.
Delimit Scope py_scope with py.
Notation "x <- m ;; k" := (bind m (fun x => k))
  (at level 61, m at next level, right associativity) : py_scope.
Notation "m ;; k" := (bind m (fun _ => k))
  (at level 61, right associativity) : py_scope.
Open Scope py_scope.

(** [try: body / except C as e: handler(e)], where [catches] tells the
    classes that derive from [C]. *)
Definition try_except {A} (body : M A) (catches : exn_class -> bool)
    (handler : exn -> M A) : M A :=
  fun w =>
    match body w with
    | (Raise e, w') => if catches (exn_cls e) then handler e w' else (Raise e, w')
    | r => r
    end.

(** [for x in l: body(x)] *)
Fixpoint for_each {A} (l : list A) (body : A -> M unit) : M unit :=
  match l with
  | [] => ret tt
  | x :: r => body x ;; for_each r body
  end.

(** [print(text)]: the text is encoded as a whole before any of it is
    written, so that a text the console cannot encode leaves no trace. *)
Definition print (text : str) : M unit :=
  fun w =>
    match utf8_encode_error text with
    | Some e => (Raise e, w)
    | None => (Return tt, mk_world (stdout w ++ [text]) (rfile w) (sent w) (listening w))
    end.

(** What [self.rfile.read(n)] raises for the size [n] alone: the size must
    be an index; below [-1] it is refused; for [n >= 0] a [bytes] object of
    [n] bytes is allocated before the stream is read, which fails when [n]
    is beyond what a [bytes] object can hold or what the allocator grants. *)
Definition read_error (T : Tables) (n : Z) : option exn :=
  if ((maxsize <? n) || (n <? - maxsize - 1))%Z then
    Some (mk_exn OverflowError "cannot fit 'int' into an index-sized integer")
  else if (n <? -1)%Z then
    Some (mk_exn ValueError "read length must be non-negative or -1")
  else if (n =? -1)%Z then None
  else if (maxsize - 33 <? n)%Z then Some (mk_exn OverflowError "byte string is too large")
  else if (Z.of_N (memory T) <? n)%Z then Some (mk_exn MemoryError "")
  else None.

(** [self.rfile.read(n)] on the buffered reader of the connection: up to [n]
    bytes, fewer only when the stream ends first; everything up to the end
    of the stream for [-1]. *)
Definition rfile_read (T : Tables) (n : Z) : M bytes :=
  fun w =>
    match read_error T n with
    | Some e => (Raise e, w)
    | None =>
      if (n =? -1)%Z then
        (Return (rfile w), mk_world (stdout w) [] (sent w) (listening w))
      else
        (Return (firstn (Z.to_nat n) (rfile w)),
         mk_world (stdout w) (skipn (Z.to_nat n) (rfile w)) (sent w) (listening w))
    end.

Definition call (c : http_call) : M unit :=
  fun w => (Return tt, mk_world (stdout w) (rfile w) (sent w ++ [c]) (listening w)).

(** ** The request headers *)

Definition ascii_lower (c : ascii) : ascii :=
  let n := N_of_ascii c in
  if within 65 90 n then ascii_of_N (n + 32) else c.

Fixpoint lower (s : str) : str :=
  match s with
  | "" => ""
  | String c r => String (ascii_lower c) (lower r)
  end.

(** [self.headers]: the header fields of the request, in the order
    received. *)
Definition headers := list (str * str).

(** [self.headers[name]]: the value of the first field called [name],
    whatever the case of its letters; [None] when there is none. *)
Fixpoint headers_getitem (h : headers) (name : str) : option str :=
  match h with
  | [] => None
  | (k, v) :: r => if String.eqb (lower k) (lower name) then Some v else headers_getitem r name
  end.

(** ** [BaseHTTPRequestHandler]: the response methods

    [send_response] first logs the request through [log_message], which the
    handler class may override. *)

Definition send_response (log_message : M unit) (code : Z) : M unit :=
  log_message ;; call (SendResponse code).

Definition send_header (keyword value : str) : M unit :=
  call (SendHeader keyword value).

Definition end_headers : M unit := call EndHeaders.

Definition wfile_write (data : bytes) : M unit := call (WfileWrite data).

(** ** [class WebhookHandler(BaseHTTPRequestHandler)] *)

Module WebhookHandler.
Section Methods.

Variable T : Tables.

(** [def log_message(self, format, *args): pass] *)
Definition log_message : M unit := ret tt.

(** [def do_POST(self)], [self.headers] being [self_headers] and
    [self.rfile] the [rfile] of the world. *)
Definition do_POST (self_headers : headers) : M unit :=
  content_length <- lift (py_int T (headers_getitem self_headers "Content-Length")) ;;
  post_data <- rfile_read T content_length ;;

  print (nl ++ repeat_str "=" 80) ;;
  print "✅ 收到Webhook通知！" ;;
  print (repeat_str "=" 80) ;;

  try_except
    ( text <- lift (decode_utf8 post_data) ;;
      data <- lift (json_loads T text) ;;
      alert_id <- lift (py_get data "alert_id" PNone) ;;
      print (nl ++ "告警ID: " ++ py_str T alert_id) ;;
      title <- lift (py_get data "title" PNone) ;;
      print ("标题: " ++ py_str T title) ;;
      message <- lift (py_get data "message" PNone) ;;
      print ("消息: " ++ py_str T message) ;;
      severity <- lift (py_get data "severity" PNone) ;;
      print ("严重程度: " ++ py_str T severity) ;;
      alert_type <- lift (py_get data "alert_type" PNone) ;;
      print ("告警类型: " ++ py_str T alert_type) ;;
      device_id <- lift (py_get data "device_id" (PStr "N/A")) ;;
      print ("设备ID: " ++ py_str T device_id) ;;
      created_at <- lift (py_get data "created_at" PNone) ;;
      print ("创建时间: " ++ py_str T created_at) ;;
      timestamp <- lift (py_get data "timestamp" PNone) ;;
      print ("时间戳: " ++ py_str T timestamp) ;;

      metadata <- lift (py_get data "metadata" PNone) ;;
      (if truthy T metadata then
         print (nl ++ "元数据:") ;;
         mapping <- lift (py_getitem T data "metadata") ;;
         items <- lift (attr_items mapping) ;;
         for_each items (fun kv => print ("  " ++ fst kv ++ ": " ++ py_str T (snd kv)))
       else ret tt) ;;

      print (nl ++ repeat_str "=" 80 ++ nl) )
    is_Exception
    (fun e =>
      print ("解析错误: " ++ exn_str e) ;;
      text <- lift (decode_utf8 post_data) ;;
      print ("原始数据: " ++ text)) ;;

  send_response log_message 200 ;;
  send_header "Content-type" "application/json" ;;
  end_headers ;;
  wfile_write (bytes_of_str (q "{'status': 'received'}")).

End Methods.
End WebhookHandler.

(** ** [HTTPServer]: what the program sees of the operating system

    [bind_error host port] is what creating the server raises for this
    address, if anything ([OSError] for an address in use, [OverflowError]
    for a port out of range); [ephemeral] is the port the operating system
    picks for a socket that asks for port 0; [requests] are the POST
    requests that arrive while the server runs, in order; [interruption] is
    the exception that ends [serve_forever], if one ever does. The server
    handles one request at a time. *)

Record request := mk_request {
  req_headers : headers;
  req_stream : bytes       (** what the client sends after the header block *)
}.

Record os := mk_os {
  bind_error : str -> Z -> option exn;
  ephemeral : Z;
  requests : list request;
  interruption : option exn
}.

Section Server.

Variable T : Tables.
Variable O : os.

(** The port a socket is bound to when it asks for [port]. *)
Definition bound_port (port : Z) : Z :=
  if (port =? 0)%Z then ephemeral O else port.

(** [HTTPServer(server_address, WebhookHandler)] *)
Definition HTTPServer (server_address : str * Z) : M unit :=
  fun w =>
    match bind_error O (fst server_address) (snd server_address) with
    | Some e => (Raise e, w)
    | None =>
      (Return tt,
       mk_world (stdout w) (rfile w) (sent w)
         (Some (fst server_address, bound_port (snd server_address))))
    end.

(** One request served on its own connection by a fresh [WebhookHandler]:
    what was sent on the connection, and the world afterwards. What the
    handler raises is reported on the error stream and goes no further. *)
Definition handle (r : request) (w : world) : list http_call * world :=
  let '(_, w') := WebhookHandler.do_POST T (req_headers r)
                    (mk_world (stdout w) (req_stream r) [] (listening w)) in
  (sent w', mk_world (stdout w') (rfile w) (sent w) (listening w')).

(** The requests served one after the other: what was sent on each
    connection, and the world afterwards. *)
Fixpoint serve (rs : list request) (w : world) : list (list http_call) * world :=
  match rs with
  | [] => ([], w)
  | r :: rest =>
    let '(reply, w1) := handle r w in
    let '(replies, w2) := serve rest w1 in
    (reply :: replies, w2)
  end.

(** [httpd.serve_forever()] *)
Definition serve_forever : M unit :=
  fun w =>
    let '(_, w') := serve (requests O) w in
    match interruption O with
    | Some e => (Raise e, w')
    | None => (Forever, w')
    end.

(** [def run_server(port=8888)] *)
Definition run_server (port : Z) : M unit :=
  let server_address := ("", port) in
  HTTPServer server_address ;;
  print ("🚀 Webhook接收器启动在端口 " ++ str_of_Z port) ;;
  print ("📡 Webhook URL: http://localhost:" ++ str_of_Z port ++ "/webhook") ;;
  print ("⏳ 等待告警通知..." ++ nl) ;;
  serve_forever.

(** [if __name__ == '__main__':], [sys.argv] being [argv]. *)
Definition main (argv : list str) : M unit :=
  port <- (if (1 <? List.length argv)%nat
           then lift (py_int T (Some (nth 1 argv "")))
           else ret 8888%Z) ;;
  try_except (run_server port)
    is_KeyboardInterrupt
    (fun _ => print (nl ++ nl ++ "👋 接收器已停止")).

End Server.

(** The world in which the program starts. *)
Definition initial_world : world := mk_world [] [] [] None.

(** * The vocabulary of the statements *)

(** ** Worlds and responses *)

(** [w] after [lines] were printed. *)
Definition printed (lines : list str) (w : world) : world :=
  mk_world (stdout w ++ lines) (rfile w) (sent w) (listening w).

(** [w] after [calls] were made on the connection. *)
Definition replied (calls : list http_call) (w : world) : world :=
  mk_world (stdout w) (rfile w) (sent w ++ calls) (listening w).

(** The three lines that open the block of a request. *)
Definition opening : list str :=
  [ nl ++ repeat_str "=" 80; "✅ 收到Webhook通知！"; repeat_str "=" 80 ].

(** The line that closes the block of a displayed alert. *)
Definition closing : str := nl ++ repeat_str "=" 80 ++ nl.

(** The calls that make the fixed acknowledgment. *)
Definition acknowledgment : list http_call :=
  [ SendResponse 200; SendHeader "Content-type" "application/json"; EndHeaders;
    WfileWrite (bytes_of_str (q "{'status': 'received'}")) ].

(** The response a client reads from the calls made on a connection: status,
    header fields, body. *)
Record http_response := mk_response {
  status : Z;
  fields : headers;
  body : bytes
}.

Fixpoint response_body (calls : list http_call) : option bytes :=
  match calls with
  | [] => Some []
  | WfileWrite b :: r =>
    match response_body r with
    | Some rest => Some (b ++ rest)%list
    | None => None
    end
  | _ => None
  end.

Fixpoint response_fields (calls : list http_call) : option (headers * bytes) :=
  match calls with
  | SendHeader k v :: r =>
    match response_fields r with
    | Some (h, b) => Some ((k, v) :: h, b)
    | None => None
    end
  | EndHeaders :: r =>
    match response_body r with
    | Some b => Some ([], b)
    | None => None
    end
  | _ => None
  end.

Definition response_of (calls : list http_call) : option http_response :=
  match calls with
  | SendResponse code :: r =>
    match response_fields r with
    | Some (h, b) => Some (mk_response code h b)
    | None => None
    end
  | _ => None
  end.

(** The response is the success acknowledgment: status 200, a content type
    of [application/json] (header names compare without regard to case), and
    the fixed body. *)
Definition is_acknowledgment (r : http_response) : Prop :=
  status r = 200%Z /\
  headers_getitem (fields r) "Content-Type" = Some "application/json" /\
  body r = bytes_of_str (q "{'status': 'received'}").

(** The connection received the success acknowledgment. *)
Definition acknowledged (w : world) : Prop :=
  exists r, response_of (sent w) = Some r /\ is_acknowledgment r.

(** ** The pieces of [do_POST] *)

Section Pieces.

Variable T : Tables.

(** The body of the [try]. *)
Definition display (post_data : bytes) : M unit :=
  text <- lift (decode_utf8 post_data) ;;
  data <- lift (json_loads T text) ;;
  alert_id <- lift (py_get data "alert_id" PNone) ;;
  print (nl ++ "告警ID: " ++ py_str T alert_id) ;;
  title <- lift (py_get data "title" PNone) ;;
  print ("标题: " ++ py_str T title) ;;
  message <- lift (py_get data "message" PNone) ;;
  print ("消息: " ++ py_str T message) ;;
  severity <- lift (py_get data "severity" PNone) ;;
  print ("严重程度: " ++ py_str T severity) ;;
  alert_type <- lift (py_get data "alert_type" PNone) ;;
  print ("告警类型: " ++ py_str T alert_type) ;;
  device_id <- lift (py_get data "device_id" (PStr "N/A")) ;;
  print ("设备ID: " ++ py_str T device_id) ;;
  created_at <- lift (py_get data "created_at" PNone) ;;
  print ("创建时间: " ++ py_str T created_at) ;;
  timestamp <- lift (py_get data "timestamp" PNone) ;;
  print ("时间戳: " ++ py_str T timestamp) ;;
  metadata <- lift (py_get data "metadata" PNone) ;;
  (if truthy T metadata then
     print (nl ++ "元数据:") ;;
     mapping <- lift (py_getitem T data "metadata") ;;
     items <- lift (attr_items mapping) ;;
     for_each items (fun kv => print ("  " ++ fst kv ++ ": " ++ py_str T (snd kv)))
   else ret tt) ;;
  print (nl ++ repeat_str "=" 80 ++ nl).

(** The body of the [except]. *)
Definition report (post_data : bytes) (e : exn) : M unit :=
  print ("解析错误: " ++ exn_str e) ;;
  text <- lift (decode_utf8 post_data) ;;
  print ("原始数据: " ++ text).

(** What follows the [try] statement. *)
Definition acknowledge : M unit :=
  send_response WebhookHandler.log_message 200 ;;
  send_header "Content-type" "application/json" ;;
  end_headers ;;
  wfile_write (bytes_of_str (q "{'status': 'received'}")).

End Pieces.

(** ** Texts the console takes *)

(** The console can encode [text]: [print] writes it. *)
Definition printable (text : str) : Prop := utf8_encode_error text = None.

(** [s] holds ASCII characters only. *)
Definition plain (s : str) : Prop := Forall (fun c => (c < 128)%N) (codes_of_str s).

(** [a] ends where a character ends: what is appended to it is read on its
    own. *)
Definition complete (a : str) : Prop :=
  forall s, codepoints (a ++ s) = (codepoints a ++ codepoints s)%list.

(** An exception that the [except] clause of the handler catches and whose
    description the console takes. *)
Definition reportable (e : exn) : Prop :=
  is_Exception (exn_cls e) = true /\ plain (exn_str e).

(** What the scanner of [json.loads] raises by itself: [RecursionError] or
    the [ValueError] for an integer of too many digits. *)
Definition json_exception (e : exn) : Prop :=
  reportable e /\ (exn_cls e = RecursionError \/ exn_cls e = ValueError).

(** What is shown of a result of the scanner on [s]: with [enough] fuel it
    is not out of fuel; it leaves less than [s]; its message is plain; its
    exception is one of the scanner's. *)
Definition scan_ok (enough : Prop) (s : str) (res : jres pyvalue) : Prop :=
  (enough -> res <> JDepth) /\
  (forall v r p, res = JOk v r p -> String.length r < String.length s) /\
  (forall m p, res = JFail m p -> plain m) /\
  (forall e, res = JRaise e -> json_exception e).

(** [print] of each of [lines] in turn, then [k]. *)
Fixpoint print_then {A} (lines : list str) (k : M A) : M A :=
  match lines with
  | [] => k
  | line :: rest => print line ;; print_then rest k
  end.

(** ** The lines of a block *)

(** The eight labelled lines of an alert, in the order they are printed. *)
Definition field_lines (T : Tables) (d : pydict) : list str :=
  [ nl ++ "告警ID: " ++ py_str T (dict_get d "alert_id" PNone);
    "标题: " ++ py_str T (dict_get d "title" PNone);
    "消息: " ++ py_str T (dict_get d "message" PNone);
    "严重程度: " ++ py_str T (dict_get d "severity" PNone);
    "告警类型: " ++ py_str T (dict_get d "alert_type" PNone);
    "设备ID: " ++ py_str T (dict_get d "device_id" (PStr "N/A"));
    "创建时间: " ++ py_str T (dict_get d "created_at" PNone);
    "时间戳: " ++ py_str T (dict_get d "timestamp" PNone) ].

(** The heading of the metadata section and the line of one of its items. *)
Definition metadata_heading : str := nl ++ "元数据:".
Definition metadata_line (T : Tables) (kv : str * pyvalue) : str :=
  "  " ++ fst kv ++ ": " ++ py_str T (snd kv).

(** The lines of the metadata section of the object [d]: none when the
    metadata are absent or false, the heading alone when they are a true
    value that is no mapping. *)
Definition metadata_lines (T : Tables) (d : pydict) : list str :=
  if truthy T (dict_get d "metadata" PNone) then
    metadata_heading ::
    match dict_get d "metadata" PNone with
    | PDict m => map (metadata_line T) m
    | _ => []
    end
  else [].

(** How the metadata section of the object [d] ends once its lines are
    printed: true metadata that are no mapping have no [items]. *)
Definition metadata_end (T : Tables) (d : pydict) : outcome unit :=
  let v := dict_get d "metadata" PNone in
  if truthy T v then
    match v with
    | PDict _ => Return tt
    | _ => Raise (attribute_error v "items")
    end
  else Return tt.

(** The [if] statement of the [try] body, [data] being the object [d]. *)
Definition show_metadata (T : Tables) (d : pydict) : M unit :=
  if truthy T (dict_get d "metadata" PNone) then
    print metadata_heading ;;
    mapping <- lift (py_getitem T (PDict d) "metadata") ;;
    items <- lift (attr_items mapping) ;;
    for_each items (fun kv => print (metadata_line T kv))
  else ret tt.

(** The two lines of the [except] branch. *)
Definition error_lines (e : exn) (text : str) : list str :=
  [ "解析错误: " ++ exn_str e; "原始数据: " ++ text ].

(** ** The body-read step *)

(** What [rfile.read(n)] returns from the stream [s], and what it leaves. *)
Definition read_data (n : Z) (s : bytes) : bytes :=
  if (n =? -1)%Z then s else firstn (Z.to_nat n) s.
Definition read_rest (n : Z) (s : bytes) : bytes :=
  if (n =? -1)%Z then [] else skipn (Z.to_nat n) s.

(** The largest size [rfile.read] accepts. *)
Definition read_max (T : Tables) : Z := Z.min (maxsize - 33) (Z.of_N (memory T)).

(** [w] once [n] bytes were asked of its stream. *)
Definition after_read (n : Z) (w : world) : world :=
  mk_world (stdout w) (read_rest n (rfile w)) (sent w) (listening w).

(** ** Locality *)

(** A computation is local when, of the world, it reads only the stream of
    the connection, and only adds to the console and to what was sent. *)
Definition local {A} (m : M A) : Prop :=
  forall rf, exists o lines rf' calls, forall out snt l,
    m (mk_world out rf snt l) = (o, mk_world (out ++ lines) rf' (snt ++ calls) l).

(** ** The listener *)

(** The three lines of the startup banner for [port]. *)
Definition banner (port : Z) : list str :=
  [ "🚀 Webhook接收器启动在端口 " ++ str_of_Z port;
    "📡 Webhook URL: http://localhost:" ++ str_of_Z port ++ "/webhook";
    "⏳ 等待告警通知..." ++ nl ].

(** [w] once the listening socket is bound to [port] on [host]. *)
Definition listening_on (host : str) (port : Z) (w : world) : world :=
  mk_world (stdout w) (rfile w) (sent w) (Some (host, port)).

(** The line printed when the server is interrupted. *)
Definition farewell : str := nl ++ nl ++ "👋 接收器已停止".

(** ** Concrete requests *)

(** A request on a fresh connection: one Content-Length header of value
    [len], and [stream] on the wire after the header block. *)
Definition length_header (len : str) : headers := [("Content-Length", len)].
Definition fresh (stream : bytes) : world := mk_world [] stream [] None.

(** The JSON text [{"title": "café"}] as a sender using Latin-1 encodes
    it. *)
Definition latin1_body : bytes :=
  (bytes_of_str (q "{'title': 'caf") ++ [xe9] ++ bytes_of_str (q "'}"))%list.

(** An operating system that grants every address, brings no request and
    never interrupts. *)
Definition quiet_os : os := mk_os (fun _ _ => None) 49152 [] None.

(** ** The command line *)

(** The port the command line [argv] asks for: 8888 when there is no first
    argument, what [int] reads in the first argument otherwise. *)
Definition asks_for_port (T : Tables) (argv : list str) (p : Z) : Prop :=
  ((List.length argv <= 1)%nat /\ p = 8888%Z) \/
  (exists prog arg others, argv = prog :: arg :: others /\ int_of_str T arg = Return p).

(** An operating system where the address is already taken. *)
Definition busy_os : os :=
  mk_os (fun _ _ => Some (mk_exn OSError "[Errno 98] Address already in use")) 49152 [] None.

(** An operating system that grants every address and brings the requests
    [rs], after which the user interrupts the program. *)
Definition interrupted_os (rs : list request) : os :=
  mk_os (fun _ _ => None) 49152 rs (Some (mk_exn KeyboardInterrupt "")).

(** ** Plain bodies and numerals *)

(** A byte of the ASCII range. *)
Definition is_ascii_byte (b : byte) : bool := (Byte.to_N b <? 128)%N.

(** The number of digits of the decimal numeral of [z]. *)
Definition decimal_digits (z : Z) : nat := String.length (str_of_Z (Z.abs z)).

(** The characters of the numeral [d], as [int] sees them. *)
Definition numeral_codes (T : Tables) (d : Decimal.uint) : list N :=
  map (to_ascii_decimal T) (codepoints (NilEmpty.string_of_uint d)).

(** * Properties of the model of the runtime *)

(** ** Texts the console takes *)

Lemma codes_of_str_app (a b : str) :
  codes_of_str (a ++ b) = (codes_of_str a ++ codes_of_str b)%list.
Proof.
  unfold codes_of_str. induction a as [|c a IH]; [reflexivity|].
  cbn [append list_ascii_of_string map app]. now rewrite IH.
Qed.

Lemma append_assoc (a b c : str) : (a ++ b) ++ c = a ++ b ++ c.
Proof. induction a as [|x a IH]; [reflexivity|]. cbn. now rewrite IH. Qed.

Lemma plain_check (s : str) :
  forallb (fun c => (c <? 128)%N) (codes_of_str s) = true -> plain s.
Proof.
  intros H. apply Forall_forall. intros c Hc.
  rewrite forallb_forall in H. apply N.ltb_lt. now apply H.
Qed.

Lemma plain_app (a b : str) : plain a -> plain b -> plain (a ++ b).
Proof.
  unfold plain. rewrite codes_of_str_app. intros Ha Hb. apply Forall_app. now split.
Qed.

Lemma codepoints_of_ascii (l rest : list N) :
  Forall (fun c => (c < 128)%N) l ->
  codepoints_of (l ++ rest) = (l ++ codepoints_of rest)%list.
Proof.
  induction 1 as [|c l Hc _ IH]; [reflexivity|].
  cbn [app codepoints_of].
  assert (E : (c <? 192)%N = true) by (apply N.ltb_lt; lia).
  now rewrite E, IH.
Qed.

Lemma codepoints_plain (s : str) : plain s -> codepoints s = codes_of_str s.
Proof.
  intros H. unfold codepoints.
  rewrite <- (app_nil_r (codes_of_str s)) at 1.
  rewrite (codepoints_of_ascii _ [] H). cbn. apply app_nil_r.
Qed.

Lemma plain_complete (a : str) : plain a -> complete a.
Proof.
  intros H s. unfold codepoints at 1. rewrite codes_of_str_app.
  rewrite (codepoints_of_ascii _ _ H). now rewrite (codepoints_plain _ H).
Qed.

Lemma complete_app (a b : str) : complete a -> complete b -> complete (a ++ b).
Proof.
  intros Ha Hb s. now rewrite append_assoc, Ha, Hb, Ha, app_assoc.
Qed.

Lemma first_surrogates_none (cs : list N) (pos : nat) :
  first_surrogates pos cs = None <-> Forall (fun c => is_surrogate c = false) cs.
Proof.
  revert pos. induction cs as [|c r IH]; intros pos; cbn [first_surrogates].
  - split; [constructor|reflexivity].
  - destruct (is_surrogate c) eqn:E.
    + split; [discriminate|]. intros H. inversion H; congruence.
    + rewrite IH. split.
      * now constructor.
      * intros H. now inversion H.
Qed.

Lemma printable_iff (text : str) :
  printable text <-> Forall (fun c => is_surrogate c = false) (codepoints text).
Proof.
  unfold printable, utf8_encode_error. rewrite <- (first_surrogates_none _ 0).
  destruct (first_surrogates 0 (codepoints text)) as [[[a b] c]|].
  - split; discriminate.
  - split; reflexivity.
Qed.

Lemma plain_printable (s : str) : plain s -> printable s.
Proof.
  intros H. apply printable_iff. rewrite (codepoints_plain _ H).
  eapply Forall_impl; [|exact H]. cbn. intros c Hc.
  unfold is_surrogate. apply andb_false_iff. left. apply N.leb_gt. lia.
Qed.

Lemma printable_app (a b : str) :
  complete a -> printable a -> printable b -> printable (a ++ b).
Proof.
  intros Hc Ha Hb. apply printable_iff. rewrite Hc. apply Forall_app. split.
  - now apply printable_iff.
  - now apply printable_iff.
Qed.

(** What the console refuses is a [UnicodeEncodeError] with a plain
    description. *)

Lemma N_of_ascii_of_N (n : N) : (n < 256)%N -> N_of_ascii (ascii_of_N n) = n.
Proof. apply N_ascii_embedding. Qed.

Lemma plain_chr (n : N) : (n < 128)%N -> plain (chr n).
Proof.
  intros H. unfold plain, chr, codes_of_str. cbn. constructor; [|constructor].
  rewrite N_of_ascii_of_N by lia. exact H.
Qed.

Lemma plain_uint (d : Decimal.uint) : plain (NilEmpty.string_of_uint d).
Proof.
  induction d; cbn [NilEmpty.string_of_uint];
    try (apply (plain_app (String _ "") _); [apply plain_check; reflexivity | assumption]).
  constructor.
Qed.

Lemma plain_uint0 (d : Decimal.uint) : plain (NilZero.string_of_uint d).
Proof.
  destruct d; try apply plain_uint. apply plain_check. reflexivity.
Qed.

Lemma plain_str_of_nat (n : nat) : plain (str_of_nat n).
Proof. apply plain_uint0. Qed.

Lemma plain_str_of_N (n : N) : plain (str_of_N n).
Proof. apply plain_uint0. Qed.

Lemma plain_str_of_Z (z : Z) : plain (str_of_Z z).
Proof.
  unfold str_of_Z, NilZero.string_of_int. destruct (Z.to_int z) as [d|d].
  - apply plain_uint0.
  - apply (plain_app "-"); [apply plain_check; reflexivity | apply plain_uint0].
Qed.

Lemma plain_hex_pad (w : nat) (n : N) : plain (hex_pad w n).
Proof.
  revert n. induction w as [|w IH]; intros n; cbn [hex_pad].
  - constructor.
  - apply plain_app; [apply IH|]. unfold hex_digit.
    pose proof (N.mod_lt n 16 ltac:(discriminate)) as Hm.
    destruct (n mod 16 <? 10)%N eqn:E; apply plain_chr.
    + apply N.ltb_lt in E. lia.
    + lia.
Qed.

Create HintDb plain.
#[local] Hint Resolve plain_str_of_nat plain_str_of_N plain_str_of_Z plain_hex_pad : plain.

Ltac plain_text :=
  repeat first
    [ solve [auto with plain]
    | solve [apply plain_check; reflexivity]
    | apply plain_app ].

Lemma plain_unicode_encode_error (start stop : nat) (c : N) :
  plain (exn_str (unicode_encode_error start stop c)).
Proof.
  unfold unicode_encode_error. cbn [exn_str].
  destruct (Nat.eqb stop (start + 1)); plain_text.
Qed.

Lemma utf8_encode_error_reportable (text : str) (e : exn) :
  utf8_encode_error text = Some e -> reportable e /\ exn_cls e = UnicodeEncodeError.
Proof.
  unfold utf8_encode_error.
  destruct (first_surrogates 0 (codepoints text)) as [[[a b] c]|]; [|discriminate].
  intros [= <-]. split; [split|]; [reflexivity| |reflexivity].
  apply plain_unicode_encode_error.
Qed.

(** ** What [bytes.decode] gives *)

Lemma decode_utf8_class (data : bytes) (e : exn) :
  decode_utf8 data = Raise e -> exn_cls e = UnicodeDecodeError.
Proof.
  unfold decode_utf8. destruct (utf8_first_error _ _) as [[[a b] r]|]; [|discriminate].
  intros [= <-]. reflexivity.
Qed.

Lemma decode_utf8_ends (data : bytes) : decode_utf8 data <> Forever.
Proof.
  unfold decode_utf8. destruct (utf8_first_error _ _) as [[[a b] r]|]; discriminate.
Qed.

Lemma decode_utf8_reportable (data : bytes) (e : exn) :
  decode_utf8 data = Raise e -> reportable e.
Proof.
  unfold decode_utf8. destruct (utf8_first_error _ _) as [[[a b] r]|]; [|discriminate].
  intros [= <-]. split; [reflexivity|].
  unfold unicode_decode_error. cbn [exn_str].
  destruct (Nat.eqb b (a + 1)); destruct r; cbn [utf8_reason_str]; plain_text.
Qed.

Lemma decode_utf8_Exception (data : bytes) (e : exn) :
  decode_utf8 data = Raise e -> is_Exception (exn_cls e) = true.
Proof. intros H. apply (decode_utf8_reportable _ _ H). Qed.

Lemma codes_of_str_of_bytes (data : bytes) :
  codes_of_str (str_of_bytes data) = codes_of_bytes data.
Proof.
  unfold codes_of_str, str_of_bytes, codes_of_bytes, string_of_list_byte.
  rewrite list_ascii_of_string_of_list_ascii, map_map.
  apply map_ext. intros b. rewrite ascii_of_byte_via_N.
  apply N_of_ascii_of_N. pose proof (Byte.to_N_bounded b). lia.
Qed.

Ltac to_prop :=
  repeat match goal with
         | H : (_ <? _)%N = true |- _ => apply N.ltb_lt in H
         | H : (_ <? _)%N = false |- _ => apply N.ltb_ge in H
         | H : (_ <=? _)%N = true |- _ => apply N.leb_le in H
         | H : (_ <=? _)%N = false |- _ => apply N.leb_gt in H
         | H : (_ =? _)%N = true |- _ => apply N.eqb_eq in H
         | H : (_ =? _)%N = false |- _ => apply N.eqb_neq in H
         | H : (_ && _) = true |- _ => apply andb_true_iff in H; destruct H
         | H : negb _ = false |- _ => apply negb_false_iff in H
         end.

Ltac div_lia := zify; Z.to_euclidean_division_equations; lia.

(** A code point is no surrogate when it lies below or above them. *)
Lemma not_surrogate (c : N) : (c < 55296 \/ 57343 < c)%N -> is_surrogate c = false.
Proof.
  intros H. unfold is_surrogate. apply andb_false_iff.
  destruct H; [left; apply N.leb_gt | right; apply N.leb_gt]; lia.
Qed.

(** The strict decoder accepts no encoding of a surrogate. *)
Lemma utf8_valid_no_surrogate (n : nat) :
  forall bs pos, List.length bs <= n -> utf8_first_error pos bs = None ->
                 Forall (fun c => is_surrogate c = false) (codepoints_of bs).
Proof.
  induction n as [|n IH]; intros bs pos Hn H.
  - destruct bs; [constructor | cbn in Hn; lia].
  - destruct bs as [|b0 t0]; [constructor|].
    cbn [utf8_first_error] in H. cbn [codepoints_of]. cbn [List.length] in Hn.
    destruct (b0 <? 128)%N eqn:E1.
    { assert (E : (b0 <? 192)%N = true) by (to_prop; apply N.ltb_lt; lia).
      rewrite E. constructor.
      - to_prop. apply not_surrogate. lia.
      - apply (IH t0 (S pos)); [lia | exact H]. }
    destruct (b0 <? 194)%N eqn:E2; [discriminate|].
    assert (E : (b0 <? 192)%N = false) by (to_prop; apply N.ltb_ge; lia).
    rewrite E. clear E.
    destruct (b0 <? 224)%N eqn:E3.
    { destruct t0 as [|b1 t1]; [discriminate|].
      destruct (is_cont b1) eqn:C1; [|discriminate].
      cbn [List.length] in Hn. constructor.
      - apply not_surrogate. div_lia.
      - apply (IH t1 (pos + 2)); [lia | exact H]. }
    destruct (b0 <? 240)%N eqn:E4.
    { cbv zeta in H.
      destruct t0 as [|b1 t1]; [discriminate|].
      destruct (within _ _ b1) eqn:W; [|discriminate]. cbn [negb] in H.
      destruct t1 as [|b2 t2]; [discriminate|].
      destruct (is_cont b2) eqn:C2; [|discriminate].
      cbn [List.length] in Hn. constructor.
      - unfold within, is_cont in *.
        destruct (b0 =? 224)%N eqn:A; destruct (b0 =? 237)%N eqn:B; to_prop;
          apply not_surrogate; clear IH H Hn; div_lia.
      - apply (IH t2 (pos + 3)); [lia | exact H]. }
    destruct (b0 <? 245)%N eqn:E5; [|discriminate].
    cbv zeta in H.
    destruct t0 as [|b1 t1]; [discriminate|].
    destruct (within _ _ b1) eqn:W; [|discriminate]. cbn [negb] in H.
    destruct t1 as [|b2 t2]; [discriminate|].
    destruct (is_cont b2) eqn:C2; [|discriminate]. cbn [negb] in H.
    destruct t2 as [|b3 t3]; [discriminate|].
    destruct (is_cont b3) eqn:C3; [|discriminate].
    cbn [List.length] in Hn. constructor.
    + unfold within, is_cont in *.
      destruct (b0 =? 240)%N eqn:A; destruct (b0 =? 244)%N eqn:B; to_prop;
        apply not_surrogate; clear IH H Hn; div_lia.
    + apply (IH t3 (pos + 4)); [lia | exact H].
Qed.

(** A text that [bytes.decode] gives is one the console takes. *)
Lemma decoded_printable (data : bytes) (text : str) :
  decode_utf8 data = Return text -> printable text.
Proof.
  unfold decode_utf8.
  destruct (utf8_first_error 0 (codes_of_bytes data)) as [[[a b] r]|] eqn:E; [discriminate|].
  intros [= <-]. apply printable_iff. unfold codepoints. rewrite codes_of_str_of_bytes.
  apply (utf8_valid_no_surrogate _ _ 0 (le_n _) E).
Qed.

(** A body of ASCII bytes is well-formed UTF-8. *)
Lemma utf8_first_error_ascii (l : list N) (pos : nat) :
  Forall (fun b => (b < 128)%N) l -> utf8_first_error pos l = None.
Proof.
  intros H. revert pos. induction H as [|b l Hb _ IH]; intros pos; cbn [utf8_first_error].
  - reflexivity.
  - apply N.ltb_lt in Hb. rewrite Hb. apply IH.
Qed.

Lemma decode_utf8_ascii (data : bytes) :
  forallb is_ascii_byte data = true -> decode_utf8 data = Return (str_of_bytes data).
Proof.
  intros H. unfold decode_utf8. rewrite utf8_first_error_ascii; [reflexivity|].
  unfold codes_of_bytes. apply Forall_map. apply Forall_forall. intros b Hb.
  rewrite forallb_forall in H. apply N.ltb_lt. exact (H b Hb).
Qed.

(** ** The JSON scanner has fuel enough, and what it raises is reportable *)

Lemma skip_ws_length (s : str) (p : nat) :
  String.length (fst (skip_ws s p)) <= String.length s.
Proof.
  revert p. induction s as [|c r IH]; intros p; cbn [skip_ws].
  - cbn. lia.
  - destruct (is_json_ws c).
    + specialize (IH (S p)). cbn [String.length]. lia.
    + cbn. lia.
Qed.

Lemma after_char_length (c : ascii) (s r : str) :
  after_char c s = Some r -> String.length s = S (String.length r).
Proof.
  destruct s as [|c' s]; cbn; [discriminate|].
  destruct (Ascii.eqb c' c); [|discriminate]. now intros [= ->].
Qed.

Lemma take_digits_length (s : str) :
  String.length (snd (take_digits s)) <= String.length s.
Proof.
  induction s as [|c r IH]; cbn [take_digits].
  - cbn. lia.
  - destruct (is_digit c).
    + destruct (take_digits r) as [ds rest]. cbn in *. lia.
    + cbn. lia.
Qed.

Lemma strip_prefix_length (p s r : str) :
  strip_prefix p s = Some r -> String.length s = String.length p + String.length r.
Proof.
  revert s. induction p as [|a p IH]; intros s; cbn [strip_prefix].
  - now intros [= ->].
  - destruct s as [|b s]; [discriminate|].
    destruct (Ascii.eqb a b); [|discriminate].
    intros H. apply IH in H. cbn. lia.
Qed.

Ltac break_scan H :=
  repeat match type of H with
         | context [match ?x with _ => _ end] => destruct x eqn:?
         end.

Lemma scanstring_sound (n : nat) :
  forall s, String.length s <= n ->
  forall b acc p,
    scanstring b acc s p <> JDepth /\
    (forall e, scanstring b acc s p <> JRaise e) /\
    (forall m p', scanstring b acc s p = JFail m p' -> plain m) /\
    forall t r p', scanstring b acc s p = JOk t r p' -> String.length r < String.length s.
Proof.
  induction n as [|n IH]; intros s Hn b acc p.
  - destruct s; [|cbn in Hn; lia]. cbn. repeat split; try discriminate.
    intros m p' [= <- _]. apply plain_check. reflexivity.
  - destruct s as [|c r].
    { cbn. repeat split; try discriminate.
      intros m p' [= <- _]. apply plain_check. reflexivity. }
    cbn [String.length] in Hn.
    assert (IHd : forall s', String.length s' <= String.length r ->
              forall b acc p, scanstring b acc s' p <> JDepth)
      by (intros s' Hs' b' acc' q; apply IH; lia).
    assert (IHr : forall s', String.length s' <= String.length r ->
              forall b acc p e, scanstring b acc s' p <> JRaise e)
      by (intros s' Hs' b' acc' q; apply IH; lia).
    assert (IHf : forall s', String.length s' <= String.length r ->
              forall b acc p m p', scanstring b acc s' p = JFail m p' -> plain m)
      by (intros s' Hs' b' acc' q; apply IH; lia).
    assert (IHl : forall s', String.length s' <= String.length r ->
              forall b acc p t r0 p', scanstring b acc s' p = JOk t r0 p' ->
                                      String.length r0 < String.length s')
      by (intros s' Hs' b' acc' q; apply IH; lia).
    clear IH.
    split; [|split; [|split]].
    + intros H. cbn [scanstring] in H.
      break_scan H; try discriminate; subst;
        (apply IHd in H; [exact H | cbn [String.length]; lia]).
    + intros ex H. cbn [scanstring] in H.
      break_scan H; try discriminate; subst;
        (apply IHr in H; [exact H | cbn [String.length]; lia]).
    + intros m p' H. cbn [scanstring] in H.
      break_scan H; try discriminate; subst;
        try (injection H as <- _; apply plain_check; reflexivity);
        (apply IHf in H; [exact H | cbn [String.length]; lia]).
    + intros t r0 p' H. cbn [scanstring] in H.
      break_scan H; try discriminate; subst;
        try (injection H as <- <- <-; cbn [String.length]; lia);
        (apply IHl in H; [cbn [String.length] in *; lia | cbn [String.length]; lia]).
Qed.

Lemma match_int_part_length (s ip r : str) :
  match_int_part s = Some (ip, r) -> String.length r < String.length s.
Proof.
  destruct s as [|c s]; cbn [match_int_part]; [discriminate|].
  destruct (Ascii.eqb c "0").
  - intros [= _ <-]. cbn. lia.
  - destruct (is_digit c); [|discriminate].
    pose proof (take_digits_length s) as L.
    destruct (take_digits s) as [ds r']. intros [= _ <-]. cbn in *. lia.
Qed.

Lemma match_frac_length (s : str) :
  String.length (snd (match_frac s)) <= String.length s.
Proof.
  unfold match_frac. destruct (after_char "." s) as [r|] eqn:E; [|cbn; lia].
  apply after_char_length in E. pose proof (take_digits_length r) as L.
  destruct (take_digits r) as [ds r']. destruct (is_empty ds); cbn in *; lia.
Qed.

Lemma match_exp_length (s : str) :
  String.length (snd (match_exp s)) <= String.length s.
Proof.
  unfold match_exp. destruct s as [|e r]; [cbn; lia|].
  destruct (Ascii.eqb e "e" || Ascii.eqb e "E"); [|cbn; lia].
  assert (H : forall sg r1, String.length r1 <= String.length r ->
            String.length (snd (let '(ds, r') := take_digits r1 in
                                if is_empty ds then ("", String e r)
                                else (String e (sg ++ ds), r')))
            <= String.length (String e r)).
  { intros sg r1 Hr1. pose proof (take_digits_length r1) as L.
    destruct (take_digits r1) as [ds r']. destruct (is_empty ds); cbn in *; lia. }
  destruct (after_char "+" r) as [r'|] eqn:E1.
  - apply after_char_length in E1. apply H. lia.
  - destruct (after_char "-" r) as [r'|] eqn:E2.
    + apply after_char_length in E2. apply H. lia.
    + apply H. lia.
Qed.

Lemma match_number_length (s lit rest : str) (fl : bool) :
  match_number s = Some (lit, fl, rest) -> String.length rest < String.length s.
Proof.
  unfold match_number.
  assert (H : forall sign s1, String.length s1 <= String.length s ->
            match match_int_part s1 with
            | Some (ip, s2) =>
              let '(frac, s3) := match_frac s2 in
              let '(ex, s4) := match_exp s3 in
              Some (sign ++ ip ++ frac ++ ex, negb (is_empty frac && is_empty ex), s4)
            | None => None
            end = Some (lit, fl, rest) -> String.length rest < String.length s).
  { intros sign s1 Hs1. destruct (match_int_part s1) as [[ip s2]|] eqn:E; [|discriminate].
    apply match_int_part_length in E.
    pose proof (match_frac_length s2) as L2. destruct (match_frac s2) as [frac s3].
    pose proof (match_exp_length s3) as L3. destruct (match_exp s3) as [ex s4].
    intros [= _ _ <-]. cbn in *. lia. }
  destruct (after_char "-" s) as [r|] eqn:E.
  - apply after_char_length in E. apply H. lia.
  - apply H. lia.
Qed.

Lemma match_constant_length (s rest : str) (v : pyvalue) (n : nat) :
  match_constant json_constants s = Some (v, rest, n) ->
  String.length rest < String.length s.
Proof.
  unfold json_constants. cbn [match_constant].
  repeat (match goal with
          | |- context [strip_prefix ?p s] =>
            let E := fresh "E" in
            destruct (strip_prefix p s) eqn:E;
            [ apply strip_prefix_length in E; intros [= _ <- _]; cbn in E; lia | ]
          end).
  discriminate.
Qed.

(** What the scanner raises by itself. *)

Lemma recursion_error_exception (while : str) :
  plain while -> json_exception (recursion_error while).
Proof.
  intros H. split; [split; [reflexivity|] | now left].
  unfold recursion_error. cbn [exn_str]. now plain_text.
Qed.

Lemma too_deep_exception (what : str) : plain what -> json_exception (too_deep what).
Proof. intros H. apply recursion_error_exception. now plain_text. Qed.

Lemma int_limit_error_exception (T : Tables) (digits : nat) :
  json_exception (int_limit_error T digits).
Proof.
  split; [split; [reflexivity|] | now right].
  unfold int_limit_error. cbn [exn_str]. plain_text.
Qed.

Lemma no_room_error_exception (room : nat) (e : exn) :
  no_room_error room = Some e -> json_exception e.
Proof.
  destruct room as [|[|[|room]]]; cbn [no_room_error]; intros [= <-];
    apply recursion_error_exception; apply plain_check; reflexivity.
Qed.

Lemma scan_ok_JOk (enough : Prop) (s r : str) (v : pyvalue) (p : nat) :
  String.length r < String.length s -> scan_ok enough s (JOk v r p).
Proof.
  intros H. split; [discriminate|]. split; [|split; discriminate].
  now intros v' r' p' [= _ <- _].
Qed.

Lemma scan_ok_JFail (enough : Prop) (s m : str) (p : nat) :
  plain m -> scan_ok enough s (JFail m p).
Proof.
  intros H. split; [discriminate|]. split; [discriminate|]. split; [|discriminate].
  now intros m' p' [= <- _].
Qed.

Lemma scan_ok_JRaise (enough : Prop) (s : str) (e : exn) :
  json_exception e -> scan_ok enough s (JRaise e).
Proof.
  intros H. split; [discriminate|]. split; [discriminate|]. split; [discriminate|].
  now intros e' [= <-].
Qed.

Lemma scan_ok_syntax_error (enough : Prop) (s m : str) (room p : nat) :
  plain m -> scan_ok enough s (syntax_error room m p).
Proof.
  intros H. unfold syntax_error. destruct (no_room_error room) as [e|] eqn:E.
  - apply scan_ok_JRaise. apply (no_room_error_exception _ _ E).
  - now apply scan_ok_JFail.
Qed.

Lemma scan_ok_weaken (P Q : Prop) (s s' : str) (res : jres pyvalue) :
  scan_ok Q s' res -> (P -> Q) -> String.length s' <= String.length s ->
  scan_ok P s res.
Proof.
  intros (H1 & H2 & H3 & H4) HPQ Hs. split; [|split; [|split]].
  - intros HP. apply H1. now apply HPQ.
  - intros v r p E. specialize (H2 _ _ _ E). lia.
  - exact H3.
  - exact H4.
Qed.



(** With [2 * length s + 1] units of fuel the scanner never runs out of it;
    what it leaves is shorter than what it was given; the messages of its
    syntax errors are plain, and so are the descriptions of what it
    raises. *)
Lemma scan_fuel (T : Tables) (fuel : nat) :
  (forall room s pos,
     scan_ok (2 * String.length s + 1 <= fuel) s (scan_once T fuel room s pos)) /\
  (forall room acc s pos,
     scan_ok (2 * String.length s + 2 <= fuel) s (array_items T fuel room acc s pos)) /\
  (forall room acc s pos,
     scan_ok (2 * String.length s + 2 <= fuel) s (object_items T fuel room acc s pos)).
Proof.
  assert (Hlit : forall m, forallb (fun c => (c <? 128)%N) (codes_of_str m) = true -> plain m)
    by exact plain_check.
  induction fuel as [|fuel (IHs & IHa & IHo)].
  - repeat split; intros; cbn in *; try lia; discriminate.
  - split; [|split].
    + (* scan_once *)
      intros room s pos. cbn [scan_once].
      destruct s as [|c r]; [apply scan_ok_JFail; now apply Hlit|].
      cbn [String.length].
      destruct (is_quote c).
      { pose proof (scanstring_sound _ r (le_n _) pos [] (S pos)) as (Hd & Hr & Hf & Hl).
        destruct (scanstring pos [] r (S pos)) as [t rest p|m p|e|] eqn:E.
        - apply scan_ok_JOk. specialize (Hl _ _ _ eq_refl). cbn [String.length]. lia.
        - apply scan_ok_syntax_error. apply (Hf _ _ eq_refl).
        - now elim (Hr e).
        - now elim Hd. }
      destruct (Ascii.eqb c "{").
      { destruct room as [|room'].
        { apply scan_ok_JRaise. apply too_deep_exception. now apply Hlit. }
        pose proof (skip_ws_length r (S pos)) as L.
        destruct (skip_ws r (S pos)) as [r1 p1]. cbn [fst] in L.
        destruct (after_char "}" r1) as [r2|] eqn:E.
        - apply after_char_length in E. apply scan_ok_JOk. cbn [String.length]. lia.
        - apply (scan_ok_weaken _ _ _ _ _ (IHo room' [] r1 p1)); cbn [String.length]; lia. }
      destruct (Ascii.eqb c "[").
      { destruct room as [|room'].
        { apply scan_ok_JRaise. apply too_deep_exception. now apply Hlit. }
        pose proof (skip_ws_length r (S pos)) as L.
        destruct (skip_ws r (S pos)) as [r1 p1]. cbn [fst] in L.
        destruct (after_char "]" r1) as [r2|] eqn:E.
        - apply after_char_length in E. apply scan_ok_JOk. cbn [String.length]. lia.
        - apply (scan_ok_weaken _ _ _ _ _ (IHa room' [] r1 p1)); cbn [String.length]; lia. }
      destruct (match_constant json_constants (String c r)) as [[[v rest] n]|] eqn:E.
      { apply match_constant_length in E.
        destruct v, room; try (now apply scan_ok_JOk).
        apply scan_ok_JRaise. apply recursion_error_exception. now apply Hlit. }
      destruct (match_number (String c r)) as [[[lit fl] rest]|] eqn:E2.
      { apply match_number_length in E2.
        destruct fl; [now apply scan_ok_JOk|].
        destruct (exceeds_int_limit T _); [|now apply scan_ok_JOk].
        apply scan_ok_JRaise. apply int_limit_error_exception. }
      apply scan_ok_JFail. now apply Hlit.
    + (* array_items *)
      intros room acc s pos. cbn [array_items].
      destruct (IHs room s pos) as (Hd & Hl & Hf & Hr).
      destruct (scan_once T fuel room s pos) as [v r p|m p|e|] eqn:E.
      * specialize (Hl _ _ _ eq_refl).
        pose proof (skip_ws_length r p) as L.
        destruct (skip_ws r p) as [r1 p1]. cbn [fst] in L.
        destruct (after_char "]" r1) as [r2|] eqn:E1.
        { apply after_char_length in E1. apply scan_ok_JOk. lia. }
        destruct (after_char "," r1) as [r2|] eqn:E2;
          [|apply scan_ok_syntax_error; now apply Hlit].
        apply after_char_length in E2.
        pose proof (skip_ws_length r2 (S p1)) as L2.
        destruct (skip_ws r2 (S p1)) as [r3 p3]. cbn [fst] in L2.
        apply (scan_ok_weaken _ _ _ _ _ (IHa room (v :: acc) r3 p3)); lia.
      * apply scan_ok_JFail. apply (Hf _ _ eq_refl).
      * apply scan_ok_JRaise. apply (Hr _ eq_refl).
      * split; [|repeat split; discriminate]. intros Hf' _. apply Hd; [lia|reflexivity].
    + (* object_items *)
      intros room acc s pos. cbn [object_items].
      destruct (after_char (ascii_of_N 34) s) as [r|] eqn:E0;
        [|apply scan_ok_syntax_error; now apply Hlit].
      apply after_char_length in E0.
      pose proof (scanstring_sound _ r (le_n _) pos [] (S pos)) as (Hsd & Hsr & Hsf & Hsl).
      destruct (scanstring pos [] r (S pos)) as [key r0 p0|m p|e|] eqn:E;
        [|apply scan_ok_syntax_error; apply (Hsf _ _ eq_refl)|now elim (Hsr e)|now elim Hsd].
      specialize (Hsl _ _ _ eq_refl).
      pose proof (skip_ws_length r0 p0) as L.
      destruct (skip_ws r0 p0) as [r1 p1]. cbn [fst] in L.
      destruct (after_char ":" r1) as [r2|] eqn:E1;
        [|apply scan_ok_syntax_error; now apply Hlit].
      apply after_char_length in E1.
      pose proof (skip_ws_length r2 (S p1)) as L2.
      destruct (skip_ws r2 (S p1)) as [r3 p3]. cbn [fst] in L2.
      destruct (IHs room r3 p3) as (Hd & Hl & Hf & Hr).
      destruct (scan_once T fuel room r3 p3) as [v r4 p4|m p|e|] eqn:E2.
      * specialize (Hl _ _ _ eq_refl).
        pose proof (skip_ws_length r4 p4) as L4.
        destruct (skip_ws r4 p4) as [r5 p5]. cbn [fst] in L4.
        destruct (after_char "}" r5) as [r6|] eqn:E3.
        { apply after_char_length in E3. apply scan_ok_JOk. lia. }
        destruct (after_char "," r5) as [r6|] eqn:E4;
          [|apply scan_ok_syntax_error; now apply Hlit].
        apply after_char_length in E4.
        pose proof (skip_ws_length r6 (S p5)) as L6.
        destruct (skip_ws r6 (S p5)) as [r7 p7]. cbn [fst] in L6.
        apply (scan_ok_weaken _ _ _ _ _ (IHo room (dict_set acc key v) r7 p7)); lia.
      * apply scan_ok_JFail. apply (Hf _ _ eq_refl).
      * apply scan_ok_JRaise. apply (Hr _ eq_refl).
      * split; [|repeat split; discriminate]. intros Hf' _. apply Hd; [lia|reflexivity].
Qed.

Lemma plain_json_decode_error (msg doc : str) (pos : nat) :
  plain msg -> reportable (json_decode_error msg doc pos).
Proof.
  intros H. split; [reflexivity|]. unfold json_decode_error. cbn [exn_str]. now plain_text.
Qed.

(** [json.loads] returns a value or raises a reportable exception, which is
    a [JSONDecodeError], a [RecursionError] or a [ValueError]; the branch
    of the model for exhausted fuel is never taken. *)
Lemma json_loads_total (T : Tables) (doc : str) :
  (exists v, json_loads T doc = Return v) \/
  (exists e, json_loads T doc = Raise e /\ reportable e /\
             (exn_cls e = JSONDecodeError \/ exn_cls e = RecursionError
              \/ exn_cls e = ValueError)).
Proof.
  assert (Hraise : forall room msg pos, plain msg ->
            exists e, @raise_syntax_error pyvalue room msg doc pos = Raise e /\ reportable e /\
              (exn_cls e = JSONDecodeError \/ exn_cls e = RecursionError
               \/ exn_cls e = ValueError)).
  { intros room msg pos Hm. unfold raise_syntax_error.
    destruct (no_room_error room) as [e|] eqn:E.
    - exists e. split; [reflexivity|].
      destruct (no_room_error_exception _ _ E) as (Hr & [Hc|Hc]); auto.
    - eexists. split; [reflexivity|]. split; [now apply plain_json_decode_error|now left]. }
  unfold json_loads. destruct (strip_prefix _ doc).
  - right. eexists. split; [reflexivity|]. split; [|now left].
    apply plain_json_decode_error. apply plain_check. reflexivity.
  - pose proof (skip_ws_length doc 0) as L.
    destruct (skip_ws doc 0) as [s0 p0]. cbn [fst] in L.
    destruct (scan_fuel T (2 * String.length doc + 1)) as (Hs & _ & _).
    destruct (Hs (json_depth T) s0 p0) as (Hd & _ & Hf & Hr).
    destruct (scan_once _ _ _ s0 p0) as [v rest p|m p|e|].
    + destruct (skip_ws rest p) as [rest' p']. destruct (is_empty rest').
      * left. now exists v.
      * right. apply Hraise. apply plain_check. reflexivity.
    + right. apply Hraise. apply (Hf _ _ eq_refl).
    + right. exists e. split; [reflexivity|].
      destruct (Hr _ eq_refl) as (Hrep & [Hc|Hc]); auto.
    + exfalso. apply Hd; [lia|reflexivity].
Qed.

Lemma json_loads_reportable (T : Tables) (doc : str) (e : exn) :
  json_loads T doc = Raise e -> reportable e.
Proof.
  intros H. destruct (json_loads_total T doc) as [(v & Hv) | (e' & He & Hr & _)].
  - congruence.
  - congruence.
Qed.

Lemma json_loads_Exception (T : Tables) (doc : str) (e : exn) :
  json_loads T doc = Raise e -> is_Exception (exn_cls e) = true.
Proof. intros H. apply (json_loads_reportable _ _ _ H). Qed.

Lemma json_loads_ends (T : Tables) (doc : str) : json_loads T doc <> Forever.
Proof.
  destruct (json_loads_total T doc) as [(v & Hv) | (e' & He & _)]; congruence.
Qed.

(** ** [int] reads back what [str] writes *)

Section Numerals.

Variable T : Tables.

Lemma numeral_codes_digit (c : ascii) (s : str) :
  (48 <= N_of_ascii c <= 57)%N ->
  map (to_ascii_decimal T) (codepoints (String c s))
  = N_of_ascii c :: map (to_ascii_decimal T) (codepoints s).
Proof.
  intros Hc. unfold codepoints, codes_of_str. cbn [list_ascii_of_string map codepoints_of].
  assert (H1 : (N_of_ascii c <? 192)%N = true) by (apply N.ltb_lt; lia).
  rewrite H1. cbn [map]. unfold to_ascii_decimal at 1.
  assert (H2 : (N_of_ascii c <? 127)%N = true) by (apply N.ltb_lt; lia).
  now rewrite H2.
Qed.

Lemma numeral_length (d : Decimal.uint) :
  String.length (NilEmpty.string_of_uint d) = Decimal.nb_digits d.
Proof. induction d; cbn; congruence. Qed.

(** The digits of a numeral are read, and counted, as the library's
    [Pos.of_uint] reads them. *)
Lemma int_digits_acc (d : Decimal.uint) :
  (forall p k, int_digits (Zpos p) (S k) false (numeral_codes T d)
               = Some (Zpos (Pos.of_uint_acc d p), S k + Decimal.nb_digits d, [])) /\
  (forall k, 0 < k \/ d <> Decimal.Nil ->
             int_digits 0 k false (numeral_codes T d)
             = Some (Z.of_N (Pos.of_uint d), k + Decimal.nb_digits d, [])).
Proof.
  induction d as [|d [IHa IHb]|d [IHa IHb]|d [IHa IHb]|d [IHa IHb]|d [IHa IHb]
                  |d [IHa IHb]|d [IHa IHb]|d [IHa IHb]|d [IHa IHb]|d [IHa IHb]].
  1: { split.
       - intros p k. cbn. now rewrite Nat.add_0_r.
       - intros k [Hk | Hd]; [|now elim Hd]. cbn.
         destruct k; [lia|]. cbn. now rewrite Nat.add_0_r. }
  all: split; [intros p k | intros k Hk];
    unfold numeral_codes; cbn [NilEmpty.string_of_uint];
    rewrite numeral_codes_digit by (cbn; lia);
    fold (numeral_codes T d);
    cbn [int_digits Pos.of_uint_acc Pos.of_uint Decimal.nb_digits];
    match goal with
    | |- context [ascii_isdigit ?c] => replace (ascii_isdigit c) with true by reflexivity
    end;
    match goal with
    | |- context [Z.of_N (N_of_ascii ?c - 48)] =>
      let v := eval vm_compute in (Z.of_N (N_of_ascii c - 48)) in
      change (Z.of_N (N_of_ascii c - 48)) with v
    end;
    rewrite <- ?Nat.add_succ_comm;
    lazymatch goal with
    | |- int_digits ?a _ _ _ = Some (Z.pos (Pos.of_uint_acc _ ?q), _, _) =>
      replace a with (Z.pos q) by lia; apply IHa
    | |- int_digits ?a _ _ _ = Some (Z.of_N (N.pos (Pos.of_uint_acc _ ?q)), _, _) =>
      replace a with (Z.pos q) by lia; apply IHa
    | |- int_digits ?a _ _ _ = Some (Z.of_N (Pos.of_uint _), _, _) =>
      replace a with 0%Z by lia; apply IHb; left; lia
    end.
Qed.

Lemma numeral_codes_head (d : Decimal.uint) :
  d <> Decimal.Nil ->
  exists c r, numeral_codes T d = c :: r /\ (48 <= c <= 57)%N.
Proof.
  destruct d; [intros H; now elim H|..]; intros _;
    unfold numeral_codes; cbn [NilEmpty.string_of_uint];
    rewrite numeral_codes_digit by (cbn; lia);
    eexists _, _; (split; [reflexivity | cbn; lia]).
Qed.

Lemma int_of_ascii_numeral (d : Decimal.uint) :
  d <> Decimal.Nil ->
  exceeds_int_limit T (Decimal.nb_digits d) = false ->
  int_of_ascii T (numeral_codes T d) = IntOk (Z.of_N (Pos.of_uint d)) /\
  int_of_ascii T (45%N :: numeral_codes T d) = IntOk (- Z.of_N (Pos.of_uint d))%Z.
Proof.
  intros Hd Hlim. destruct (numeral_codes_head d Hd) as (c & r & Hcr & Hc).
  pose proof (proj2 (int_digits_acc d) 0 (or_intror Hd)) as H. cbn [Nat.add] in H.
  assert (Hsp : ascii_isspace c = false).
  { unfold ascii_isspace, within.
    destruct (9 <=? c)%N eqn:E1, (c <=? 13)%N eqn:E2, (c =? 32)%N eqn:E3;
      try reflexivity;
      try (apply N.leb_le in E2; lia); try (apply N.eqb_eq in E3; lia). }
  split.
  - unfold int_of_ascii. rewrite Hcr in *. cbn [skip_spaces]. rewrite Hsp.
    assert (Hsign : forall A (x y z : A),
              match c :: r with 43%N :: _ => x | 45%N :: _ => y | _ => z end = z).
    { intros A x y z.
      destruct c as [|p]; [lia|].
      do 6 (destruct p as [p|p|]; try reflexivity); lia. }
    rewrite Hsign, H, Hlim. cbn [skip_spaces]. f_equal; lia.
  - unfold int_of_ascii. cbn [skip_spaces]. cbn [ascii_isspace within N.leb N.eqb andb orb
      N.compare Pos.compare Pos.compare_cont Pos.eqb].
    rewrite H, Hlim. cbn [skip_spaces]. f_equal; lia.
Qed.

Lemma to_uint_nonnil (p : positive) : Pos.to_uint p <> Decimal.Nil.
Proof. apply DecimalPos.Unsigned.to_uint_nonnil. Qed.

Lemma str_of_Z_codes (z : Z) :
  map (to_ascii_decimal T) (codepoints (str_of_Z z)) =
  match z with
  | Z0 => numeral_codes T (Decimal.D0 Decimal.Nil)
  | Zpos p => numeral_codes T (Pos.to_uint p)
  | Zneg p => 45%N :: numeral_codes T (Pos.to_uint p)
  end.
Proof.
  assert (Hnz : forall d, d <> Decimal.Nil ->
            NilZero.string_of_uint d = NilEmpty.string_of_uint d)
    by (intros d Hd; destruct d; [now elim Hd | reflexivity..]).
  destruct z as [|p|p]; unfold str_of_Z, Z.to_int, NilZero.string_of_int.
  - reflexivity.
  - now rewrite (Hnz _ (to_uint_nonnil p)).
  - rewrite (Hnz _ (to_uint_nonnil p)). unfold numeral_codes, codepoints, codes_of_str.
    reflexivity.
Qed.

Lemma decimal_digits_pos (p : positive) :
  decimal_digits (Zpos p) = Decimal.nb_digits (Pos.to_uint p) /\
  decimal_digits (Zneg p) = Decimal.nb_digits (Pos.to_uint p).
Proof.
  unfold decimal_digits, str_of_Z. cbn [Z.abs Z.to_int NilZero.string_of_int].
  pose proof (to_uint_nonnil p) as H.
  destruct (Pos.to_uint p) eqn:E; [now elim H|..];
    (split; cbn [NilZero.string_of_uint]; now rewrite numeral_length).
Qed.

(** [int(str(z)) == z], for an integer that has no more digits than [int]
    converts. *)
Lemma int_of_str_of_Z (z : Z) :
  exceeds_int_limit T (decimal_digits z) = false ->
  int_of_str T (str_of_Z z) = Return z.
Proof.
  intros Hlim. unfold int_of_str. rewrite str_of_Z_codes.
  destruct z as [|p|p].
  - reflexivity.
  - rewrite (proj1 (decimal_digits_pos p)) in Hlim.
    rewrite (proj1 (int_of_ascii_numeral _ (to_uint_nonnil p) Hlim)),
      DecimalPos.Unsigned.of_to. reflexivity.
  - rewrite (proj2 (decimal_digits_pos p)) in Hlim.
    rewrite (proj2 (int_of_ascii_numeral _ (to_uint_nonnil p) Hlim)),
      DecimalPos.Unsigned.of_to. reflexivity.
Qed.

(** A numeral of [n] digits that starts with no zero stands for [10^(n-1)]
    at least. *)
Lemma of_uint_acc_lower (d : Decimal.uint) (p : positive) :
  (Zpos p * 10 ^ Z.of_nat (Decimal.nb_digits d) <= Zpos (Pos.of_uint_acc d p))%Z.
Proof.
  revert p. induction d as [|d IH|d IH|d IH|d IH|d IH|d IH|d IH|d IH|d IH|d IH];
    intros p; cbn [Pos.of_uint_acc Decimal.nb_digits];
    [cbn; lia|..];
    rewrite Nat2Z.inj_succ, Z.pow_succ_r by lia;
    (eapply Z.le_trans; [|apply IH]);
    pose proof (Z.pow_nonneg 10 (Z.of_nat (Decimal.nb_digits d)) ltac:(lia));
    nia.
Qed.

Lemma to_uint_lower (p : positive) :
  (10 ^ (Z.of_nat (Decimal.nb_digits (Pos.to_uint p)) - 1) <= Zpos p)%Z.
Proof.
  pose proof (DecimalPos.Unsigned.of_to p) as Hof.
  pose proof (DecimalPos.Unsigned.to_of (Pos.to_uint p)) as Hto.
  rewrite Hof in Hto. cbn [N.to_uint] in Hto.
  destruct (Pos.to_uint p) as [|d|d|d|d|d|d|d|d|d|d] eqn:E;
    cbn [Pos.of_uint] in Hof;
    try (injection Hof as <-; cbn [Decimal.nb_digits];
         rewrite Nat2Z.inj_succ;
         replace (Z.succ (Z.of_nat (Decimal.nb_digits d)) - 1)%Z
           with (Z.of_nat (Decimal.nb_digits d)) by lia;
         eapply Z.le_trans; [|apply of_uint_acc_lower]; lia).
  - discriminate.
  - (* a leading zero *)
    exfalso. unfold Decimal.unorm in Hto. cbn [Decimal.nzhead] in Hto.
    pose proof (DecimalFacts.nb_digits_nzhead d) as Hn.
    destruct (Decimal.nzhead d) eqn:Ez; try discriminate Hto.
    + injection Hto as Hd. subst d. cbn in Hof. discriminate.
    + injection Hto as Hd. subst d. cbn [Decimal.nb_digits] in Hn. lia.
Qed.

(** An integer below [10^640] in absolute value is within every limit. *)
Lemma small_within_limit (z : Z) :
  (Z.abs z < 10 ^ 640)%Z -> exceeds_int_limit T (decimal_digits z) = false.
Proof.
  intros Hz. unfold exceeds_int_limit.
  assert (H : decimal_digits z <= 640).
  { destruct z as [|p|p]; [cbn; lia| |];
      [rewrite (proj1 (decimal_digits_pos p)) | rewrite (proj2 (decimal_digits_pos p))];
      pose proof (to_uint_lower p) as L; cbn [Z.abs] in Hz;
      destruct (Nat.le_gt_cases (Decimal.nb_digits (Pos.to_uint p)) 640) as [Hle|Hgt];
      try exact Hle;
      exfalso;
      assert (Hp : (10 ^ 640 <= 10 ^ (Z.of_nat (Decimal.nb_digits (Pos.to_uint p)) - 1))%Z)
        by (apply Z.pow_le_mono_r; lia);
      lia. }
  assert (E : (640 <? N.of_nat (decimal_digits z))%N = false) by (apply N.ltb_ge; lia).
  now rewrite E.
Qed.

End Numerals.

Lemma maxsize_small : (maxsize < 10 ^ 640)%Z.
Proof. reflexivity. Qed.

(** * Properties of the program *)

(** ** [do_POST] in pieces *)

Lemma do_POST_pieces (T : Tables) (self_headers : headers) :
  WebhookHandler.do_POST T self_headers =
  (content_length <- lift (py_int T (headers_getitem self_headers "Content-Length")) ;;
   post_data <- rfile_read T content_length ;;
   print (nl ++ repeat_str "=" 80) ;;
   print "✅ 收到Webhook通知！" ;;
   print (repeat_str "=" 80) ;;
   try_except (display T post_data) is_Exception (report post_data) ;;
   acknowledge).
Proof. reflexivity. Qed.

(** ** Running the primitives *)

Lemma printed_nil (w : world) : printed [] w = w.
Proof. unfold printed. rewrite app_nil_r. now destruct w. Qed.

Lemma printed_app (l1 l2 : list str) (w : world) :
  printed l2 (printed l1 w) = printed (l1 ++ l2) w.
Proof. unfold printed; cbn. now rewrite app_assoc. Qed.

Lemma replied_app (c1 c2 : list http_call) (w : world) :
  replied c2 (replied c1 w) = replied (c1 ++ c2) w.
Proof. unfold replied; cbn. now rewrite app_assoc. Qed.

Lemma print_run (text : str) (w : world) :
  printable text -> print text w = (Return tt, printed [text] w).
Proof. intros H. unfold print. now rewrite H. Qed.

Lemma print_fails (text : str) (e : exn) (w : world) :
  utf8_encode_error text = Some e -> print text w = (Raise e, w).
Proof. intros H. unfold print. now rewrite H. Qed.

Lemma call_run (c : http_call) (w : world) :
  call c w = (Return tt, replied [c] w).
Proof. reflexivity. Qed.

Lemma bind_Return {A B} (m : M A) (f : A -> M B) (w w' : world) (a : A) :
  m w = (Return a, w') -> bind m f w = f a w'.
Proof. intros H. unfold bind. now rewrite H. Qed.

Lemma bind_Raise {A B} (m : M A) (f : A -> M B) (w w' : world) (e : exn) :
  m w = (Raise e, w') -> bind m f w = (Raise e, w').
Proof. intros H. unfold bind. now rewrite H. Qed.

Lemma bind_congr {A B} (m : M A) (f g : A -> M B) (w : world) :
  (forall a w', f a w' = g a w') -> bind m f w = bind m g w.
Proof. intros H. unfold bind. destruct (m w) as [[a|e|] w']; [apply H|reflexivity..]. Qed.

Lemma bind_assoc {A B C} (m : M A) (g : A -> M B) (f : B -> M C) (w : world) :
  bind (bind m g) f w = bind m (fun a => bind (g a) f) w.
Proof. unfold bind. destruct (m w) as [[a|e|] w']; reflexivity. Qed.

Lemma bind_lift_Return {A B} (o : outcome A) (f : A -> M B) (w : world) (a : A) :
  o = Return a -> bind (lift o) f w = f a w.
Proof. intros ->. reflexivity. Qed.

Lemma bind_lift_Raise {A B} (o : outcome A) (f : A -> M B) (w : world) (e : exn) :
  o = Raise e -> bind (lift o) f w = (Raise e, w).
Proof. intros ->. reflexivity. Qed.

Lemma bind_print {B} (text : str) (f : unit -> M B) (w : world) :
  printable text -> bind (print text) f w = f tt (printed [text] w).
Proof. intros H. apply bind_Return. now apply print_run. Qed.

Lemma bind_print_fails {B} (text : str) (e : exn) (f : unit -> M B) (w : world) :
  utf8_encode_error text = Some e -> bind (print text) f w = (Raise e, w).
Proof. intros H. apply bind_Raise. now apply print_fails. Qed.

Lemma try_except_Return {A} (body : M A) c (handler : exn -> M A) (w w' : world) (a : A) :
  body w = (Return a, w') -> try_except body c handler w = (Return a, w').
Proof. intros H. unfold try_except. now rewrite H. Qed.

Lemma try_except_caught {A} (body : M A) c (handler : exn -> M A) (w w' : world) (e : exn) :
  body w = (Raise e, w') -> c (exn_cls e) = true ->
  try_except body c handler w = handler e w'.
Proof. intros H Hc. unfold try_except. now rewrite H, Hc. Qed.

Lemma acknowledge_run (w : world) :
  acknowledge w = (Return tt, replied acknowledgment w).
Proof.
  unfold acknowledge, send_response, send_header, end_headers, wfile_write,
    WebhookHandler.log_message, bind, ret.
  rewrite !call_run, !replied_app. reflexivity.
Qed.

Lemma acknowledgment_response :
  exists r, response_of acknowledgment = Some r /\ is_acknowledgment r.
Proof.
  eexists. split; [reflexivity|]. repeat split.
Qed.

(** ** Printing lines in turn *)

Lemma print_then_run {A} (lines : list str) (k : M A) (w : world) :
  Forall printable lines -> print_then lines k w = k (printed lines w).
Proof.
  intros H. revert w. induction H as [|line rest Hl _ IH]; intros w; cbn [print_then].
  - now rewrite printed_nil.
  - rewrite (bind_print _ _ _ Hl), IH, printed_app. reflexivity.
Qed.

Lemma print_then_stops {A} (before : list str) (line : str) (after : list str) (e : exn)
    (k : M A) (w : world) :
  Forall printable before -> utf8_encode_error line = Some e ->
  print_then (before ++ line :: after) k w = (Raise e, printed before w).
Proof.
  intros H He. revert w. induction H as [|l rest Hl _ IH]; intros w; cbn [print_then app].
  - now rewrite (bind_print_fails _ _ _ _ He), printed_nil.
  - rewrite (bind_print _ _ _ Hl), IH, printed_app. reflexivity.
Qed.

Lemma print_then_app {A} (l1 l2 : list str) (k : M A) (w : world) :
  print_then (l1 ++ l2) k w = print_then l1 (print_then l2 k) w.
Proof.
  revert w. induction l1 as [|l l1 IH]; intros w; cbn [print_then app]; [reflexivity|].
  unfold bind. destruct (print l w) as [[[]|e|] w']; [apply IH|reflexivity|reflexivity].
Qed.

Lemma print_then_bind {A B} (lines : list str) (k : M A) (f : A -> M B) (w : world) :
  bind (print_then lines k) f w = print_then lines (bind k f) w.
Proof.
  revert w. induction lines as [|l rest IH]; intros w; cbn [print_then]; [reflexivity|].
  rewrite bind_assoc. apply bind_congr. intros _ w'. apply IH.
Qed.

(** Either the console takes every line, or there is a first one it
    refuses. *)
Lemma printable_split (lines : list str) :
  Forall printable lines \/
  exists before line after e,
    lines = (before ++ line :: after)%list /\ Forall printable before /\
    utf8_encode_error line = Some e.
Proof.
  induction lines as [|l rest IH].
  - left. constructor.
  - destruct (utf8_encode_error l) as [e|] eqn:E.
    + right. exists [], l, rest, e. split; [reflexivity|]. split; [constructor|exact E].
    + destruct IH as [IH | (before & line & after & e & -> & Hb & He)].
      * left. now constructor.
      * right. exists (l :: before), line, after, e.
        split; [reflexivity|]. split; [now constructor|exact He].
Qed.

(** [for] over the items of a mapping prints one line for each, in order. *)
Lemma for_each_print {A} (l : list A) (line : A -> str) (w : world) :
  for_each l (fun x => print (line x)) w = print_then (map line l) (ret tt) w.
Proof.
  revert w. induction l as [|x l IH]; intros w; cbn [for_each map print_then]; [reflexivity|].
  unfold bind. destruct (print (line x) w) as [[[]|e|] w']; [apply IH|reflexivity|reflexivity].
Qed.

(** ** The texts of the program are printable *)

Lemma printable_opening : Forall printable opening.
Proof. repeat constructor. Qed.

Lemma printable_closing : printable closing.
Proof. reflexivity. Qed.

Lemma printable_metadata_heading : printable metadata_heading.
Proof. reflexivity. Qed.

Lemma printable_farewell : printable farewell.
Proof. reflexivity. Qed.

Lemma printable_error_line (e : exn) :
  plain (exn_str e) -> printable ("解析错误: " ++ exn_str e).
Proof.
  intros H. apply printable_app; [intros s; reflexivity | reflexivity |].
  now apply plain_printable.
Qed.

Lemma printable_raw_line (text : str) :
  printable text -> printable ("原始数据: " ++ text).
Proof. intros H. apply printable_app; [intros s; reflexivity | reflexivity | exact H]. Qed.

Lemma printable_banner (port : Z) : Forall printable (banner port).
Proof.
  unfold banner. repeat constructor.
  - apply printable_app; [intros s; reflexivity | reflexivity |].
    apply plain_printable, plain_str_of_Z.
  - apply printable_app; [intros s; reflexivity | reflexivity |].
    apply plain_printable. apply plain_app; [apply plain_str_of_Z|].
    apply plain_check. reflexivity.
Qed.

(** ** What the runtime raises is reportable *)

Lemma attribute_error_reportable (v : pyvalue) (attr : str) :
  plain attr -> reportable (attribute_error v attr).
Proof.
  intros H. split; [reflexivity|]. unfold attribute_error. cbn [exn_str].
  destruct v; cbn [type_name]; now plain_text.
Qed.

Lemma py_int_ends (T : Tables) (x : option str) : py_int T x <> Forever.
Proof.
  destruct x as [s|]; cbn; [|discriminate].
  unfold int_of_str. destruct (int_of_ascii _ _); discriminate.
Qed.

Lemma int_of_str_class (T : Tables) (s : str) (e : exn) :
  int_of_str T s = Raise e -> exn_cls e = ValueError.
Proof.
  unfold int_of_str. destruct (int_of_ascii _ _); [discriminate| |]; now intros [= <-].
Qed.

Lemma py_int_Exception (T : Tables) (x : option str) (e : exn) :
  py_int T x = Raise e -> is_Exception (exn_cls e) = true.
Proof.
  destruct x as [s|]; cbn.
  - intros H. now rewrite (int_of_str_class _ _ _ H).
  - now intros [= <-].
Qed.

(** ** The body-read step *)

Lemma read_error_none (T : Tables) (n : Z) :
  read_error T n = None <-> (-1 <= n <= read_max T)%Z.
Proof.
  unfold read_error, read_max, maxsize.
  destruct (_ || _) eqn:E1.
  { split; [discriminate|]. apply orb_true_iff in E1.
    destruct E1 as [E|E]; apply Z.ltb_lt in E; lia. }
  apply orb_false_iff in E1. destruct E1 as [E1 E1']. apply Z.ltb_ge in E1, E1'.
  destruct (n <? -1)%Z eqn:E2; [split; [discriminate|apply Z.ltb_lt in E2; lia]|].
  apply Z.ltb_ge in E2.
  destruct (n =? -1)%Z eqn:E3; [apply Z.eqb_eq in E3; split; [lia|reflexivity]|].
  apply Z.eqb_neq in E3.
  destruct (_ <? n)%Z eqn:E4; [split; [discriminate|apply Z.ltb_lt in E4; lia]|].
  apply Z.ltb_ge in E4.
  destruct (Z.of_N (memory T) <? n)%Z eqn:E5; [split; [discriminate|apply Z.ltb_lt in E5; lia]|].
  apply Z.ltb_ge in E5. split; [lia|reflexivity].
Qed.

Lemma read_error_class (T : Tables) (n : Z) (e : exn) :
  read_error T n = Some e ->
  (exn_cls e = OverflowError \/ exn_cls e = ValueError \/ exn_cls e = MemoryError) /\
  is_Exception (exn_cls e) = true.
Proof.
  unfold read_error.
  repeat match goal with
         | |- context [if ?c then _ else _] => destruct c
         end; intros [= <-]; cbn; auto.
Qed.

Lemma rfile_read_run (T : Tables) (n : Z) (w : world) :
  (-1 <= n <= read_max T)%Z ->
  rfile_read T n w = (Return (read_data n (rfile w)), after_read n w).
Proof.
  intros Hn. apply read_error_none in Hn.
  unfold rfile_read, read_data, after_read, read_rest. rewrite Hn.
  now destruct (n =? -1)%Z.
Qed.

Lemma rfile_read_fails (T : Tables) (n : Z) (e : exn) (w : world) :
  read_error T n = Some e -> rfile_read T n w = (Raise e, w).
Proof. intros H. unfold rfile_read. now rewrite H. Qed.

Lemma read_data_rest (n : Z) (s : bytes) : (read_data n s ++ read_rest n s)%list = s.
Proof.
  unfold read_data, read_rest. destruct (n =? -1)%Z.
  - apply app_nil_r.
  - apply firstn_skipn.
Qed.

Lemma read_data_length (n : Z) (s : bytes) :
  (0 <= n)%Z -> List.length (read_data n s) = Nat.min (Z.to_nat n) (List.length s).
Proof.
  intros Hn. unfold read_data.
  destruct (n =? -1)%Z eqn:E; [apply Z.eqb_eq in E; lia|]. apply length_firstn.
Qed.

(** ** The branches of [do_POST] *)

Section Branches.

Variable T : Tables.

Lemma dict_get_present (d : pydict) (k : str) (v default : pyvalue) :
  dict_lookup d k = Some v -> dict_get d k default = v.
Proof. unfold dict_get. now intros ->. Qed.


Lemma do_POST_after_read (hdrs : headers) (w w1 : world) (n : Z) (post_data : bytes) :
  py_int T (headers_getitem hdrs "Content-Length") = Return n ->
  rfile_read T n w = (Return post_data, w1) ->
  WebhookHandler.do_POST T hdrs w =
  (try_except (display T post_data) is_Exception (report post_data) ;; acknowledge)
    (printed opening w1).
Proof.
  intros Hlen Hread. rewrite do_POST_pieces.
  rewrite (bind_lift_Return _ _ _ _ Hlen), (bind_Return _ _ _ _ _ Hread).
  rewrite !bind_print by reflexivity. rewrite !printed_app. reflexivity.
Qed.

Lemma report_run (post_data : bytes) (e : exn) (text : str) (w : world) :
  decode_utf8 post_data = Return text -> plain (exn_str e) ->
  report post_data e w = (Return tt, printed (error_lines e text) w).
Proof.
  intros Hdec He. unfold report.
  rewrite (bind_print _ _ _ (printable_error_line _ He)), (bind_lift_Return _ _ _ _ Hdec).
  rewrite (print_run _ _ (printable_raw_line _ (decoded_printable _ _ Hdec))), printed_app.
  reflexivity.
Qed.

Lemma report_raises (post_data : bytes) (e e' : exn) (w : world) :
  decode_utf8 post_data = Raise e' -> plain (exn_str e) ->
  report post_data e w = (Raise e', printed ["解析错误: " ++ exn_str e] w).
Proof.
  intros Hdec He. unfold report.
  now rewrite (bind_print _ _ _ (printable_error_line _ He)), (bind_lift_Raise _ _ _ _ Hdec).
Qed.

Lemma display_undecodable (post_data : bytes) (e : exn) (w : world) :
  decode_utf8 post_data = Raise e -> display T post_data w = (Raise e, w).
Proof. intros Hdec. unfold display. now rewrite (bind_lift_Raise _ _ _ _ Hdec). Qed.

Lemma display_unparsable (post_data : bytes) (text : str) (e : exn) (w : world) :
  decode_utf8 post_data = Return text -> json_loads T text = Raise e ->
  display T post_data w = (Raise e, w).
Proof.
  intros Hdec Hjson. unfold display.
  now rewrite (bind_lift_Return _ _ _ _ Hdec), (bind_lift_Raise _ _ _ _ Hjson).
Qed.

Lemma display_not_object (post_data : bytes) (text : str) (v : pyvalue) (w : world) :
  decode_utf8 post_data = Return text -> json_loads T text = Return v ->
  (forall d, v <> PDict d) ->
  display T post_data w = (Raise (attribute_error v "get"), w).
Proof.
  intros Hdec Hjson Hv. unfold display.
  rewrite (bind_lift_Return _ _ _ _ Hdec), (bind_lift_Return _ _ _ _ Hjson).
  apply bind_lift_Raise. destruct v; try reflexivity. now elim (Hv d).
Qed.

(** The metadata section prints its lines in turn, then ends as
    [metadata_end] tells. *)
Lemma show_metadata_run (d : pydict) (w : world) :
  show_metadata T d w = print_then (metadata_lines T d) (lift (metadata_end T d)) w.
Proof.
  unfold show_metadata, metadata_lines, metadata_end. cbv zeta.
  destruct (truthy T (dict_get d "metadata" PNone)) eqn:Ht; [|reflexivity].
  assert (Hg : py_getitem T (PDict d) "metadata" = Return (dict_get d "metadata" PNone)).
  { unfold py_getitem, dict_getitem, dict_get in *.
    destruct (dict_lookup d "metadata"); [reflexivity|discriminate]. }
  cbn [print_then]. apply bind_congr. clear w. intros [] w.
  rewrite (bind_lift_Return _ _ _ _ Hg).
  destruct (dict_get d "metadata" PNone) as [| b | z | lit | s | l | m]; cbn [attr_items];
    try (now rewrite (bind_lift_Raise _ _ _ _ eq_refl)).
  rewrite (bind_lift_Return _ _ _ _ eq_refl).
  rewrite for_each_print. reflexivity.
Qed.

(** On an object the [try] body prints the eight lines and the lines of the
    metadata section in turn, then raises what the metadata section ends
    with or prints the closing line. *)
Lemma display_object (post_data : bytes) (text : str) (d : pydict) (w : world) :
  decode_utf8 post_data = Return text -> json_loads T text = Return (PDict d) ->
  display T post_data w =
  print_then (field_lines T d ++ metadata_lines T d)
    (lift (metadata_end T d) ;; print closing) w.
Proof.
  intros Hdec Hjson. unfold display.
  rewrite (bind_lift_Return _ _ _ _ Hdec), (bind_lift_Return _ _ _ _ Hjson).
  rewrite print_then_app. cbn [py_get attr_get].
  change (print_then (field_lines T d)
            (print_then (metadata_lines T d) (lift (metadata_end T d) ;; print closing)) w)
    with ((print (nl ++ "告警ID: " ++ py_str T (dict_get d "alert_id" PNone)) ;;
           print ("标题: " ++ py_str T (dict_get d "title" PNone)) ;;
           print ("消息: " ++ py_str T (dict_get d "message" PNone)) ;;
           print ("严重程度: " ++ py_str T (dict_get d "severity" PNone)) ;;
           print ("告警类型: " ++ py_str T (dict_get d "alert_type" PNone)) ;;
           print ("设备ID: " ++ py_str T (dict_get d "device_id" (PStr "N/A"))) ;;
           print ("创建时间: " ++ py_str T (dict_get d "created_at" PNone)) ;;
           print ("时间戳: " ++ py_str T (dict_get d "timestamp" PNone)) ;;
           print_then (metadata_lines T d) (lift (metadata_end T d) ;; print closing)) w).
  do 8 (rewrite (bind_lift_Return _ _ _ _ eq_refl); apply bind_congr; clear w; intros [] w).
  rewrite (bind_lift_Return _ _ _ _ eq_refl).
  change ((show_metadata T d ;; print closing) w =
          print_then (metadata_lines T d) (lift (metadata_end T d) ;; print closing) w).
  rewrite <- print_then_bind. unfold bind at 1 2. now rewrite show_metadata_run.
Qed.

End Branches.

(** ** How the [try] statement ends *)

Section Outcomes.

Variable T : Tables.

Lemma metadata_end_ends (d : pydict) : metadata_end T d <> Forever.
Proof.
  unfold metadata_end. cbv zeta.
  destruct (truthy T _); [|discriminate].
  destruct (dict_get d "metadata" PNone); discriminate.
Qed.

Lemma metadata_end_raises (d : pydict) (e : exn) :
  metadata_end T d = Raise e ->
  exists v, dict_lookup d "metadata" = Some v /\ truthy T v = true /\
            (forall m, v <> PDict m) /\ e = attribute_error v "items".
Proof.
  unfold metadata_end, dict_get. cbv zeta.
  destruct (dict_lookup d "metadata") as [v|]; [|cbn; discriminate].
  destruct (truthy T v) eqn:Ht; [|discriminate].
  destruct v; try discriminate; intros [= <-]; eexists; repeat split; try exact Ht;
    discriminate.
Qed.

Lemma metadata_end_reportable (d : pydict) (e : exn) :
  metadata_end T d = Raise e -> reportable e.
Proof.
  intros H. destruct (metadata_end_raises _ _ H) as (v & _ & _ & _ & ->).
  apply attribute_error_reportable. apply plain_check. reflexivity.
Qed.

(** The three ways the [try] body ends on an object. *)
Lemma display_object_closes (post_data : bytes) (text : str) (d : pydict) (w : world) :
  decode_utf8 post_data = Return text -> json_loads T text = Return (PDict d) ->
  Forall printable (field_lines T d ++ metadata_lines T d) ->
  metadata_end T d = Return tt ->
  display T post_data w =
  (Return tt, printed (field_lines T d ++ metadata_lines T d ++ [closing]) w).
Proof.
  intros Hdec Hjson Hp Hend.
  rewrite (display_object T _ _ _ _ Hdec Hjson), (print_then_run _ _ _ Hp), Hend.
  rewrite (bind_lift_Return _ _ _ _ eq_refl), (print_run _ _ printable_closing).
  now rewrite printed_app, <- app_assoc.
Qed.

Lemma display_object_no_items (post_data : bytes) (text : str) (d : pydict) (e : exn)
    (w : world) :
  decode_utf8 post_data = Return text -> json_loads T text = Return (PDict d) ->
  Forall printable (field_lines T d ++ metadata_lines T d) ->
  metadata_end T d = Raise e ->
  display T post_data w = (Raise e, printed (field_lines T d ++ metadata_lines T d) w).
Proof.
  intros Hdec Hjson Hp Hend.
  rewrite (display_object T _ _ _ _ Hdec Hjson), (print_then_run _ _ _ Hp), Hend.
  now rewrite (bind_lift_Raise _ _ _ _ eq_refl).
Qed.

Lemma display_object_stops (post_data : bytes) (text : str) (d : pydict)
    (before : list str) (line : str) (after : list str) (e : exn) (w : world) :
  decode_utf8 post_data = Return text -> json_loads T text = Return (PDict d) ->
  (field_lines T d ++ metadata_lines T d)%list = (before ++ line :: after)%list ->
  Forall printable before -> utf8_encode_error line = Some e ->
  display T post_data w = (Raise e, printed before w).
Proof.
  intros Hdec Hjson Hl Hp He.
  rewrite (display_object T _ _ _ _ Hdec Hjson), Hl.
  now apply print_then_stops.
Qed.

(** The [try] body on a body that is well-formed UTF-8: it returns, on an
    object all of whose lines the console takes, with the closing line
    printed last; or it raises a reportable exception, after a part of the
    lines of an object at most. *)
Lemma display_shape (post_data : bytes) (text : str) (w : world) :
  decode_utf8 post_data = Return text ->
  exists shown,
    (display T post_data w = (Return tt, printed (shown ++ [closing]) w) /\
     exists d, json_loads T text = Return (PDict d) /\
               shown = (field_lines T d ++ metadata_lines T d)%list) \/
    (exists e, display T post_data w = (Raise e, printed shown w) /\ reportable e).
Proof.
  intros Hdec.
  destruct (json_loads_total T text) as [(v & Hjson) | (e & Hjson & He & _)].
  - destruct v as [| b | z | lit | s | l | d];
      try (exists []; right; eexists; rewrite printed_nil; split;
           [ apply (display_not_object T _ _ _ _ Hdec Hjson); discriminate
           | apply attribute_error_reportable; apply plain_check; reflexivity ]).
    destruct (printable_split (field_lines T d ++ metadata_lines T d))
      as [Hp | (before & line & after & e & Hl & Hp & He)].
    + exists (field_lines T d ++ metadata_lines T d)%list.
      destruct (metadata_end T d) as [[]|e|] eqn:Hend.
      * left. split; [|now exists d].
        rewrite <- app_assoc. now apply (display_object_closes _ text).
      * right. exists e. split; [now apply (display_object_no_items _ text)|].
        now apply (metadata_end_reportable d).
      * now elim (metadata_end_ends d).
    + exists before. right. exists e. split.
      * now apply (display_object_stops _ text d before line after).
      * now apply (utf8_encode_error_reportable line).
  - exists []. right. exists e. rewrite printed_nil. split; [|exact He].
    apply (display_unparsable T _ _ _ _ Hdec Hjson).
Qed.

(** The [try] body ends by returning or by raising a reportable exception,
    and only prints. *)
Lemma display_ends (post_data : bytes) (text : str) (w : world) :
  decode_utf8 post_data = Return text ->
  exists o lines,
    display T post_data w = (o, printed lines w) /\
    (o = Return tt \/ exists e, o = Raise e /\ reportable e).
Proof.
  intros Hdec.
  destruct (display_shape post_data text w Hdec) as (shown & [(H & _) | (e & H & He)]).
  - exists (Return tt), (shown ++ [closing])%list. split; [exact H|now left].
  - exists (Raise e), shown. split; [exact H|]. right. now exists e.
Qed.

(** What the handler does when the [try] body raises [e] after printing
    [lines], the body being well-formed UTF-8. *)
Lemma do_POST_reports (hdrs : headers) (w w1 : world) (n : Z)
    (post_data : bytes) (text : str) (e : exn) (lines : list str) :
  py_int T (headers_getitem hdrs "Content-Length") = Return n ->
  rfile_read T n w = (Return post_data, w1) ->
  decode_utf8 post_data = Return text ->
  display T post_data (printed opening w1) = (Raise e, printed lines (printed opening w1)) ->
  reportable e ->
  WebhookHandler.do_POST T hdrs w =
  (Return tt, replied acknowledgment (printed (opening ++ lines ++ error_lines e text) w1)).
Proof.
  intros Hlen Hread Hdec Hd [He Hplain]. rewrite (do_POST_after_read T _ _ _ _ _ Hlen Hread).
  assert (Hc : try_except (display T post_data) is_Exception (report post_data)
                 (printed opening w1)
               = (Return tt, printed (opening ++ lines ++ error_lines e text) w1)).
  { rewrite (try_except_caught _ _ _ _ _ _ Hd He), (report_run _ _ _ _ Hdec Hplain).
    now rewrite !printed_app, app_assoc. }
  rewrite (bind_Return _ _ _ _ tt Hc). now rewrite acknowledge_run.
Qed.

(** What the handler does when the [try] body returns after printing
    [lines]. *)
Lemma do_POST_displays (hdrs : headers) (w w1 : world) (n : Z)
    (post_data : bytes) (lines : list str) :
  py_int T (headers_getitem hdrs "Content-Length") = Return n ->
  rfile_read T n w = (Return post_data, w1) ->
  display T post_data (printed opening w1) = (Return tt, printed lines (printed opening w1)) ->
  WebhookHandler.do_POST T hdrs w =
  (Return tt, replied acknowledgment (printed (opening ++ lines) w1)).
Proof.
  intros Hlen Hread Hd. rewrite (do_POST_after_read T _ _ _ _ _ Hlen Hread).
  rewrite (bind_Return _ _ _ _ tt (try_except_Return _ _ _ _ _ _ Hd)).
  now rewrite acknowledge_run, printed_app.
Qed.

(** Once the body is read and is well-formed UTF-8, the handler returns and
    the acknowledgment is what it sends. *)
Lemma do_POST_acknowledges (hdrs : headers) (w w1 : world) (n : Z)
    (post_data : bytes) (text : str) :
  py_int T (headers_getitem hdrs "Content-Length") = Return n ->
  rfile_read T n w = (Return post_data, w1) ->
  decode_utf8 post_data = Return text ->
  exists lines,
    WebhookHandler.do_POST T hdrs w =
    (Return tt, replied acknowledgment (printed (opening ++ lines) w1)).
Proof.
  intros Hlen Hread Hdec.
  destruct (display_ends post_data text (printed opening w1) Hdec)
    as (o & lines & Hd & [-> | (e & -> & He)]).
  - exists lines. now apply (do_POST_displays _ _ _ n post_data).
  - exists (lines ++ error_lines e text)%list.
    now apply (do_POST_reports _ _ _ n post_data).
Qed.

(** What the handler does on a body that is read and is not well-formed
    UTF-8. *)
Lemma do_POST_undecodable (hdrs : headers) (w w1 : world) (n : Z)
    (post_data : bytes) (e : exn) :
  py_int T (headers_getitem hdrs "Content-Length") = Return n ->
  rfile_read T n w = (Return post_data, w1) ->
  decode_utf8 post_data = Raise e ->
  WebhookHandler.do_POST T hdrs w =
  (Raise e, printed (opening ++ ["解析错误: " ++ exn_str e]) w1).
Proof.
  intros Hlen Hread Hdec.
  rewrite (do_POST_after_read T _ _ _ _ _ Hlen Hread).
  apply bind_Raise.
  rewrite (try_except_caught _ _ _ _ _ _ (display_undecodable T _ _ _ Hdec)
             (decode_utf8_Exception _ _ Hdec)).
  rewrite (report_raises _ _ _ _ Hdec) by apply (decode_utf8_reportable _ _ Hdec).
  now rewrite printed_app.
Qed.

(** Where the first line the console refuses stands, when the lines before
    it are known to be printable. *)
Lemma first_refused_after (pre rest before : list str) (line : str) (after : list str)
    (e : exn) :
  Forall printable pre ->
  (pre ++ rest)%list = (before ++ line :: after)%list ->
  Forall printable before -> utf8_encode_error line = Some e ->
  exists more, before = (pre ++ more)%list.
Proof.
  intros Hpre. revert before. induction Hpre as [|l pre Hl _ IH]; intros before Heq Hb He.
  - now exists before.
  - destruct before as [|b before]; cbn [app] in Heq.
    + injection Heq as -> _. unfold printable in Hl. congruence.
    + injection Heq as -> Heq. inversion Hb; subst.
      destruct (IH before Heq) as (more & ->); [assumption|assumption|].
      now exists more.
Qed.

(** On a body that parses as an object the handler returns and
    acknowledges. After the opening lines it has printed the lines of the
    object up to the first one the console refuses, and then the closing
    line (when no line was refused and the metadata have their items) or the
    two lines of the [except] branch. *)
Lemma do_POST_object_lines (hdrs : headers) (w : world) (n : Z) (text : str) (d : pydict) :
  py_int T (headers_getitem hdrs "Content-Length") = Return n ->
  (-1 <= n <= read_max T)%Z ->
  decode_utf8 (read_data n (rfile w)) = Return text ->
  json_loads T text = Return (PDict d) ->
  exists shown rest tail,
    WebhookHandler.do_POST T hdrs w =
    (Return tt, replied acknowledgment (printed (opening ++ shown ++ tail) (after_read n w))) /\
    (field_lines T d ++ metadata_lines T d)%list = (shown ++ rest)%list /\
    (tail = [closing] \/ exists e, tail = error_lines e text) /\
    (forall pre rest', (field_lines T d ++ metadata_lines T d)%list = (pre ++ rest')%list ->
       Forall printable pre -> exists more, shown = (pre ++ more)%list).
Proof.
  intros Hlen Hn Hdec Hjson.
  pose proof (rfile_read_run T n w Hn) as Hread.
  destruct (printable_split (field_lines T d ++ metadata_lines T d))
    as [Hp | (before & line & after & e & Hb & Hp & He)].
  - assert (Hpre : forall pre rest',
               (field_lines T d ++ metadata_lines T d)%list = (pre ++ rest')%list ->
               Forall printable pre ->
               exists more, (field_lines T d ++ metadata_lines T d)%list = (pre ++ more)%list)
      by (intros pre rest' H _; now exists rest').
    destruct (metadata_end T d) as [[]|e|] eqn:Hend.
    + exists (field_lines T d ++ metadata_lines T d)%list, [], [closing].
      split; [|split; [now rewrite app_nil_r|split; [now left|exact Hpre]]].
      rewrite <- app_assoc.
      apply (do_POST_displays _ _ _ _ _ _ Hlen Hread).
      now apply (display_object_closes _ text).
    + exists (field_lines T d ++ metadata_lines T d)%list, [], (error_lines e text).
      split; [|split; [now rewrite app_nil_r|split; [right; now exists e|exact Hpre]]].
      apply (do_POST_reports _ _ _ _ _ text e _ Hlen Hread Hdec).
      * now apply (display_object_no_items _ text).
      * now apply (metadata_end_reportable d).
    + now elim (metadata_end_ends d).
  - exists before, (line :: after), (error_lines e text).
    split; [|split; [exact Hb|split; [right; now exists e|]]].
    + apply (do_POST_reports _ _ _ _ _ text e _ Hlen Hread Hdec).
      * now apply (display_object_stops _ text d _ line after).
      * now apply (utf8_encode_error_reportable line).
    + intros pre rest' Hl Hpre. rewrite Hl in Hb.
      apply (first_refused_after _ _ _ _ _ _ Hpre Hb Hp He).
Qed.


End Outcomes.

(** ** What the handler does with a body *)

Lemma replied_acknowledged (lines : list str) (w : world) :
  sent w = [] -> acknowledged (replied acknowledgment (printed lines w)).
Proof.
  intros Hs. unfold acknowledged, replied, printed. cbn [sent]. rewrite Hs.
  exact acknowledgment_response.
Qed.

Section Bodies.

Variable T : Tables.

(** Whenever the body is read and is well-formed UTF-8, the handler returns
    and the response is status 200 with content type application/json and the
    fixed body, whether or not the body is valid JSON. *)
Lemma acknowledged_when_decodable (hdrs : headers) (w : world) (n : Z) (text : str) :
  py_int T (headers_getitem hdrs "Content-Length") = Return n ->
  (-1 <= n <= read_max T)%Z ->
  decode_utf8 (read_data n (rfile w)) = Return text ->
  sent w = [] ->
  exists w', WebhookHandler.do_POST T hdrs w = (Return tt, w') /\ acknowledged w'.
Proof.
  intros Hlen Hn Hdec Hs.
  destruct (do_POST_acknowledges T _ _ _ _ _ _ Hlen (rfile_read_run T n w Hn) Hdec)
    as (lines & H).
  eexists. split; [exact H|]. now apply replied_acknowledged.
Qed.

(** C2 (what the code does). For every POST body that is read and is not
    well-formed UTF-8 the handler prints the opening lines and the
    parse-error line with the description of the failure, then raises the
    same failure again while it builds the raw-data line: that line is not
    printed and nothing is sent. *)
Theorem undecodable_body_is_not_acknowledged (hdrs : headers) (w : world) (n : Z) (e : exn) :
  py_int T (headers_getitem hdrs "Content-Length") = Return n ->
  (-1 <= n <= read_max T)%Z ->
  decode_utf8 (read_data n (rfile w)) = Raise e ->
  WebhookHandler.do_POST T hdrs w =
  (Raise e, printed (opening ++ ["解析错误: " ++ exn_str e]) (after_read n w)).
Proof.
  intros Hlen Hn Hdec.
  apply (do_POST_undecodable T _ _ _ _ _ _ Hlen (rfile_read_run T n w Hn) Hdec).
Qed.

(** C3. For every POST body that is read, is well-formed UTF-8 and is not
    valid JSON, the handler prints, after the opening lines, the parse-error
    line with the description of the failure and the raw-data line with the
    body text, and the response is the fixed acknowledgment. *)
Theorem malformed_body_tolerance (hdrs : headers) (w : world) (n : Z) (text : str) (e : exn) :
  py_int T (headers_getitem hdrs "Content-Length") = Return n ->
  (-1 <= n <= read_max T)%Z ->
  decode_utf8 (read_data n (rfile w)) = Return text ->
  json_loads T text = Raise e ->
  sent w = [] ->
  exists w',
    WebhookHandler.do_POST T hdrs w = (Return tt, w') /\
    stdout w' = stdout (printed (opening ++ error_lines e text) w) /\
    acknowledged w'.
Proof.
  intros Hlen Hn Hdec Hjson Hs.
  eexists. split; [|split].
  - apply (do_POST_reports T _ _ _ _ _ _ e [] Hlen (rfile_read_run T n w Hn) Hdec).
    + rewrite (display_unparsable T _ _ _ _ Hdec Hjson). now rewrite printed_nil.
    + apply (json_loads_reportable _ _ _ Hjson).
  - reflexivity.
  - now apply replied_acknowledged.
Qed.

(** C9. For every POST body that is read, is well-formed UTF-8 and valid
    JSON but whose top-level value is not an object, the handler prints,
    instead of the block of fields, the parse-error line (the failure being
    that the value has no attribute [get]) and the raw-data line with the
    body text, and the response is the fixed acknowledgment. *)
Theorem non_object_takes_error_branch (hdrs : headers) (w : world) (n : Z)
    (text : str) (v : pyvalue) :
  py_int T (headers_getitem hdrs "Content-Length") = Return n ->
  (-1 <= n <= read_max T)%Z ->
  decode_utf8 (read_data n (rfile w)) = Return text ->
  json_loads T text = Return v ->
  (forall d, v <> PDict d) ->
  sent w = [] ->
  exists w',
    WebhookHandler.do_POST T hdrs w = (Return tt, w') /\
    stdout w' = stdout (printed (opening ++ error_lines (attribute_error v "get") text) w) /\
    acknowledged w'.
Proof.
  intros Hlen Hn Hdec Hjson Hv Hs.
  eexists. split; [|split].
  - apply (do_POST_reports T _ _ _ _ _ _ (attribute_error v "get") []
             Hlen (rfile_read_run T n w Hn) Hdec).
    + rewrite (display_not_object T _ _ _ _ Hdec Hjson Hv). now rewrite printed_nil.
    + apply attribute_error_reportable. apply plain_check. reflexivity.
  - reflexivity.
  - now apply replied_acknowledged.
Qed.

End Bodies.

Section Blocks.

Variable T : Tables.

Lemma read_error_refuses (n : Z) :
  (n < -1 \/ read_max T < n)%Z ->
  exists e,
    read_error T n = Some e /\
    ((- maxsize - 1 <= n < -1)%Z -> exn_cls e = ValueError) /\
    ((n < - maxsize - 1 \/ maxsize - 33 < n)%Z -> exn_cls e = OverflowError) /\
    ((Z.of_N (memory T) < n <= maxsize - 33)%Z -> exn_cls e = MemoryError).
Proof.
  intros Hn. unfold read_error, read_max, maxsize in *.
  destruct (_ || _) eqn:E1.
  { eexists. split; [reflexivity|]. apply orb_true_iff in E1.
    repeat split; intros; cbn; try reflexivity;
      destruct E1 as [E|E]; apply Z.ltb_lt in E; lia. }
  apply orb_false_iff in E1. destruct E1 as [E1 E1']. apply Z.ltb_ge in E1, E1'.
  destruct (n <? -1)%Z eqn:E2.
  { apply Z.ltb_lt in E2. eexists. split; [reflexivity|].
    repeat split; intros; cbn; try reflexivity; lia. }
  apply Z.ltb_ge in E2.
  destruct (n =? -1)%Z eqn:E3; [apply Z.eqb_eq in E3; lia|].
  destruct (_ <? n)%Z eqn:E4.
  { apply Z.ltb_lt in E4. eexists. split; [reflexivity|].
    repeat split; intros; cbn; try reflexivity; lia. }
  apply Z.ltb_ge in E4.
  destruct (Z.of_N (memory T) <? n)%Z eqn:E5.
  { apply Z.ltb_lt in E5. eexists. split; [reflexivity|].
    repeat split; intros; cbn; try reflexivity; lia. }
  apply Z.ltb_ge in E5. lia.
Qed.

(** C4 (as amended). When the Content-Length header is missing, or is a text
    [int] rejects, or is an integer that [rfile.read] refuses (below -1, or
    more than a [bytes] object can hold or the allocator grants), the handler
    raises before anything is printed or sent and the world is left as it
    was. When it is an integer [n >= 0] that [rfile.read] accepts the rest of
    the handler works on the first [n] bytes of the stream, all of it when
    the stream ends earlier, and leaves the bytes after them unread; when it
    is -1 the whole stream is read. *)
Theorem body_read_step (hdrs : headers) (w : world) :
  (headers_getitem hdrs "Content-Length" = None ->
   exists e, WebhookHandler.do_POST T hdrs w = (Raise e, w) /\ exn_cls e = TypeError) /\
  (forall v e, headers_getitem hdrs "Content-Length" = Some v ->
     int_of_str T v = Raise e ->
     WebhookHandler.do_POST T hdrs w = (Raise e, w) /\ exn_cls e = ValueError) /\
  (forall n, py_int T (headers_getitem hdrs "Content-Length") = Return n ->
     (n < -1 \/ read_max T < n)%Z ->
     exists e, WebhookHandler.do_POST T hdrs w = (Raise e, w) /\
       ((- maxsize - 1 <= n < -1)%Z -> exn_cls e = ValueError) /\
       ((n < - maxsize - 1 \/ maxsize - 33 < n)%Z -> exn_cls e = OverflowError) /\
       ((Z.of_N (memory T) < n <= maxsize - 33)%Z -> exn_cls e = MemoryError)) /\
  (forall n, py_int T (headers_getitem hdrs "Content-Length") = Return n ->
     (-1 <= n <= read_max T)%Z ->
     WebhookHandler.do_POST T hdrs w =
       (try_except (display T (read_data n (rfile w))) is_Exception
          (report (read_data n (rfile w))) ;; acknowledge)
         (printed opening (after_read n w)) /\
     (read_data n (rfile w) ++ rfile (after_read n w))%list = rfile w /\
     (0 <= n -> List.length (read_data n (rfile w))
                = Nat.min (Z.to_nat n) (List.length (rfile w)))%Z /\
     (n = -1 -> read_data n (rfile w) = rfile w)%Z).
Proof.
  split; [|split; [|split]].
  - intros H. eexists. split.
    + rewrite do_POST_pieces, H. reflexivity.
    + reflexivity.
  - intros v e H He. split.
    + rewrite do_POST_pieces, H. cbn [py_int]. now apply bind_lift_Raise.
    + apply (int_of_str_class _ _ _ He).
  - intros n Hlen Hn.
    destruct (read_error_refuses n Hn) as (e & He & Hcls).
    exists e. split; [|exact Hcls].
    rewrite do_POST_pieces, (bind_lift_Return _ _ _ _ Hlen).
    apply bind_Raise. now apply rfile_read_fails.
  - intros n Hlen Hn. split; [|split; [|split]].
    + apply (do_POST_after_read T _ _ _ _ _ Hlen (rfile_read_run T n w Hn)).
    + apply read_data_rest.
    + now apply read_data_length.
    + intros ->. reflexivity.
Qed.


(** When [device_id] is null, no line of the block is the device id line
    with the placeholder. *)
Lemma placeholder_not_printed (d : pydict) (text : str) (tail : list str) :
  dict_lookup d "device_id" = Some PNone ->
  tail = [closing] \/ (exists e, tail = error_lines e text) ->
  ~ In "设备ID: N/A" (field_lines T d ++ metadata_lines T d ++ tail).
Proof.
  intros Hk Htail Hin.
  apply in_app_or in Hin. destruct Hin as [Hin|Hin].
  - unfold field_lines in Hin. rewrite (dict_get_present _ _ _ _ Hk) in Hin.
    cbn [In] in Hin.
    repeat (destruct Hin as [Hin|Hin]; [cbn in Hin; discriminate Hin|]).
    exact Hin.
  - apply in_app_or in Hin. destruct Hin as [Hin|Hin].
    + unfold metadata_lines in Hin. destruct (truthy T _); [|exact Hin].
      destruct Hin as [Hin|Hin]; [cbn in Hin; discriminate Hin|].
      destruct (dict_get d "metadata" PNone); try exact Hin.
      apply in_map_iff in Hin. destruct Hin as (kv & Hin & _).
      cbn in Hin. discriminate Hin.
    + destruct Htail as [-> | (e & ->)]; cbn [In error_lines] in Hin.
      * destruct Hin as [Hin|Hin]; [cbn in Hin; discriminate Hin|exact Hin].
      * repeat (destruct Hin as [Hin|Hin]; [cbn in Hin; discriminate Hin|]).
        exact Hin.
Qed.

(** C10. When the body is read and parses as a JSON object whose
    [device_id] is JSON null, no line the handler prints is the device id
    line with the placeholder; and whenever the console can encode the five
    lines that come before it, the device id line is printed, as the sixth
    of the block, and renders [None]. *)
Theorem null_device_id_renders_None (hdrs : headers) (w : world) (n : Z)
    (text : str) (d : pydict) :
  py_int T (headers_getitem hdrs "Content-Length") = Return n ->
  (-1 <= n <= read_max T)%Z ->
  decode_utf8 (read_data n (rfile w)) = Return text ->
  json_loads T text = Return (PDict d) ->
  dict_lookup d "device_id" = Some PNone ->
  exists w' lines,
    WebhookHandler.do_POST T hdrs w = (Return tt, w') /\
    stdout w' = stdout (printed (opening ++ lines) w) /\
    ~ In "设备ID: N/A" lines /\
    (Forall printable (firstn 5 (field_lines T d)) ->
     exists before after,
       lines = (before ++ ["设备ID: None"] ++ after)%list /\ List.length before = 5%nat).
Proof.
  intros Hlen Hn Hdec Hjson Hk.
  destruct (do_POST_object_lines T hdrs w n text d Hlen Hn Hdec Hjson)
    as (shown & rest & tail & Hrun & Hl & Htail & Hshown).
  exists (replied acknowledgment (printed (opening ++ shown ++ tail) (after_read n w))),
    (shown ++ tail)%list.
  split; [exact Hrun|]. split; [reflexivity|]. split.
  - intros Hin. apply (placeholder_not_printed d text tail Hk Htail).
    rewrite app_assoc, Hl. apply in_app_or in Hin.
    apply in_or_app. destruct Hin as [Hin|Hin]; [left|now right].
    apply in_or_app. now left.
  - intros Hp.
    destruct (Hshown (firstn 6 (field_lines T d))
                (skipn 6 (field_lines T d) ++ metadata_lines T d)%list)
      as (more & ->).
    + now rewrite app_assoc, firstn_skipn.
    + unfold field_lines in *. cbn [firstn] in *.
      rewrite (dict_get_present _ _ _ _ Hk).
      inversion Hp as [|? ? H1 Hp1]; subst. inversion Hp1 as [|? ? H2 Hp2]; subst.
      inversion Hp2 as [|? ? H3 Hp3]; subst. inversion Hp3 as [|? ? H4 Hp4]; subst.
      inversion Hp4 as [|? ? H5 Hp5]; subst.
      repeat (constructor; [assumption|]). constructor; [reflexivity|constructor].
    + exists (firstn 5 (field_lines T d)), (more ++ tail)%list. split; [|reflexivity].
      unfold field_lines. cbn [firstn app]. rewrite (dict_get_present _ _ _ _ Hk).
      reflexivity.
Qed.



End Blocks.

(** ** The ways [do_POST] ends *)

Section Cases.

Variable T : Tables.

(** Of the headers, the handler looks at Content-Length only. *)
Lemma do_POST_same_length_header (h1 h2 : headers) (w : world) :
  headers_getitem h1 "Content-Length" = headers_getitem h2 "Content-Length" ->
  WebhookHandler.do_POST T h1 w = WebhookHandler.do_POST T h2 w.
Proof. intros H. rewrite !do_POST_pieces, H. reflexivity. Qed.

(** The ways [do_POST] ends, with the world it leaves. *)
Lemma do_POST_cases (hdrs : headers) (w : world) :
  (exists e, WebhookHandler.do_POST T hdrs w = (Raise e, w) /\
             is_Exception (exn_cls e) = true) \/
  (exists n, py_int T (headers_getitem hdrs "Content-Length") = Return n /\
     (-1 <= n <= read_max T)%Z /\
     ((exists e, WebhookHandler.do_POST T hdrs w =
                 (Raise e, printed (opening ++ ["解析错误: " ++ exn_str e]) (after_read n w)) /\
                 decode_utf8 (read_data n (rfile w)) = Raise e) \/
      (exists lines text, WebhookHandler.do_POST T hdrs w =
                 (Return tt, replied acknowledgment
                               (printed (opening ++ lines) (after_read n w))) /\
                 decode_utf8 (read_data n (rfile w)) = Return text))).
Proof.
  destruct (py_int T (headers_getitem hdrs "Content-Length")) as [n|e|] eqn:Hlen.
  - destruct (read_error T n) as [e|] eqn:Hr.
    + left. exists e. split.
      * rewrite do_POST_pieces, (bind_lift_Return _ _ _ _ Hlen).
        apply bind_Raise. now apply rfile_read_fails.
      * apply (read_error_class _ _ _ Hr).
    + apply read_error_none in Hr.
      right. exists n. split; [reflexivity|]. split; [exact Hr|].
      destruct (decode_utf8 (read_data n (rfile w))) as [text|e|] eqn:Hdec.
      * right.
        destruct (do_POST_acknowledges T _ _ _ _ _ _ Hlen (rfile_read_run T n w Hr) Hdec)
          as (lines & H).
        now exists lines, text.
      * left. exists e. split; [|reflexivity].
        apply (do_POST_undecodable _ _ _ _ _ _ _ Hlen (rfile_read_run T n w Hr) Hdec).
      * now elim (decode_utf8_ends _ Hdec).
  - left. exists e. split.
    + rewrite do_POST_pieces. now apply bind_lift_Raise.
    + apply (py_int_Exception _ _ _ Hlen).
  - now elim (py_int_ends _ _ Hlen).
Qed.

End Cases.

(** ** Requests are handled independently *)

Lemma local_lift {A} (o : outcome A) : local (lift o).
Proof.
  intros rf. exists o, [], rf, []. intros out snt l.
  unfold lift. now rewrite !app_nil_r.
Qed.

Lemma local_ret {A} (a : A) : local (ret a).
Proof. exact (local_lift (Return a)). Qed.

Lemma local_print (text : str) : local (print text).
Proof.
  intros rf. unfold print. destruct (utf8_encode_error text) as [e|].
  - exists (Raise e), [], rf, []. intros out snt l. cbn. now rewrite !app_nil_r.
  - exists (Return tt), [text], rf, []. intros out snt l. cbn. now rewrite app_nil_r.
Qed.

Lemma local_call (c : http_call) : local (call c).
Proof.
  intros rf. exists (Return tt), [], rf, [c]. intros out snt l.
  unfold call; cbn. now rewrite app_nil_r.
Qed.

Lemma local_rfile_read (T : Tables) (n : Z) : local (rfile_read T n).
Proof.
  intros rf. unfold rfile_read.
  destruct (read_error T n); [|destruct (n =? -1)%Z]; eexists _, [], _, [];
    intros out snt l; cbn; now rewrite !app_nil_r.
Qed.

Lemma local_bind {A B} (m : M A) (f : A -> M B) :
  local m -> (forall a, local (f a)) -> local (bind m f).
Proof.
  intros Hm Hf rf. destruct (Hm rf) as (o & lines & rf' & calls & H).
  destruct o as [a|e|].
  - destruct (Hf a rf') as (o2 & lines2 & rf2 & calls2 & H2).
    exists o2, (lines ++ lines2)%list, rf2, (calls ++ calls2)%list. intros out snt l.
    unfold bind. now rewrite H, H2, !app_assoc.
  - exists (Raise e), lines, rf', calls. intros out snt l. unfold bind. now rewrite H.
  - exists Forever, lines, rf', calls. intros out snt l. unfold bind. now rewrite H.
Qed.

Lemma local_try_except {A} (body : M A) c (handler : exn -> M A) :
  local body -> (forall e, local (handler e)) -> local (try_except body c handler).
Proof.
  intros Hb Hh rf. destruct (Hb rf) as (o & lines & rf' & calls & H).
  destruct o as [a|e|].
  - exists (Return a), lines, rf', calls. intros out snt l.
    unfold try_except. now rewrite H.
  - destruct (c (exn_cls e)) eqn:Hc.
    + destruct (Hh e rf') as (o2 & lines2 & rf2 & calls2 & H2).
      exists o2, (lines ++ lines2)%list, rf2, (calls ++ calls2)%list. intros out snt l.
      unfold try_except. now rewrite H, Hc, H2, !app_assoc.
    + exists (Raise e), lines, rf', calls. intros out snt l.
      unfold try_except. now rewrite H, Hc.
  - exists Forever, lines, rf', calls. intros out snt l.
    unfold try_except. now rewrite H.
Qed.

Lemma local_for_each {A} (l : list A) (body : A -> M unit) :
  (forall x, local (body x)) -> local (for_each l body).
Proof.
  intros Hb. induction l as [|x l IH]; cbn [for_each].
  - apply local_ret.
  - apply local_bind; [apply Hb | intros _; exact IH].
Qed.

Ltac local_step :=
  first [ apply local_lift | apply local_ret | apply local_print | apply local_call
        | apply local_rfile_read
        | apply local_for_each; intros
        | apply local_try_except; [|intros]
        | apply local_bind; [|intros] ].

Lemma do_POST_local (T : Tables) (hdrs : headers) : local (WebhookHandler.do_POST T hdrs).
Proof.
  unfold WebhookHandler.do_POST, send_response, send_header, end_headers, wfile_write,
    WebhookHandler.log_message.
  repeat local_step.
  destruct (truthy T _); repeat local_step.
Qed.

Section Independence.

Variable T : Tables.

(** What [handle] gives is what [do_POST] does on a connection of its own. *)
Lemma handle_do_POST (r : request) :
  exists o reply block rest,
    (forall out snt l,
       WebhookHandler.do_POST T (req_headers r) (mk_world out (req_stream r) snt l)
       = (o, mk_world (out ++ block) rest (snt ++ reply) l)) /\
    (forall w, handle T r w = (reply, printed block w)).
Proof.
  destruct (do_POST_local T (req_headers r) (req_stream r))
    as (o & lines & rf' & calls & H).
  exists o, calls, lines, rf'. split; [exact H|].
  intros w. unfold handle. rewrite H. reflexivity.
Qed.

Lemma handle_local (r : request) :
  exists reply block, forall w, handle T r w = (reply, printed block w).
Proof.
  destruct (handle_do_POST r) as (_ & reply & block & _ & _ & H). now exists reply, block.
Qed.

Lemma serve_local (rs : list request) :
  exists replies block, forall w, serve T rs w = (replies, printed block w).
Proof.
  induction rs as [|r rs (replies & block & IH)].
  - exists [], []. intros w. cbn. now rewrite printed_nil.
  - destruct (handle_local r) as (reply & blk & H).
    exists (reply :: replies), (blk ++ block)%list. intros w.
    cbn [serve]. now rewrite H, IH, printed_app.
Qed.

(** C7. What the handler sends back for a request and the block it prints
    are determined by the request alone: from any world, whatever the
    console already shows and whatever was handled before, handling the
    request gives the same reply and adds the same block; served twice in a
    row, it gives that reply twice and that block twice. The reply is the
    acknowledgment or nothing; it is the acknowledgment, and the block
    begins with the opening lines, whenever the body is read and is
    well-formed UTF-8: the same payload sent twice is then acknowledged
    twice. *)
Theorem requests_are_independent (r : request) :
  exists reply block,
    (forall w, handle T r w = (reply, printed block w)) /\
    (forall w, serve T [r; r] w = ([reply; reply], printed (block ++ block) w)) /\
    (reply = acknowledgment \/ reply = []) /\
    (forall n text,
       py_int T (headers_getitem (req_headers r) "Content-Length") = Return n ->
       (-1 <= n <= read_max T)%Z ->
       decode_utf8 (read_data n (req_stream r)) = Return text ->
       reply = acknowledgment /\
       (exists lines, block = (opening ++ lines)%list) /\
       (forall w, fst (serve T [r; r] w) = [acknowledgment; acknowledgment])).
Proof.
  destruct (handle_do_POST r) as (o & reply & block & rest & Hdo & H).
  assert (Hserve : forall w, serve T [r; r] w = ([reply; reply], printed (block ++ block) w)).
  { intros w. cbn [serve]. rewrite !H, printed_app. reflexivity. }
  exists reply, block. split; [exact H|]. split; [exact Hserve|].
  pose proof (Hdo [] [] None) as H0. cbn [app] in H0. split.
  - destruct (do_POST_cases T (req_headers r) (mk_world [] (req_stream r) [] None))
      as [(e & Hc & _) | (n & _ & _ & [(e & Hc & _) | (lines & text & Hc & _)])];
      rewrite Hc in H0; injection H0 as _ _ _ Hs.
    + right. now symmetry.
    + right. now symmetry.
    + left. now symmetry.
  - intros n text Hlen Hn Hdec.
    destruct (do_POST_acknowledges T _ _ _ _ _ _ Hlen
                (rfile_read_run T n (mk_world [] (req_stream r) [] None) Hn) Hdec)
      as (lines & Hc).
    rewrite Hc in H0. injection H0 as _ Hb _ Hs. cbn in Hb, Hs.
    assert (Hr : reply = acknowledgment) by now symmetry.
    split; [exact Hr|]. split.
    + exists lines. now symmetry.
    + intros w. now rewrite Hserve, Hr.
Qed.

End Independence.

(** ** Starting the listener *)

Section Startup.

Variable T : Tables.
Variable O : os.

Lemma run_server_pieces (port : Z) :
  run_server T O port =
  (HTTPServer O ("", port) ;; print_then (banner port) (serve_forever T O)).
Proof. reflexivity. Qed.

Lemma HTTPServer_run (port : Z) (w : world) :
  bind_error O "" port = None ->
  HTTPServer O ("", port) w = (Return tt, listening_on "" (bound_port O port) w).
Proof. intros Hb. unfold HTTPServer. cbn [fst snd]. now rewrite Hb. Qed.

Lemma run_server_unbound (p : Z) (w : world) (e : exn) :
  bind_error O "" p = Some e -> run_server T O p w = (Raise e, w).
Proof.
  intros Hb. unfold run_server. apply bind_Raise. unfold HTTPServer. cbn [fst snd].
  now rewrite Hb.
Qed.

(** Once the socket is bound, [run_server] prints the banner and serves the
    requests, until it is interrupted if it ever is. *)
Lemma run_server_serving (p : Z) (w : world) :
  bind_error O "" p = None ->
  run_server T O p w =
  (match interruption O with Some e => Raise e | None => Forever end,
   snd (serve T (requests O) (printed (banner p) (listening_on "" (bound_port O p) w)))).
Proof.
  intros Hb. rewrite run_server_pieces, (bind_Return _ _ _ _ tt (HTTPServer_run p w Hb)).
  rewrite (print_then_run _ _ _ (printable_banner p)).
  unfold serve_forever. destruct (serve T (requests O) _) as [replies w'].
  now destruct (interruption O).
Qed.

Lemma served_world (p : Z) (w : world) :
  exists block,
    (forall w0, snd (serve T (requests O) w0) = printed block w0) /\
    snd (serve T (requests O) (printed (banner p) (listening_on "" (bound_port O p) w)))
    = mk_world (stdout w ++ banner p ++ block) (rfile w) (sent w)
        (Some ("", bound_port O p)).
Proof.
  destruct (serve_local T (requests O)) as (replies & block & Hs).
  exists block. split.
  - intros w0. now rewrite Hs.
  - rewrite Hs. unfold printed, listening_on. cbn. now rewrite <- app_assoc.
Qed.

Lemma guarded_run_server (port : Z) (w : world) :
  bind_error O "" port = None ->
  exists o w' rest,
    try_except (run_server T O port) is_KeyboardInterrupt
      (fun _ => print (nl ++ nl ++ "👋 接收器已停止")) w = (o, w') /\
    listening w' = Some ("", bound_port O port) /\
    stdout w' = stdout (printed (banner port ++ rest) w).
Proof.
  intros Hb. destruct (served_world port w) as (block & _ & Hw).
  unfold try_except. rewrite (run_server_serving port w Hb), Hw.
  destruct (interruption O) as [e|].
  - destruct (is_KeyboardInterrupt (exn_cls e)).
    + eexists _, _, (block ++ [farewell])%list.
      change (nl ++ nl ++ "👋 接收器已停止") with farewell.
      rewrite (print_run _ _ printable_farewell). split; [reflexivity|].
      split; [reflexivity|].
      unfold printed. cbn [stdout]. now rewrite <- !app_assoc.
    + eexists _, _, block. split; [reflexivity|]. split; reflexivity.
  - eexists _, _, block. split; [reflexivity|]. split; reflexivity.
Qed.

(** C8 (as amended). Started without an argument, the program binds the
    listening socket to port 8888 on every interface and its banner shows
    http://localhost:8888/webhook. Started with a first argument that [int]
    reads as a port number [p] from 1 to 65535, it binds port [p] and the
    banner shows [p]. (In both cases provided the operating system grants
    the address.) *)
Theorem listener_port (w : world) :
  (forall argv, (List.length argv <= 1)%nat ->
     bind_error O "" 8888 = None ->
     exists o w' rest,
       main T O argv w = (o, w') /\
       listening w' = Some ("", 8888%Z) /\
       stdout w' = stdout (printed (banner 8888 ++ rest) w) /\
       nth 1 (banner 8888) "" = "📡 Webhook URL: http://localhost:8888/webhook") /\
  (forall prog arg others p,
     int_of_str T arg = Return p ->
     (0 < p <= 65535)%Z ->
     bind_error O "" p = None ->
     exists o w' rest,
       main T O (prog :: arg :: others) w = (o, w') /\
       listening w' = Some ("", p) /\
       stdout w' = stdout (printed (banner p ++ rest) w) /\
       nth 1 (banner p) "" = "📡 Webhook URL: http://localhost:" ++ str_of_Z p ++ "/webhook").
Proof.
  split.
  - intros argv Hlen Hb.
    destruct (guarded_run_server 8888 w Hb) as (o & w' & rest & Hrun & Hl & Hs).
    exists o, w', rest. split; [|split; [exact Hl|split; [exact Hs|reflexivity]]].
    unfold main.
    assert (Hc : (1 <? List.length argv)%nat = false) by (apply Nat.ltb_ge; lia).
    rewrite Hc. exact Hrun.
  - intros prog arg others p Hint Hp Hb.
    destruct (guarded_run_server p w Hb) as (o & w' & rest & Hrun & Hl & Hs).
    exists o, w', rest. split; [|split; [|split; [exact Hs|reflexivity]]].
    + unfold main. cbn [List.length Nat.ltb Nat.leb nth py_int].
      rewrite (bind_lift_Return _ _ _ _ Hint). exact Hrun.
    + rewrite Hl. unfold bound_port.
      assert (E : (p =? 0)%Z = false) by (apply Z.eqb_neq; lia). now rewrite E.
Qed.

End Startup.

(** ** Concrete requests and command lines *)

Ltac in_range := unfold read_max, maxsize; cbn; lia.

(** C1 (fails on the code). The POST request with Content-Length 17 whose
    body is the Latin-1 text [{"title": "café"}], which is not well-formed
    UTF-8, gets no response: [do_POST] ends with [UnicodeDecodeError] and
    nothing was sent on the connection. *)
Theorem latin1_body_gets_no_response :
  exists e w',
    WebhookHandler.do_POST ascii_tables (length_header "17") (fresh latin1_body)
      = (Raise e, w') /\
    exn_cls e = UnicodeDecodeError /\
    sent w' = [] /\
    ~ acknowledged w'.
Proof.
  eexists _, _. split; [vm_compute; reflexivity|].
  split; [reflexivity|]. split; [reflexivity|].
  intros (r & Hr & _). discriminate Hr.
Qed.

Lemma undecodable_body_witness :
  WebhookHandler.do_POST ascii_tables (length_header "1") (fresh [xff]) =
  (Raise (mk_exn UnicodeDecodeError
            "'utf-8' codec can't decode byte 0xff in position 0: invalid start byte"),
   mk_world
     (opening ++
      ["解析错误: 'utf-8' codec can't decode byte 0xff in position 0: invalid start byte"])
     [] [] None).
Proof.
  apply (undecodable_body_is_not_acknowledged ascii_tables (length_header "1")
           (fresh [xff]) 1).
  - reflexivity.
  - in_range.
  - reflexivity.
Defined.

Lemma malformed_body_witness :
  exists w',
    WebhookHandler.do_POST ascii_tables (length_header "8") (fresh (bytes_of_str "not json"))
      = (Return tt, w') /\
    stdout w' = stdout (printed
                  (opening ++
                   [ "解析错误: Expecting value: line 1 column 1 (char 0)";
                     "原始数据: not json" ])
                  (fresh (bytes_of_str "not json"))) /\
    acknowledged w'.
Proof.
  apply (malformed_body_tolerance ascii_tables (length_header "8")
           (fresh (bytes_of_str "not json")) 8 "not json"
           (mk_exn JSONDecodeError "Expecting value: line 1 column 1 (char 0)")).
  - reflexivity.
  - in_range.
  - reflexivity.
  - reflexivity.
  - reflexivity.
Defined.

Lemma non_object_witness :
  exists w',
    WebhookHandler.do_POST ascii_tables (length_header "3") (fresh (bytes_of_str "[1]"))
      = (Return tt, w') /\
    stdout w' = stdout (printed
                  (opening ++
                   [ "解析错误: 'list' object has no attribute 'get'";
                     "原始数据: [1]" ])
                  (fresh (bytes_of_str "[1]"))) /\
    acknowledged w'.
Proof.
  apply (non_object_takes_error_branch ascii_tables (length_header "3")
           (fresh (bytes_of_str "[1]")) 3 "[1]" (PList [PInt 1])).
  - reflexivity.
  - in_range.
  - reflexivity.
  - reflexivity.
  - discriminate.
  - reflexivity.
Defined.

(** C4 (the claim as stated fails). Content-Length [-1] is read by [int] as
    an integer; the handler then raises nothing, reads the three bytes of
    the stream, not "-1 bytes", and acknowledges. Content-Length [5] on a
    stream that ends after three bytes makes the handler work on those three
    bytes, not on five. *)
Lemma body_read_step_fails :
  (py_int ascii_tables (headers_getitem (length_header "-1") "Content-Length")
     = Return (-1)%Z /\
   exists w',
     WebhookHandler.do_POST ascii_tables (length_header "-1") (fresh (bytes_of_str "abc"))
       = (Return tt, w') /\
     rfile w' = [] /\ nth 4 (stdout w') "" = "原始数据: abc" /\ acknowledged w') /\
  (py_int ascii_tables (headers_getitem (length_header "5") "Content-Length")
     = Return 5%Z /\
   exists w',
     WebhookHandler.do_POST ascii_tables (length_header "5") (fresh (bytes_of_str "abc"))
       = (Return tt, w') /\
     rfile w' = [] /\ nth 4 (stdout w') "" = "原始数据: abc").
Proof.
  split; (split; [reflexivity|]); eexists; (split; [vm_compute; reflexivity|]).
  - split; [reflexivity|]. split; [reflexivity|]. exact acknowledgment_response.
  - split; reflexivity.
Qed.

Lemma body_read_step_witness :
  (exists e, WebhookHandler.do_POST ascii_tables [] (fresh (bytes_of_str "{}"))
             = (Raise e, fresh (bytes_of_str "{}")) /\ exn_cls e = TypeError) /\
  (exists e, WebhookHandler.do_POST ascii_tables (length_header "abc")
               (fresh (bytes_of_str "{}"))
             = (Raise e, fresh (bytes_of_str "{}")) /\ exn_cls e = ValueError) /\
  (exists e, WebhookHandler.do_POST ascii_tables (length_header "-5")
               (fresh (bytes_of_str "{}"))
             = (Raise e, fresh (bytes_of_str "{}")) /\ exn_cls e = ValueError) /\
  (exists e, WebhookHandler.do_POST ascii_tables (length_header "9223372036854775808")
               (fresh (bytes_of_str "{}"))
             = (Raise e, fresh (bytes_of_str "{}")) /\ exn_cls e = OverflowError) /\
  (exists e, WebhookHandler.do_POST ascii_tables (length_header "35184372088832")
               (fresh (bytes_of_str "{}"))
             = (Raise e, fresh (bytes_of_str "{}")) /\ exn_cls e = MemoryError) /\
  WebhookHandler.do_POST ascii_tables (length_header "2") (fresh (bytes_of_str "{}xyz")) =
    (try_except (display ascii_tables (bytes_of_str "{}")) is_Exception
       (report (bytes_of_str "{}")) ;; acknowledge)
      (printed opening (fresh (bytes_of_str "xyz"))).
Proof.
  split; [|split; [|split; [|split; [|split]]]].
  - apply (proj1 (body_read_step ascii_tables [] (fresh (bytes_of_str "{}")))).
    reflexivity.
  - eexists.
    apply (proj1 (proj2 (body_read_step ascii_tables (length_header "abc")
                           (fresh (bytes_of_str "{}")))) "abc").
    + reflexivity.
    + reflexivity.
  - destruct (proj1 (proj2 (proj2 (body_read_step ascii_tables (length_header "-5")
                                     (fresh (bytes_of_str "{}"))))) (-5)%Z)
      as (e & H & Hv & _).
    + reflexivity.
    + left. lia.
    + exists e. split; [exact H|]. apply Hv. unfold maxsize. lia.
  - destruct (proj1 (proj2 (proj2 (body_read_step ascii_tables
                                     (length_header "9223372036854775808")
                                     (fresh (bytes_of_str "{}")))))
                9223372036854775808%Z)
      as (e & H & _ & Ho & _).
    + reflexivity.
    + right. in_range.
    + exists e. split; [exact H|]. apply Ho. unfold maxsize. lia.
  - destruct (proj1 (proj2 (proj2 (body_read_step ascii_tables
                                     (length_header "35184372088832")
                                     (fresh (bytes_of_str "{}")))))
                35184372088832%Z)
      as (e & H & _ & _ & Hm).
    + reflexivity.
    + right. in_range.
    + exists e. split; [exact H|]. apply Hm. unfold maxsize. cbn. lia.
  - apply (proj2 (proj2 (proj2 (body_read_step ascii_tables (length_header "2")
                                  (fresh (bytes_of_str "{}xyz"))))) 2%Z).
    + reflexivity.
    + in_range.
Defined.



Lemma null_device_id_witness :
  exists w' lines,
    WebhookHandler.do_POST ascii_tables (length_header "19")
      (fresh (bytes_of_str (q "{'device_id': null}"))) = (Return tt, w') /\
    stdout w' = stdout (printed (opening ++ lines)
                          (fresh (bytes_of_str (q "{'device_id': null}")))) /\
    ~ In "设备ID: N/A" lines /\
    exists before after,
      lines = (before ++ ["设备ID: None"] ++ after)%list /\ List.length before = 5%nat.
Proof.
  destruct (null_device_id_renders_None ascii_tables (length_header "19")
              (fresh (bytes_of_str (q "{'device_id': null}"))) 19
              (q "{'device_id': null}") [("device_id", PNone)])
    as (w' & lines & Hrun & Hout & Hno & Hsix).
  - reflexivity.
  - in_range.
  - reflexivity.
  - reflexivity.
  - reflexivity.
  - exists w', lines. split; [exact Hrun|]. split; [exact Hout|]. split; [exact Hno|].
    apply Hsix. repeat constructor.
Defined.



Lemma requests_are_independent_witness :
  exists reply block,
    (forall w, handle ascii_tables (mk_request (length_header "2") (bytes_of_str "{}")) w
               = (reply, printed block w)) /\
    reply = acknowledgment /\
    (exists lines, block = (opening ++ lines)%list) /\
    (forall w, fst (serve ascii_tables
                      [ mk_request (length_header "2") (bytes_of_str "{}");
                        mk_request (length_header "2") (bytes_of_str "{}") ] w)
               = [acknowledgment; acknowledgment]).
Proof.
  destruct (requests_are_independent ascii_tables
              (mk_request (length_header "2") (bytes_of_str "{}")))
    as (reply & block & H & _ & _ & Hack).
  destruct (Hack 2%Z "{}") as (Hr & Hb & Hs).
  - reflexivity.
  - in_range.
  - reflexivity.
  - exists reply, block. split; [exact H|]. split; [exact Hr|]. split; [exact Hb|exact Hs].
Defined.

(** C8 (the claim as stated fails). Started with the argument [0], which
    [int] reads as the integer 0, the program does not bind port 0: the
    operating system picks the port (49152 here), while the banner shows
    http://localhost:0/webhook. *)
Lemma listener_port_fails :
  int_of_str ascii_tables "0" = Return 0%Z /\
  bind_error quiet_os "" 0 = None /\
  exists w',
    main ascii_tables quiet_os ["test-webhook-receiver.py"; "0"] initial_world
      = (Forever, w') /\
    listening w' = Some ("", 49152%Z) /\
    listening w' <> Some ("", 0%Z) /\
    nth 1 (stdout w') "" = "📡 Webhook URL: http://localhost:0/webhook".
Proof.
  split; [reflexivity|]. split; [reflexivity|].
  eexists. split; [vm_compute; reflexivity|].
  split; [reflexivity|]. split; [discriminate|reflexivity].
Qed.

Lemma listener_port_witness :
  (exists o w' rest,
     main ascii_tables quiet_os ["test-webhook-receiver.py"] initial_world = (o, w') /\
     listening w' = Some ("", 8888%Z) /\
     stdout w' = stdout (printed (banner 8888 ++ rest) initial_world) /\
     nth 1 (banner 8888) "" = "📡 Webhook URL: http://localhost:8888/webhook") /\
  (exists o w' rest,
     main ascii_tables quiet_os ["test-webhook-receiver.py"; "9001"] initial_world = (o, w') /\
     listening w' = Some ("", 9001%Z) /\
     stdout w' = stdout (printed (banner 9001 ++ rest) initial_world) /\
     nth 1 (banner 9001) "" = "📡 Webhook URL: http://localhost:9001/webhook").
Proof.
  split.
  - apply (proj1 (listener_port ascii_tables quiet_os initial_world)
             ["test-webhook-receiver.py"]).
    + cbn. lia.
    + reflexivity.
  - apply (proj2 (listener_port ascii_tables quiet_os initial_world)
             "test-webhook-receiver.py" "9001" [] 9001%Z).
    + reflexivity.
    + lia.
    + reflexivity.
Defined.

(** * More of the program *)

(** ** The handler, from the header to the reply *)

Lemma headers_getitem_skip (k v : str) (h : headers) (name : str) :
  lower k <> lower name ->
  headers_getitem ((k, v) :: h) name = headers_getitem h name.
Proof.
  intros H. cbn [headers_getitem].
  destruct (String.eqb (lower k) (lower name)) eqn:E; [|reflexivity].
  apply String.eqb_eq in E. contradiction.
Qed.

Lemma headers_getitem_first (k v : str) (h : headers) (name : str) :
  lower k = lower name ->
  headers_getitem ((k, v) :: h) name = Some v.
Proof.
  intros H. cbn [headers_getitem]. rewrite H, String.eqb_refl. reflexivity.
Qed.

Section Handler.

Variable T : Tables.

(** X1. The handler finds its Content-Length header whatever the case of the
    letters of its name and whatever other headers come before or after it:
    it does what it does on a request that has this one header. *)
Theorem header_lookup_ignores_case_and_others (before after : headers) (k v : str)
    (w : world) :
  Forall (fun kv => lower (fst kv) <> "content-length") before ->
  lower k = "content-length" ->
  WebhookHandler.do_POST T (before ++ (k, v) :: after)%list w
  = WebhookHandler.do_POST T [("Content-Length", v)] w.
Proof.
  intros Hb Hk. apply do_POST_same_length_header.
  induction Hb as [|[k' v'] before Hk' Hb IH].
  - cbn [app]. rewrite (headers_getitem_first k v after); [reflexivity|exact Hk].
  - cbn [app]. rewrite headers_getitem_skip; [exact IH|exact Hk'].
Qed.

(** X2. When the Content-Length header is the decimal numeral of the length
    of the body, a length [rfile.read] accepts, and the body is followed on
    the stream by other bytes, the [try] statement works on exactly the body
    and the bytes that follow are left on the stream. *)
Theorem framed_request (hdrs : headers) (w : world) (body rest : bytes) :
  headers_getitem hdrs "Content-Length"
    = Some (str_of_Z (Z.of_nat (List.length body))) ->
  (Z.of_nat (List.length body) <= read_max T)%Z ->
  rfile w = (body ++ rest)%list ->
  WebhookHandler.do_POST T hdrs w =
  (try_except (display T body) is_Exception (report body) ;; acknowledge)
    (printed opening (mk_world (stdout w) rest (sent w) (listening w))).
Proof.
  intros Hh Hmax Hr.
  assert (Hlen : py_int T (headers_getitem hdrs "Content-Length")
                 = Return (Z.of_nat (List.length body))).
  { rewrite Hh. apply int_of_str_of_Z. apply small_within_limit.
    pose proof maxsize_small. unfold read_max in Hmax. lia. }
  assert (Hn : (-1 <= Z.of_nat (List.length body) <= read_max T)%Z) by lia.
  rewrite (do_POST_after_read T _ _ _ _ _ Hlen (rfile_read_run T _ w Hn)).
  unfold read_data, after_read, read_rest.
  assert (E : (Z.of_nat (List.length body) =? -1)%Z = false) by (apply Z.eqb_neq; lia).
  rewrite E, Hr, Nat2Z.id, firstn_app, skipn_app, Nat.sub_diag, firstn_all, skipn_all.
  cbn [firstn skipn app]. now rewrite app_nil_r.
Qed.

(** X3. Whenever the body-read step succeeds, the handler leaves on the
    stream what follows the bytes it asked for, does not touch the
    listening socket, and what it adds to the console begins with the three
    opening lines. *)
Theorem body_read_leaves_the_rest (hdrs : headers) (w : world) (n : Z) :
  py_int T (headers_getitem hdrs "Content-Length") = Return n ->
  (-1 <= n <= read_max T)%Z ->
  rfile (snd (WebhookHandler.do_POST T hdrs w)) = read_rest n (rfile w) /\
  listening (snd (WebhookHandler.do_POST T hdrs w)) = listening w /\
  exists more,
    stdout (snd (WebhookHandler.do_POST T hdrs w)) = (stdout w ++ opening ++ more)%list.
Proof.
  intros Hlen Hn.
  destruct (decode_utf8 (read_data n (rfile w))) as [text|e|] eqn:Hdec.
  - destruct (do_POST_acknowledges T _ _ _ _ _ _ Hlen (rfile_read_run T n w Hn) Hdec)
      as (lines & H).
    rewrite H. cbn. repeat split. now exists lines.
  - rewrite (do_POST_undecodable _ _ _ _ _ _ _ Hlen (rfile_read_run T n w Hn) Hdec).
    cbn. repeat split. now eexists.
  - now elim (decode_utf8_ends _ Hdec).
Qed.


(** X5. The [try] body fails in five ways only: the body is not well-formed
    UTF-8; [json.loads] raises, because the text is not JSON, is nested too
    deep or holds an integer of too many digits; the JSON value is not an
    object, and the first [data.get] raises [AttributeError]; the console
    cannot encode one of the lines of the object, and [print] raises
    [UnicodeEncodeError] at the first such line; the metadata are a true
    value that is no mapping, and [.items()] raises [AttributeError]. In
    particular the subscript [data['metadata']] never raises. *)
Theorem try_block_failures (post_data : bytes) (w : world) (e : exn) :
  fst (display T post_data w) = Raise e ->
  (exn_cls e = UnicodeDecodeError /\ decode_utf8 post_data = Raise e) \/
  ((exn_cls e = JSONDecodeError \/ exn_cls e = RecursionError \/ exn_cls e = ValueError) /\
   exists text, decode_utf8 post_data = Return text /\ json_loads T text = Raise e) \/
  (exists text v, decode_utf8 post_data = Return text /\ json_loads T text = Return v /\
     (forall d, v <> PDict d) /\ e = attribute_error v "get") \/
  (exn_cls e = UnicodeEncodeError /\
   exists text d before line after,
     decode_utf8 post_data = Return text /\ json_loads T text = Return (PDict d) /\
     (field_lines T d ++ metadata_lines T d)%list = (before ++ line :: after)%list /\
     Forall printable before /\ utf8_encode_error line = Some e) \/
  (exists text d v, decode_utf8 post_data = Return text /\
     json_loads T text = Return (PDict d) /\
     Forall printable (field_lines T d ++ metadata_lines T d) /\
     dict_lookup d "metadata" = Some v /\ truthy T v = true /\
     (forall m, v <> PDict m) /\ e = attribute_error v "items").
Proof.
  destruct (decode_utf8 post_data) as [text|e'|] eqn:Hdec.
  - destruct (json_loads_total T text) as [(v & Hjson) | (e' & Hjson & _ & Hcls)].
    + destruct v as [| b | z | lit | s | l | d];
        try (rewrite (display_not_object T _ _ _ _ Hdec Hjson) by discriminate;
             cbn [fst]; intros [= <-]; right; right; left;
             eexists _, _; repeat split; [exact Hjson | discriminate]).
      destruct (printable_split (field_lines T d ++ metadata_lines T d))
        as [Hp | (before & line & after & e' & Hl & Hp & He)].
      * destruct (metadata_end T d) as [[]|e'|] eqn:Hend.
        -- rewrite (display_object_closes T _ text d w Hdec Hjson Hp Hend). discriminate.
        -- rewrite (display_object_no_items T _ text d e' w Hdec Hjson Hp Hend).
           cbn [fst]. intros [= <-].
           destruct (metadata_end_raises T d _ Hend) as (v & Hm & Ht & Hv & ->).
           right. right. right. right. exists text, d, v. repeat split; assumption.
        -- now elim (metadata_end_ends T d).
      * rewrite (display_object_stops T _ text d before line after e' w Hdec Hjson Hl Hp He).
        cbn [fst]. intros [= <-].
        right. right. right. left. split.
        -- apply (utf8_encode_error_reportable line _ He).
        -- exists text, d, before, line, after. repeat split; assumption.
    + rewrite (display_unparsable T _ _ _ _ Hdec Hjson). cbn [fst]. intros [= <-].
      right. left. split; [exact Hcls|]. now exists text.
  - rewrite (display_undecodable T _ _ _ Hdec). cbn [fst]. intros [= <-].
    left. split; [|reflexivity]. apply (decode_utf8_class _ _ Hdec).
  - now elim (decode_utf8_ends _ Hdec).
Qed.

(** X6. On a body that is read and is well-formed UTF-8 the handler returns
    and acknowledges, and the block it prints ends in one of two ways: with
    the closing line, and then the body is a JSON object; or with the
    parse-error line followed by the raw-data line, which shows the text of
    the body. *)
Theorem block_ends_with_closing_or_report (hdrs : headers) (w : world) (n : Z)
    (text : str) :
  py_int T (headers_getitem hdrs "Content-Length") = Return n ->
  (-1 <= n <= read_max T)%Z ->
  decode_utf8 (read_data n (rfile w)) = Return text ->
  exists shown,
    (WebhookHandler.do_POST T hdrs w =
       (Return tt, replied acknowledgment
                     (printed (opening ++ shown ++ [closing]) (after_read n w))) /\
     exists d, json_loads T text = Return (PDict d)) \/
    (exists e,
       WebhookHandler.do_POST T hdrs w =
         (Return tt, replied acknowledgment
                       (printed (opening ++ shown ++ error_lines e text) (after_read n w))) /\
       is_Exception (exn_cls e) = true).
Proof.
  intros Hlen Hn Hdec.
  destruct (display_shape T _ _ (printed opening (after_read n w)) Hdec)
    as (shown & [(Hd & d & Hobj & _) | (e & Hd & He)]); exists shown.
  - left. split; [|now exists d].
    apply (do_POST_displays T _ _ _ _ _ _ Hlen (rfile_read_run T n w Hn) Hd).
  - right. exists e. split; [|apply He].
    apply (do_POST_reports T _ _ _ _ _ _ _ _ Hlen (rfile_read_run T n w Hn) Hdec Hd He).
Qed.

(** X7. Metadata that are present but false ([null], [false], [0], the empty
    string, the empty array, the empty object) are skipped like absent
    ones: when the console can encode the eight labelled lines, the block
    is these lines and the closing line, without the metadata heading. *)
Theorem falsy_metadata_is_skipped (hdrs : headers) (w : world) (n : Z)
    (text : str) (d : pydict) (v : pyvalue) :
  py_int T (headers_getitem hdrs "Content-Length") = Return n ->
  (-1 <= n <= read_max T)%Z ->
  decode_utf8 (read_data n (rfile w)) = Return text ->
  json_loads T text = Return (PDict d) ->
  Forall printable (field_lines T d) ->
  dict_lookup d "metadata" = Some v ->
  In v [PNone; PBool false; PInt 0; PStr ""; PList []; PDict []] ->
  WebhookHandler.do_POST T hdrs w =
  (Return tt,
   replied acknowledgment
     (printed (opening ++ field_lines T d ++ [closing]) (after_read n w))).
Proof.
  intros Hlen Hn Hdec Hjson Hp Hm Hv.
  assert (Hf : truthy T (dict_get d "metadata" PNone) = false).
  { rewrite (dict_get_present _ _ _ _ Hm).
    cbn [In] in Hv. repeat (destruct Hv as [<-|Hv]; [reflexivity|]). contradiction. }
  assert (Hml : metadata_lines T d = []) by (unfold metadata_lines; now rewrite Hf).
  assert (Hend : metadata_end T d = Return tt)
    by (unfold metadata_end; cbv zeta; now rewrite Hf).
  apply (do_POST_displays T _ _ _ _ _ _ Hlen (rfile_read_run T n w Hn)).
  rewrite (display_object_closes T _ text d _ Hdec Hjson); [|rewrite Hml|exact Hend].
  - now rewrite Hml.
  - now rewrite app_nil_r.
Qed.

(** X8. Metadata that are a true value but no object (a non-empty string or
    array, a non-zero number, [true]) make the [try] body fail after the
    metadata heading was printed: when the console can encode the eight
    labelled lines, the block is these lines, the heading, then the two
    lines of the [except] branch, without the closing line, and the request
    is acknowledged. *)
Theorem metadata_that_is_no_mapping (hdrs : headers) (w : world) (n : Z)
    (text : str) (d : pydict) (v : pyvalue) :
  py_int T (headers_getitem hdrs "Content-Length") = Return n ->
  (-1 <= n <= read_max T)%Z ->
  decode_utf8 (read_data n (rfile w)) = Return text ->
  json_loads T text = Return (PDict d) ->
  Forall printable (field_lines T d) ->
  dict_lookup d "metadata" = Some v ->
  truthy T v = true ->
  (forall m, v <> PDict m) ->
  WebhookHandler.do_POST T hdrs w =
  (Return tt,
   replied acknowledgment
     (printed (opening ++ field_lines T d ++ [metadata_heading]
                 ++ [ "解析错误: '" ++ type_name v ++ "' object has no attribute 'items'";
                      "原始数据: " ++ text ])
        (after_read n w))).
Proof.
  intros Hlen Hn Hdec Hjson Hp Hm Ht Hv.
  assert (Hml : metadata_lines T d = [metadata_heading]).
  { unfold metadata_lines. rewrite (dict_get_present _ _ _ _ Hm), Ht.
    destruct v; try reflexivity. now elim (Hv d0). }
  assert (Hend : metadata_end T d = Raise (attribute_error v "items")).
  { unfold metadata_end. cbv zeta. rewrite (dict_get_present _ _ _ _ Hm), Ht.
    destruct v; try reflexivity. now elim (Hv d0). }
  rewrite (do_POST_reports T _ _ _ _ _ _ (attribute_error v "items")
             (field_lines T d ++ [metadata_heading])
             Hlen (rfile_read_run T n w Hn) Hdec).
  - now rewrite <- !app_assoc.
  - rewrite <- Hml. apply (display_object_no_items T _ text d _ _ Hdec Hjson); [|exact Hend].
    rewrite Hml. apply Forall_app. split; [exact Hp|].
    constructor; [exact printable_metadata_heading|constructor].
  - apply attribute_error_reportable. apply plain_check. reflexivity.
Qed.

(** X9. With a Content-Length that [int] reads as 0 the handler reads
    nothing, whatever is on the stream, takes the [except] branch on the
    empty text, on which [json.loads] always raises, and acknowledges. The
    failure reported is "Expecting value: line 1 column 1 (char 0)" as soon
    as the recursion limit leaves [json.loads] the two nested calls it needs
    to build that error. *)
Theorem empty_body_is_reported (hdrs : headers) (w : world) :
  py_int T (headers_getitem hdrs "Content-Length") = Return 0%Z ->
  exists e,
    json_loads T "" = Raise e /\
    WebhookHandler.do_POST T hdrs w =
    (Return tt,
     replied acknowledgment
       (printed (opening ++ [ "解析错误: " ++ exn_str e; "原始数据: " ]) w)) /\
    ((2 <= json_depth T)%nat ->
     exn_str e = "Expecting value: line 1 column 1 (char 0)").
Proof.
  intros Hlen.
  assert (Hread : rfile_read T 0 w = (Return [], w)).
  { unfold rfile_read, read_error, maxsize. cbn.
    assert (E : (Z.of_N (memory T) <? 0)%Z = false) by (apply Z.ltb_ge; lia).
    rewrite E. now destruct w. }
  assert (Hjson : exists e, json_loads T "" = Raise e /\
            ((2 <= json_depth T)%nat ->
             exn_str e = "Expecting value: line 1 column 1 (char 0)")).
  { unfold json_loads. cbn. unfold raise_syntax_error.
    destruct (no_room_error (json_depth T + 1)) as [e|] eqn:E.
    - exists e. split; [reflexivity|]. intros Hroom. exfalso. revert E.
      destruct (json_depth T) as [|[|k]]; [lia|lia|]. now rewrite Nat.add_1_r.
    - eexists. split; reflexivity. }
  destruct Hjson as (e & Hjson & Hmsg). exists e. split; [exact Hjson|]. split; [|exact Hmsg].
  rewrite (do_POST_reports T _ _ _ _ _ "" e [] Hlen Hread eq_refl).
  - reflexivity.
  - rewrite (display_unparsable T [] "" _ _ eq_refl Hjson). now rewrite printed_nil.
  - apply (json_loads_reportable _ _ _ Hjson).
Qed.

(** X10. A body of ASCII bytes only that is read is always acknowledged,
    whatever it holds: on a fresh connection the handler returns and the
    client reads the success acknowledgment. *)
Theorem ascii_body_is_acknowledged (hdrs : headers) (w : world) (n : Z) :
  py_int T (headers_getitem hdrs "Content-Length") = Return n ->
  (-1 <= n <= read_max T)%Z ->
  forallb is_ascii_byte (read_data n (rfile w)) = true ->
  sent w = [] ->
  fst (WebhookHandler.do_POST T hdrs w) = Return tt /\
  acknowledged (snd (WebhookHandler.do_POST T hdrs w)).
Proof.
  intros Hlen Hn Ha Hs.
  destruct (do_POST_acknowledges T _ _ _ _ _ _ Hlen (rfile_read_run T n w Hn)
              (decode_utf8_ascii _ Ha)) as (lines & H).
  rewrite H. cbn [fst snd]. split; [reflexivity|]. now apply replied_acknowledged.
Qed.

End Handler.

(** ** The requests of a run *)

Section Requests.

Variable T : Tables.


(** X11. Every request either gets no reply at all, and then nothing was
    printed for it, or only the opening lines and one parse-error line; or
    it gets exactly the acknowledgment, and then its block begins with the
    opening lines. Nothing else is printed for a request: the handler logs
    no request line. *)
Theorem every_request_outcome (r : request) (w : world) :
  exists block,
    snd (handle T r w) = printed block w /\
    ((fst (handle T r w) = [] /\
      (block = [] \/
       exists e, block = (opening ++ [("解析错误: " ++ exn_str e)%string])%list)) \/
     (fst (handle T r w) = acknowledgment /\
      exists lines, block = (opening ++ lines)%list)).
Proof.
  unfold handle.
  destruct (do_POST_cases T (req_headers r)
              (mk_world (stdout w) (req_stream r) [] (listening w)))
    as [(e & H & He) | (n & Hlen & Hn & [(e & H & Hd) | (lines & text & H & Hd)])];
    rewrite H; cbn [fst snd stdout sent listening printed replied after_read].
  - exists []. split.
    + unfold printed. rewrite app_nil_r. reflexivity.
    + left. split; [reflexivity|now left].
  - eexists. split; [reflexivity|].
    left. split; [reflexivity|]. right. now exists e.
  - eexists. split; [reflexivity|].
    right. split; [reflexivity|]. now exists lines.
Qed.



End Requests.

(** ** The entry point *)

Section EntryPoint.

Variable T : Tables.
Variable O : os.

Lemma main_port (argv : list str) (p : Z) (w : world) :
  asks_for_port T argv p ->
  main T O argv w =
  try_except (run_server T O p) is_KeyboardInterrupt (fun _ => print farewell) w.
Proof.
  intros [[Hlen ->] | (prog & arg & others & -> & Hint)]; unfold main.
  - assert (Hc : (1 <? List.length argv)%nat = false) by (apply Nat.ltb_ge; lia).
    now rewrite Hc.
  - cbn [List.length Nat.ltb Nat.leb nth py_int].
    now rewrite (bind_lift_Return _ _ _ _ Hint).
Qed.

(** X14. Started with the decimal numeral of an integer [p] as its first
    argument, a numeral within the limit [int] sets on the number of digits,
    the program runs [run_server(p)] under the guard for
    [KeyboardInterrupt]: [int] reads back the very integer, so that the
    banner shows the argument as it was typed. *)
Theorem numeral_argument_is_the_port (prog : str) (p : Z) (others : list str)
    (w : world) :
  exceeds_int_limit T (decimal_digits p) = false ->
  main T O (prog :: str_of_Z p :: others) w =
    try_except (run_server T O p) is_KeyboardInterrupt (fun _ => print farewell) w /\
  nth 1 (banner p) "" = "📡 Webhook URL: http://localhost:"
                          ++ nth 1 (prog :: str_of_Z p :: others) "" ++ "/webhook".
Proof.
  intros Hlim. split; [|reflexivity].
  apply main_port. right. exists prog, (str_of_Z p), others.
  split; [reflexivity|now apply int_of_str_of_Z].
Qed.

(** X15. A first argument that [int] rejects ends the program with
    [ValueError] before a socket is bound or a line printed. *)
Theorem invalid_port_argument (prog arg : str) (others : list str) (w : world) (e : exn) :
  int_of_str T arg = Raise e ->
  main T O (prog :: arg :: others) w = (Raise e, w) /\ exn_cls e = ValueError.
Proof.
  intros Hint. split.
  - unfold main. cbn [List.length Nat.ltb Nat.leb nth py_int].
    now apply bind_lift_Raise.
  - apply (int_of_str_class _ _ _ Hint).
Qed.

(** X16. When the operating system refuses the address, the exception
    leaves the program as it is: the guard around [run_server] catches
    [KeyboardInterrupt] only, no banner is printed and nothing is bound. *)
Theorem startup_failure_is_unhandled (argv : list str) (p : Z) (w : world) (e : exn) :
  asks_for_port T argv p ->
  bind_error O "" p = Some e ->
  is_KeyboardInterrupt (exn_cls e) = false ->
  main T O argv w = (Raise e, w).
Proof.
  intros Hp Hb He. rewrite (main_port _ _ _ Hp). unfold try_except.
  now rewrite (run_server_unbound _ _ _ _ _ Hb), He.
Qed.

(** X17. When the user interrupts the running server, the program ends
    normally. The socket is bound to the port asked for, to a port the
    operating system picks when the port asked for is 0; the banner shows
    the port asked for; the requests that arrived are served in turn; the
    farewell line is the last line printed. *)
Theorem interrupt_ends_with_farewell (argv : list str) (p : Z) (w : world) (e : exn) :
  asks_for_port T argv p ->
  bind_error O "" p = None ->
  interruption O = Some e ->
  exn_cls e = KeyboardInterrupt ->
  main T O argv w =
    (Return tt,
     printed [farewell]
       (snd (serve T (requests O)
               (printed (banner p) (listening_on "" (bound_port O p) w))))) /\
  exists block,
    (forall w0, snd (serve T (requests O) w0) = printed block w0) /\
    snd (main T O argv w) =
      mk_world (stdout w ++ banner p ++ block ++ [nl ++ nl ++ "👋 接收器已停止"])
        (rfile w) (sent w) (Some ("", bound_port O p)).
Proof.
  intros Hp Hb Hi He.
  assert (Hmain : main T O argv w =
            (Return tt,
             printed [farewell]
               (snd (serve T (requests O)
                       (printed (banner p) (listening_on "" (bound_port O p) w)))))).
  { rewrite (main_port _ _ _ Hp). unfold try_except.
    rewrite (run_server_serving T O p w Hb), Hi, He. cbn [is_KeyboardInterrupt].
    apply (print_run _ _ printable_farewell). }
  split; [exact Hmain|].
  destruct (served_world T O p w) as (block & Hblock & Hw).
  exists block. split; [exact Hblock|].
  rewrite Hmain. cbn [snd]. rewrite Hw. unfold printed, farewell. cbn.
  now rewrite <- !app_assoc.
Qed.

(** X18. Once the socket is bound the program never returns by itself: it
    serves for ever unless an exception ends [serve_forever]; an exception
    other than [KeyboardInterrupt] leaves the program unhandled; and the
    program returns only after a [KeyboardInterrupt]. *)
Theorem serving_ends_only_by_exception (argv : list str) (p : Z) (w : world) :
  asks_for_port T argv p ->
  bind_error O "" p = None ->
  (interruption O = None -> fst (main T O argv w) = Forever) /\
  (forall e, interruption O = Some e -> is_KeyboardInterrupt (exn_cls e) = false ->
             fst (main T O argv w) = Raise e) /\
  (fst (main T O argv w) = Return tt ->
   exists e, interruption O = Some e /\ exn_cls e = KeyboardInterrupt).
Proof.
  intros Hp Hb. rewrite (main_port _ _ _ Hp).
  unfold try_except. rewrite (run_server_serving T O p w Hb).
  destruct (interruption O) as [e|].
  - split; [discriminate|]. split.
    + intros e' [= <-] He. now rewrite He.
    + destruct (is_KeyboardInterrupt (exn_cls e)) eqn:Hk; [|discriminate].
      intros _. exists e. split; [reflexivity|].
      destruct (exn_cls e); try discriminate Hk; reflexivity.
  - split; [reflexivity|]. split; [discriminate|]. discriminate.
Qed.

End EntryPoint.

(** ** More concrete requests and command lines *)

Lemma header_lookup_witness :
  WebhookHandler.do_POST ascii_tables
    [("Host", "localhost:8888"); ("content-length", "2"); ("Content-Length", "7")]
    (fresh (bytes_of_str "{}"))
  = WebhookHandler.do_POST ascii_tables [("Content-Length", "2")]
      (fresh (bytes_of_str "{}")).
Proof.
  apply (header_lookup_ignores_case_and_others ascii_tables
           [("Host", "localhost:8888")] [("Content-Length", "7")] "content-length" "2").
  - constructor; [discriminate|constructor].
  - reflexivity.
Defined.

Lemma framed_request_witness :
  WebhookHandler.do_POST ascii_tables (length_header "3") (fresh (bytes_of_str "[1]POST")) =
  (try_except (display ascii_tables (bytes_of_str "[1]")) is_Exception
     (report (bytes_of_str "[1]")) ;; acknowledge)
    (printed opening (fresh (bytes_of_str "POST"))).
Proof.
  apply (framed_request ascii_tables (length_header "3") (fresh (bytes_of_str "[1]POST"))
           (bytes_of_str "[1]") (bytes_of_str "POST")).
  - reflexivity.
  - in_range.
  - reflexivity.
Defined.

Lemma body_read_leaves_the_rest_witness :
  rfile (snd (WebhookHandler.do_POST ascii_tables (length_header "2")
                (fresh (bytes_of_str "{}xyz")))) = bytes_of_str "xyz" /\
  listening (snd (WebhookHandler.do_POST ascii_tables (length_header "2")
                    (fresh (bytes_of_str "{}xyz")))) = None /\
  exists more,
    stdout (snd (WebhookHandler.do_POST ascii_tables (length_header "2")
                   (fresh (bytes_of_str "{}xyz")))) = ([] ++ opening ++ more)%list.
Proof.
  apply (body_read_leaves_the_rest ascii_tables (length_header "2")
           (fresh (bytes_of_str "{}xyz")) 2).
  - reflexivity.
  - in_range.
Defined.

Lemma try_block_failures_witness :
  (exn_cls (attribute_error (PList [PInt 1]) "get") = UnicodeDecodeError /\
   decode_utf8 (bytes_of_str "[1]") = Raise (attribute_error (PList [PInt 1]) "get")) \/
  ((exn_cls (attribute_error (PList [PInt 1]) "get") = JSONDecodeError \/
    exn_cls (attribute_error (PList [PInt 1]) "get") = RecursionError \/
    exn_cls (attribute_error (PList [PInt 1]) "get") = ValueError) /\
   exists text, decode_utf8 (bytes_of_str "[1]") = Return text /\
                json_loads ascii_tables text
                  = Raise (attribute_error (PList [PInt 1]) "get")) \/
  (exists text v, decode_utf8 (bytes_of_str "[1]") = Return text /\
     json_loads ascii_tables text = Return v /\
     (forall d, v <> PDict d) /\
     attribute_error (PList [PInt 1]) "get" = attribute_error v "get") \/
  (exn_cls (attribute_error (PList [PInt 1]) "get") = UnicodeEncodeError /\
   exists text d before line after,
     decode_utf8 (bytes_of_str "[1]") = Return text /\
     json_loads ascii_tables text = Return (PDict d) /\
     (field_lines ascii_tables d ++ metadata_lines ascii_tables d)%list
       = (before ++ line :: after)%list /\
     Forall printable before /\
     utf8_encode_error line = Some (attribute_error (PList [PInt 1]) "get")) \/
  (exists text d v, decode_utf8 (bytes_of_str "[1]") = Return text /\
     json_loads ascii_tables text = Return (PDict d) /\
     Forall printable (field_lines ascii_tables d ++ metadata_lines ascii_tables d) /\
     dict_lookup d "metadata" = Some v /\ truthy ascii_tables v = true /\
     (forall m, v <> PDict m) /\
     attribute_error (PList [PInt 1]) "get" = attribute_error v "items").
Proof.
  apply (try_block_failures ascii_tables (bytes_of_str "[1]") (fresh [])
           (attribute_error (PList [PInt 1]) "get")).
  reflexivity.
Defined.

Lemma block_ends_witness :
  exists shown,
    (WebhookHandler.do_POST ascii_tables (length_header "2") (fresh (bytes_of_str "{}")) =
       (Return tt, replied acknowledgment
                     (printed (opening ++ shown ++ [closing]) (fresh []))) /\
     exists d, json_loads ascii_tables "{}" = Return (PDict d)) \/
    (exists e,
       WebhookHandler.do_POST ascii_tables (length_header "2") (fresh (bytes_of_str "{}")) =
         (Return tt, replied acknowledgment
                       (printed (opening ++ shown ++ error_lines e "{}") (fresh []))) /\
       is_Exception (exn_cls e) = true).
Proof.
  apply (block_ends_with_closing_or_report ascii_tables (length_header "2")
           (fresh (bytes_of_str "{}")) 2 "{}").
  - reflexivity.
  - in_range.
  - reflexivity.
Defined.

Lemma falsy_metadata_witness :
  WebhookHandler.do_POST ascii_tables (length_header "15")
    (fresh (bytes_of_str (q "{'metadata': 0}"))) =
  (Return tt,
   replied acknowledgment
     (printed
        (opening
         ++ [ nl ++ "告警ID: None"; "标题: None"; "消息: None"; "严重程度: None";
              "告警类型: None"; "设备ID: N/A"; "创建时间: None"; "时间戳: None" ]
         ++ [ closing ])
        (fresh []))).
Proof.
  apply (falsy_metadata_is_skipped ascii_tables (length_header "15")
           (fresh (bytes_of_str (q "{'metadata': 0}"))) 15
           (q "{'metadata': 0}") [("metadata", PInt 0)] (PInt 0)).
  - reflexivity.
  - in_range.
  - reflexivity.
  - reflexivity.
  - repeat constructor.
  - reflexivity.
  - right. right. left. reflexivity.
Defined.

Lemma metadata_no_mapping_witness :
  WebhookHandler.do_POST ascii_tables (length_header "20")
    (fresh (bytes_of_str (q "{'metadata': 'zone'}"))) =
  (Return tt,
   replied acknowledgment
     (printed
        (opening
         ++ [ nl ++ "告警ID: None"; "标题: None"; "消息: None"; "严重程度: None";
              "告警类型: None"; "设备ID: N/A"; "创建时间: None"; "时间戳: None" ]
         ++ [ nl ++ "元数据:" ]
         ++ [ "解析错误: 'str' object has no attribute 'items'";
              "原始数据: " ++ q "{'metadata': 'zone'}" ])
        (fresh []))).
Proof.
  apply (metadata_that_is_no_mapping ascii_tables (length_header "20")
           (fresh (bytes_of_str (q "{'metadata': 'zone'}"))) 20
           (q "{'metadata': 'zone'}") [("metadata", PStr "zone")] (PStr "zone")).
  - reflexivity.
  - in_range.
  - reflexivity.
  - reflexivity.
  - repeat constructor.
  - reflexivity.
  - reflexivity.
  - discriminate.
Defined.

Lemma empty_body_witness :
  exists e,
    json_loads ascii_tables "" = Raise e /\
    WebhookHandler.do_POST ascii_tables (length_header "0") (fresh (bytes_of_str "{}")) =
    (Return tt,
     replied acknowledgment
       (printed (opening ++ [ "解析错误: " ++ exn_str e; "原始数据: " ])
          (fresh (bytes_of_str "{}")))) /\
    exn_str e = "Expecting value: line 1 column 1 (char 0)".
Proof.
  destruct (empty_body_is_reported ascii_tables (length_header "0")
              (fresh (bytes_of_str "{}")) eq_refl) as (e & Hjson & Hrun & Hmsg).
  exists e. split; [exact Hjson|]. split; [exact Hrun|].
  apply Hmsg. cbn. lia.
Defined.

Lemma ascii_body_witness :
  fst (WebhookHandler.do_POST ascii_tables (length_header "5")
         (fresh (bytes_of_str "hello"))) = Return tt /\
  acknowledged (snd (WebhookHandler.do_POST ascii_tables (length_header "5")
                       (fresh (bytes_of_str "hello")))).
Proof.
  apply (ascii_body_is_acknowledged ascii_tables (length_header "5")
           (fresh (bytes_of_str "hello")) 5).
  - reflexivity.
  - in_range.
  - reflexivity.
  - reflexivity.
Defined.

Lemma numeral_argument_witness :
  main ascii_tables quiet_os ["test-webhook-receiver.py"; "9001"] initial_world =
    try_except (run_server ascii_tables quiet_os 9001) is_KeyboardInterrupt
      (fun _ => print farewell) initial_world /\
  nth 1 (banner 9001) "" = "📡 Webhook URL: http://localhost:9001/webhook".
Proof.
  apply (numeral_argument_is_the_port ascii_tables quiet_os "test-webhook-receiver.py"
           9001 [] initial_world).
  reflexivity.
Defined.

Lemma invalid_port_witness :
  main ascii_tables quiet_os ["test-webhook-receiver.py"; "http"] initial_world =
    (Raise (mk_exn ValueError "invalid literal for int() with base 10: 'http'"),
     initial_world) /\
  exn_cls (mk_exn ValueError "invalid literal for int() with base 10: 'http'") = ValueError.
Proof.
  apply (invalid_port_argument ascii_tables quiet_os "test-webhook-receiver.py" "http" []
           initial_world).
  reflexivity.
Defined.

Lemma startup_failure_witness :
  main ascii_tables busy_os ["test-webhook-receiver.py"] initial_world =
  (Raise (mk_exn OSError "[Errno 98] Address already in use"), initial_world).
Proof.
  apply (startup_failure_is_unhandled ascii_tables busy_os ["test-webhook-receiver.py"]
           8888 initial_world).
  - left. split; [cbn; lia|reflexivity].
  - reflexivity.
  - reflexivity.
Defined.

Lemma interrupt_witness :
  main ascii_tables
    (interrupted_os [mk_request (length_header "2") (bytes_of_str "{}")])
    ["test-webhook-receiver.py"; "9001"] initial_world =
  (Return tt,
   mk_world
     (banner 9001 ++ opening
      ++ [ nl ++ "告警ID: None"; "标题: None"; "消息: None"; "严重程度: None";
           "告警类型: None"; "设备ID: N/A"; "创建时间: None"; "时间戳: None"; closing ]
      ++ [ nl ++ nl ++ "👋 接收器已停止" ])
     [] [] (Some ("", 9001%Z))).
Proof.
  apply (proj1 (interrupt_ends_with_farewell ascii_tables
                  (interrupted_os [mk_request (length_header "2") (bytes_of_str "{}")])
                  ["test-webhook-receiver.py"; "9001"] 9001 initial_world
                  (mk_exn KeyboardInterrupt "")
                  (or_intror (ex_intro _ "test-webhook-receiver.py"
                     (ex_intro _ "9001" (ex_intro _ [] (conj eq_refl eq_refl)))))
                  eq_refl eq_refl eq_refl)).
Defined.

Lemma serving_ends_witness :
  (interruption quiet_os = None ->
   fst (main ascii_tables quiet_os ["test-webhook-receiver.py"] initial_world) = Forever) /\
  (forall e, interruption quiet_os = Some e -> is_KeyboardInterrupt (exn_cls e) = false ->
     fst (main ascii_tables quiet_os ["test-webhook-receiver.py"] initial_world) = Raise e) /\
  (fst (main ascii_tables quiet_os ["test-webhook-receiver.py"] initial_world) = Return tt ->
   exists e, interruption quiet_os = Some e /\ exn_cls e = KeyboardInterrupt).
Proof.
  apply (serving_ends_only_by_exception ascii_tables quiet_os ["test-webhook-receiver.py"]
           8888 initial_world).
  - left. split; [cbn; lia|reflexivity].
  - reflexivity.
Defined.
